(** * AI Business Analytics API: schema inference, sampling and insights

    A shallow embedding of [main.py]: the type inferencer [infer_type], the
    ingestion loop of [upload_dataset], the statistics of [generate_insights]
    and the three handlers that look a dataset up by id, together with the
    parts of the Python runtime they call ([str.strip], [int], [float],
    [repr], [min], [max], [sum], the [.2f] format, insertion-ordered [dict]s,
    [collections.Counter] and the iteration of a [csv.DictReader]). *)

From Stdlib Require Import ZArith NArith Bool List Lia.
From Stdlib Require Import Ascii String.
From Stdlib Require Import DecimalString.
From Stdlib Require Import SpecFloat.
Import ListNotations.

Local Open Scope string_scope.
Local Open Scope list_scope.
Local Open Scope nat_scope.

(* ================================================================== *)
(** * The Python runtime the handlers rely on *)
(* ================================================================== *)

(** ** Text

    A [str] is a [string] whose characters are the code points U+0000 to
    U+00FF.  On that range the whitespace of [str.strip] is U+0009-U+000D,
    U+001C-U+0020, U+0085 and U+00A0, and the only decimal digits are
    [0]-[9]. *)
Module PyStr.

Definition code (c : ascii) : N := N_of_ascii c.

(** [c.isspace()]: what [str.strip] removes. *)
Definition is_space (c : ascii) : bool :=
  let n := code c in
  ((9 <=? n) && (n <=? 13) || (28 <=? n) && (n <=? 32)
   || (n =? 133) || (n =? 160))%N.

(** What [int] and [float] discard around a numeral.  They read U+0085 and
    U+00A0 as spaces and then skip the whitespace of C, U+0009-U+000D and
    U+0020; the separators U+001C-U+001F, which [str.strip] removes, stay
    and make the numeral malformed. *)
Definition is_number_space (c : ascii) : bool :=
  let n := code c in
  ((9 <=? n) && (n <=? 13) || (n =? 32) || (n =? 133) || (n =? 160))%N.

Definition is_digit (c : ascii) : bool :=
  let n := code c in ((48 <=? n) && (n <=? 57))%N.

Definition digit_val (c : ascii) : Z := Z.of_N (code c) - 48.

(** Removing the characters of a class at the start, at the end and at
    both ends of a text. *)
Fixpoint lstrip_of (sp : ascii -> bool) (s : string) : string :=
  match s with
  | String c s' => if sp c then lstrip_of sp s' else s
  | EmptyString => EmptyString
  end.

Fixpoint rstrip_of (sp : ascii -> bool) (s : string) : string :=
  match s with
  | String c s' =>
      match rstrip_of sp s' with
      | EmptyString => if sp c then EmptyString else String c EmptyString
      | r => String c r
      end
  | EmptyString => EmptyString
  end.

Definition strip_of (sp : ascii -> bool) (s : string) : string :=
  rstrip_of sp (lstrip_of sp s).

(** [s.strip()] *)
Definition strip (s : string) : string := strip_of is_space s.

(** The text [int] and [float] read the numeral from. *)
Definition number_strip (s : string) : string := strip_of is_number_space s.

(** [c.lower()] on one character: [A]-[Z] and the capital letters of
    U+00C0-U+00DE (all but the multiplication sign U+00D7) move up by 32. *)
Definition lower_char (c : ascii) : ascii :=
  let n := code c in
  if ((65 <=? n) && (n <=? 90)
      || (192 <=? n) && (n <=? 222) && negb (n =? 215))%N
  then ascii_of_N (n + 32) else c.

Fixpoint lower (s : string) : string :=
  match s with
  | String c s' => String (lower_char c) (lower s')
  | EmptyString => EmptyString
  end.

Fixpoint rev_aux (s acc : string) : string :=
  match s with
  | String c s' => rev_aux s' (String c acc)
  | EmptyString => acc
  end.

(** [s.endswith(suffix)] *)
Definition endswith (s suffix : string) : bool :=
  prefix (rev_aux suffix "") (rev_aux s "").

(** [str(n)] for an [int] *)
Definition of_nat (n : nat) : string :=
  NilZero.string_of_uint (Nat.to_uint n).

Definition of_Z (z : Z) : string :=
  match z with
  | Zneg p => "-" ++ NilZero.string_of_uint (Pos.to_uint p)
  | _ => NilZero.string_of_uint (N.to_uint (Z.to_N z))
  end.

(** The longest prefix of digits, and what follows it. *)
Fixpoint take_digits (s : string) : string * string :=
  match s with
  | String c s' =>
      if is_digit c
      then let (d, r) := take_digits s' in (String c d, r)
      else (EmptyString, s)
  | EmptyString => (EmptyString, EmptyString)
  end.

(** The number a string of digits denotes, most significant first. *)
Fixpoint digits_value (s : string) (acc : Z) : Z :=
  match s with
  | String c s' => digits_value s' (10 * acc + digit_val c)
  | EmptyString => acc
  end.

(** An optional leading [+] or [-]: whether it was [-], and the rest. *)
Definition take_sign (s : string) : bool * string :=
  match s with
  | String "-" r => (true, r)
  | String "+" r => (false, r)
  | _ => (false, s)
  end.

(** Digit separators.  Python allows a single [_] between two digits and
    nowhere else; [drop_underscores] removes them, or fails.  [prev] is the
    character before [s], [None] at the start. *)
Fixpoint drop_underscores (prev : option ascii) (s : string) : option string :=
  match s with
  | String c s' =>
      if (c =? "_")%char then
        match prev with
        | Some p => if is_digit p then drop_underscores (Some c) s' else None
        | None => None
        end
      else
        match prev with
        | Some "_"%char =>
            if is_digit c
            then option_map (String c) (drop_underscores (Some c) s')
            else None
        | _ => option_map (String c) (drop_underscores (Some c) s')
        end
  | EmptyString =>
      match prev with
      | Some "_"%char => None
      | _ => Some EmptyString
      end
  end.

(** The number of digits [int] reads at most (the default of the
    interpreters from 3.11 on). *)
Definition max_str_digits : nat := 4300.

(** [int(s)] for a [str], base 10: surrounding whitespace, a sign, digits
    with separators, [max_str_digits] digits at most.  [None] stands for
    [ValueError]. *)
Definition to_int (s : string) : option Z :=
  let (neg, body) := take_sign (number_strip s) in
  match drop_underscores None body with
  | Some ds =>
      match take_digits ds with
      | (String c d, EmptyString) =>
          if max_str_digits <? String.length (String c d) then None
          else
            let v := digits_value (String c d) 0 in
            Some (if neg then - v else v)%Z
      | _ => None
      end
  | None => None
  end.

(** [c.isprintable()] *)
Definition is_printable (c : ascii) : bool :=
  let n := code c in
  ((32 <=? n) && (n <=? 126) || (161 <=? n) && negb (n =? 173))%N.

Definition hex_char (n : N) : ascii :=
  if (n <? 10)%N then ascii_of_N (n + 48) else ascii_of_N (n + 87).

Definition single_quote : ascii := ascii_of_N 39.
Definition double_quote : ascii := ascii_of_N 34.
Definition backslash : ascii := ascii_of_N 92.

Fixpoint contains (c : ascii) (s : string) : bool :=
  match s with
  | String c' s' => (c' =? c)%char || contains c s'
  | EmptyString => false
  end.

(** One character of [repr(s)], between the quotes [quote]. *)
Definition escape (quote c : ascii) : string :=
  let n := code c in
  if ((c =? quote) || (c =? backslash))%char then String backslash (String c "")
  else if (n =? 9)%N then String backslash "t"
  else if (n =? 10)%N then String backslash "n"
  else if (n =? 13)%N then String backslash "r"
  else if is_printable c then String c ""
  else String backslash
         (String "x" (String (hex_char (n / 16)) (String (hex_char (n mod 16)) ""))).

Fixpoint escape_all (quote : ascii) (s : string) : string :=
  match s with
  | String c s' => escape quote c ++ escape_all quote s'
  | EmptyString => EmptyString
  end.

(** [repr(s)] for a [str]: single quotes, unless the text holds one and no
    double quote. *)
Definition repr (s : string) : string :=
  let quote :=
    if contains single_quote s && negb (contains double_quote s)
    then double_quote else single_quote in
  String quote (escape_all quote s ++ String quote "").

(** [sep.join(l)] *)
Fixpoint join (sep : string) (l : list string) : string :=
  match l with
  | [] => EmptyString
  | [x] => x
  | x :: l' => x ++ sep ++ join sep l'
  end.

End PyStr.

(** ** Floating point

    A Python [float] is an IEEE 754 binary64 number: [spec_float] at
    precision 53 and maximal exponent 1024, with the correctly rounded
    (nearest, ties to even) operations of [SpecFloat]. *)
Module PyFloat.

Definition float : Type := spec_float.

Definition prec : Z := 53.
Definition emax : Z := 1024.

Definition zero : float := S754_zero false.
Definition nan : float := S754_nan.

Definition add : float -> float -> float := SFadd prec emax.
Definition ltb : float -> float -> bool := SFltb.

Definition is_finite (x : float) : bool :=
  match x with
  | S754_zero _ | S754_finite _ _ _ => true
  | S754_infinity _ | S754_nan => false
  end.

Definition is_nan (x : float) : bool :=
  match x with S754_nan => true | _ => false end.

(** [float(n)] for an [int]: the nearest float; [None] stands for
    [OverflowError] (the nearest float would be infinite). *)
Definition of_int (n : Z) : option float :=
  match binary_normalize prec emax n 0 false with
  | S754_infinity _ => None
  | x => Some x
  end.

(** The float a length becomes when a float is divided by it: the nearest
    float.  (A length is below [2 ^ 63], far from the integers that [float]
    refuses with [OverflowError].) *)
Definition of_len (n : nat) : float :=
  binary_normalize prec emax (Z.of_nat n) 0 false.

(** [x / y]; [None] stands for [ZeroDivisionError]. *)
Definition truediv (x y : float) : option float :=
  match y with
  | S754_zero _ => None
  | _ => Some (SFdiv prec emax x y)
  end.

(** The float nearest to [m * 10 ^ e], for [0 <= m], with sign [neg]. *)
Definition of_decimal (neg : bool) (m e : Z) : float :=
  if (m =? 0)%Z then S754_zero neg
  else if (0 <=? e)%Z
  then binary_normalize prec emax (cond_Zopp neg (m * 10 ^ e)) 0 neg
  else
    let '(q, e', l) := SFdiv_core_binary prec emax m 0 (10 ^ (- e)) 0 in
    binary_round_aux prec emax neg q e' l.

(** A decimal numeral: digits, an optional point and more digits (one
    digit at least in all), an optional exponent.  The result is the
    mantissa and the power of ten. *)
Definition parse_exponent (s : string) : option Z :=
  match s with
  | EmptyString => Some 0%Z
  | String c r =>
      if ((c =? "e") || (c =? "E"))%char then
        let (eneg, r') := PyStr.take_sign r in
        match PyStr.take_digits r' with
        | (String d ds, EmptyString) =>
            let v := PyStr.digits_value (String d ds) 0 in
            Some (if eneg then - v else v)%Z
        | _ => None
        end
      else None
  end.

Definition parse_decimal (s : string) : option (Z * Z) :=
  let (ip, r1) := PyStr.take_digits s in
  let (fp, r2) :=
    match r1 with
    | String "." r => PyStr.take_digits r
    | _ => (EmptyString, r1)
    end in
  match (ip ++ fp)%string with
  | EmptyString => None
  | ds =>
      match parse_exponent r2 with
      | Some ex =>
          Some (PyStr.digits_value ds 0, (ex - Z.of_nat (String.length fp))%Z)
      | None => None
      end
  end.

(** [float(s)] for a [str]; [None] stands for [ValueError].  Separators
    are checked on the whole text, then the whitespace around the numeral
    is discarded, then come a sign and either [inf], [infinity] or [nan] in
    any case, or a decimal numeral.  A numeral too large for a float reads
    as an infinity. *)
Definition of_string (s : string) : option float :=
  match PyStr.drop_underscores None s with
  | None => None
  | Some s1 =>
      let (neg, body) := PyStr.take_sign (PyStr.number_strip s1) in
      let low := PyStr.lower body in
      if ((low =? "inf") || (low =? "infinity"))%string
      then Some (S754_infinity neg)
      else if (low =? "nan")%string then Some S754_nan
      else option_map (fun me => of_decimal neg (fst me) (snd me))
                      (parse_decimal body)
  end.

(** [min(vals)] and [max(vals)]: the first element is the candidate and a
    later one replaces it when it compares strictly below (above) it;
    [None] stands for the [ValueError] of an empty sequence. *)
Definition py_min (vals : list float) : option float :=
  match vals with
  | [] => None
  | v :: rest =>
      Some (fold_left (fun cur x => if ltb x cur then x else cur) rest v)
  end.

Definition py_max (vals : list float) : option float :=
  match vals with
  | [] => None
  | v :: rest =>
      Some (fold_left (fun cur x => if ltb cur x then x else cur) rest v)
  end.

(** [sum(vals)]: the elements added left to right, starting from [0].
    (Interpreters from 3.12 on carry a compensation term along, which can
    change the last bits of the result.) *)
Definition py_sum (vals : list float) : float := fold_left add vals zero.

(** The nearest integer to [num / den], ties to even, for [0 < den]. *)
Definition div_round_half_even (num den : Z) : Z :=
  let q := (num / den)%Z in
  let r := (num mod den)%Z in
  match (2 * r ?= den)%Z with
  | Lt => q
  | Gt => (q + 1)%Z
  | Eq => if Z.even q then q else (q + 1)%Z
  end.

(** The magnitude of a finite float times 100, rounded to an integer. *)
Definition hundredths (m : positive) (e : Z) : Z :=
  if (0 <=? e)%Z then (Zpos m * 2 ^ e * 100)%Z
  else div_round_half_even (Zpos m * 100) (2 ^ (- e)).

Definition digit_char (d : Z) : ascii := ascii_of_N (48 + Z.to_N d).

Definition two_digits (n : Z) : string :=
  String (digit_char (n / 10)) (String (digit_char (n mod 10)) EmptyString).

Definition sign_text (neg : bool) : string := if neg then "-" else "".

(** [format(x, ".2f")], the [{x:.2f}] of an f-string. *)
Definition format_2f (x : float) : string :=
  match x with
  | S754_nan => "nan"
  | S754_infinity neg => sign_text neg ++ "inf"
  | S754_zero neg => sign_text neg ++ "0.00"
  | S754_finite neg m e =>
      let h := hundredths m e in
      sign_text neg ++ PyStr.of_Z (h / 100) ++ "." ++ two_digits (h mod 100)
  end.

End PyFloat.

(** ** Values

    What a cell of a row can hold: [None], a [str], an [int] or a list of
    [str].  A CSV reader yields the first two under the column names, and a
    list under the key [None] for a line longer than the header; a stored
    sample can hold numbers too. *)
Inductive pyval : Type :=
| VNone
| VStr (s : string)
| VInt (n : Z)
| VList (l : list string).

Fixpoint list_eqb (a b : list string) : bool :=
  match a, b with
  | [], [] => true
  | x :: a', y :: b' => (x =? y)%string && list_eqb a' b'
  | _, _ => false
  end.

(** [v == w] *)
Definition pyval_eqb (v w : pyval) : bool :=
  match v, w with
  | VNone, VNone => true
  | VStr a, VStr b => (a =? b)%string
  | VInt a, VInt b => (a =? b)%Z
  | VList a, VList b => list_eqb a b
  | _, _ => false
  end.

(** [str(v)] *)
Definition py_str (v : pyval) : string :=
  match v with
  | VNone => "None"
  | VStr s => s
  | VInt n => PyStr.of_Z n
  | VList l => "[" ++ PyStr.join ", " (map PyStr.repr l) ++ "]"
  end.

(** [float(v)]; [None] stands for the exception it raises ([TypeError] on
    [None] and on a list, [ValueError] on a malformed [str], [OverflowError]
    on a huge [int]). *)
Definition py_float (v : pyval) : option PyFloat.float :=
  match v with
  | VNone | VList _ => None
  | VStr s => PyFloat.of_string s
  | VInt n => PyFloat.of_int n
  end.

(** ** Dictionaries

    A [dict] keeps its entries in insertion order: an association list in
    which assignment overwrites in place or appends, so that no key is ever
    repeated.  Its keys are compared with [==]; the dictionaries of the
    handlers have [str] keys, and those that hold the rows of a CSV reader
    have [str] keys and the key [None]. *)
Class Key (K : Type) : Type := key_eqb : K -> K -> bool.

#[export] Instance string_key : Key string := String.eqb.

#[export] Instance option_key {K : Type} {EK : Key K} : Key (option K) :=
  fun a b =>
    match a, b with
    | Some x, Some y => key_eqb x y
    | None, None => true
    | _, _ => false
    end.

(** The equality of the keys decides whether they are the same. *)
Class KeyLaws (K : Type) {EK : Key K} : Prop :=
  key_eqb_eq : forall a b : K, key_eqb a b = true <-> a = b.

Module Dict.
Section Ops.
Context {K V : Type} {EK : Key K}.

Definition t : Type := list (K * V).

(** [d.get(k)] *)
Fixpoint get (d : t) (k : K) : option V :=
  match d with
  | [] => None
  | (k', v) :: d' => if key_eqb k' k then Some v else get d' k
  end.

(** [k in d] *)
Definition mem (d : t) (k : K) : bool :=
  match get d k with Some _ => true | None => false end.

(** [d[k] = v] *)
Fixpoint set (d : t) (k : K) (v : V) : t :=
  match d with
  | [] => [(k, v)]
  | (k', v') :: d' =>
      if key_eqb k' k then (k', v) :: d' else (k', v') :: set d' k v
  end.

(** [d.items()] and [d.keys()] *)
Definition items (d : t) : list (K * V) := d.
Definition keys (d : t) : list K := map fst d.
End Ops.
Arguments t : clear implicits.
End Dict.

(** [max(items, key=key)]: the first item is the candidate and a later one
    replaces it when its key is strictly greater, so the first of several
    maximal items wins; [None] stands for the [ValueError] of an empty
    sequence. *)
Definition py_max_by {A : Type} (key : A -> nat) (items : list A) : option A :=
  match items with
  | [] => None
  | x :: rest =>
      Some (fold_left (fun cur y => if key cur <? key y then y else cur) rest x)
  end.

(** ** Outcomes of a request

    A handler returns, raises [HTTPException], or lets another exception
    escape (the framework then answers with status 500). *)
Inductive outcome (A : Type) : Type :=
| Return (a : A)
| HTTPException (status_code : nat) (detail : string)
| Raised (exn : string).
Arguments Return {A} a.
Arguments HTTPException {A} status_code detail.
Arguments Raised {A} exn.

Definition obind {A B : Type} (m : outcome A) (k : A -> outcome B) : outcome B :=
  match m with
  | Return a => k a
  | HTTPException c d => HTTPException c d
  | Raised e => Raised e
  end.

(** A value that must be there: [None] raises [exn]. *)
Definition expect {A : Type} (exn : string) (o : option A) : outcome A :=
  match o with
  | Some a => Return a
  | None => Raised exn
  end.

(** A [for] loop whose body can raise. *)
Fixpoint for_each {A S : Type} (body : S -> A -> outcome S) (l : list A) (s : S)
  : outcome S :=
  match l with
  | [] => Return s
  | x :: l' => obind (body s x) (for_each body l')
  end.

Declare Scope outcome_scope.
Delimit Scope outcome_scope with outcome.
Notation "x <- m ;; k" := (obind m (fun x => k))
  (at level 61, m at next level, right associativity) : outcome_scope.

(* ================================================================== *)
(** * Documents and the store *)
(* ================================================================== *)

(** The key of a cell in a row: a column name, or [None]. *)
Definition column_key : Type := option string.

(** [str(k)], as an f-string renders a key. *)
Definition key_str (k : column_key) : string :=
  match k with
  | Some name => name
  | None => "None"
  end.

(** A row: keys mapped to cells.  [csv.DictReader] yields one for every
    line that is not blank: the names of the header mapped to the texts of
    the cells, to [None] where the line is shorter than the header, and,
    where the line is longer, the key [None] mapped to the list of the
    cells beyond the header. *)
Definition row : Type := Dict.t column_key pyval.

(** What iterating [csv.DictReader] gives: the rows it yields, in order,
    and how the iteration ends, exhausted ([None]) or with an exception,
    the [csv.Error] of a line the parser refuses. *)
Record DictReader := { yielded : list row; raised : option string }.

(** A column descriptor [{"name": ..., "type": ...}]. *)
Record column := { col_name : column_key; col_type : string }.

(** The [Dataset], [Insight] and [Chart] documents of [schemas.py]. *)
Record dataset_doc := {
  ds_name : string;
  ds_columns : list column;
  ds_sample : list row;
  ds_row_count : nat
}.

Record insight_doc := {
  in_dataset_id : string;
  in_summary : string;
  in_details : list string
}.

Record chart_doc := {
  ch_dataset_id : string;
  ch_title : string;
  ch_chart_type : string;
  ch_x : string;
  ch_y : option string;
  ch_agg : option string;
  ch_options : Dict.t string pyval
}.

Inductive document : Type :=
| DatasetDoc (d : dataset_doc)
| InsightDoc (i : insight_doc)
| ChartDoc (c : chart_doc).

(** ** Object ids *)
Module ObjectId.

(** The bytes of an id. *)
Definition t : Type := list N.

Definition hex_val (c : ascii) : option N :=
  let n := PyStr.code c in
  if ((48 <=? n) && (n <=? 57))%N then Some (n - 48)%N
  else if ((97 <=? n) && (n <=? 102))%N then Some (n - 87)%N
  else if ((65 <=? n) && (n <=? 70))%N then Some (n - 55)%N
  else None.

Definition is_ascii_space (c : ascii) : bool :=
  let n := PyStr.code c in ((9 <=? n) && (n <=? 13) || (n =? 32))%N.

(** [bytes.fromhex(s)]: two hexadecimal digits per byte, whitespace
    allowed between bytes. *)
Fixpoint fromhex (s : string) : option (list N) :=
  match s with
  | EmptyString => Some []
  | String a s1 =>
      if is_ascii_space a then fromhex s1
      else
        match s1 with
        | String b s2 =>
            match hex_val a, hex_val b, fromhex s2 with
            | Some hi, Some lo, Some rest => Some ((16 * hi + lo)%N :: rest)
            | _, _, _ => None
            end
        | EmptyString => None
        end
  end.

(** [ObjectId(s)] for a [str]: 24 characters that [bytes.fromhex]
    accepts; [None] stands for [InvalidId]. *)
Definition of_string (s : string) : option t :=
  if (String.length s =? 24)%nat then fromhex s else None.

Definition hex_digit (n : N) : ascii :=
  if (n <? 10)%N then ascii_of_N (n + 48) else ascii_of_N (n + 87).

(** [str(oid)]: two lower-case hexadecimal digits per byte. *)
Fixpoint to_string (o : t) : string :=
  match o with
  | [] => EmptyString
  | b :: o' =>
      String (hex_digit (b / 16)) (String (hex_digit (b mod 16)) (to_string o'))
  end.

Fixpoint eqb (a b : t) : bool :=
  match a, b with
  | [], [] => true
  | x :: a', y :: b' => (x =? y)%N && eqb a' b'
  | _, _ => false
  end.

(** The twelve bytes of a number below [256 ^ 12], most significant first. *)
Fixpoint of_counter (width : nat) (n : N) (acc : t) : t :=
  match width with
  | O => acc
  | S w => of_counter w (n / 256)%N ((n mod 256)%N :: acc)
  end.

End ObjectId.

Definition collection : Type := list (ObjectId.t * document).

(** The database: its collections by name, and how many documents were
    ever inserted. *)
Record database := {
  collections : Dict.t string collection;
  inserted : N
}.

(** [db[name]]: a collection not written to yet is empty. *)
Definition db_collection (d : database) (name : string) : collection :=
  match Dict.get (collections d) name with
  | Some c => c
  | None => []
  end.

(** [coll.find_one({"_id": oid})] *)
Fixpoint find_one (c : collection) (oid : ObjectId.t) : option (ObjectId.t * document) :=
  match c with
  | [] => None
  | (o, d) :: c' => if ObjectId.eqb o oid then Some (o, d) else find_one c' oid
  end.

(** What a handler sees besides its arguments: the module-level [db]
    ([None] when the database is not configured), whether [bson] could be
    imported ([ObjectId is None] otherwise) and whether [multipart] can. *)
Record world := {
  db : option database;
  has_bson : bool;
  has_multipart : bool
}.

Definition with_db (w : world) (d : database) : world :=
  {| db := Some d; has_bson := has_bson w; has_multipart := has_multipart w |}.

(** Whether all the keys of a row are text. *)
Definition text_keys (r : row) : bool :=
  forallb (fun k => match k with Some _ => true | None => false end) (Dict.keys r).

(** Whether the encoder of the store takes a document: the keys of every
    map in it must be text.  The maps of a document are built by the
    handlers with text keys, but for the sample rows, which come from the
    reader. *)
Definition encodable (doc : document) : bool :=
  match doc with
  | DatasetDoc ds => forallb text_keys (ds_sample ds)
  | InsightDoc _ | ChartDoc _ => true
  end.

(** Modelled from the spec: [create_document] of the store adapter
    ([database.py] is not among the sources), the spec's
    [create(collection, doc) -> id]: the document is added to the named
    collection under a newly generated id and the id comes back as a string.
    Without a database the dependency is unavailable, and a document the
    encoder refuses ([InvalidDocument] of [bson], for a key that is not
    text) is not stored. *)
Definition create_document (name : string) (doc : document) (w : world)
  : outcome string * world :=
  match db w with
  | None => (Raised "DependencyUnavailableError", w)
  | Some d =>
      if encodable doc then
        let oid := ObjectId.of_counter 12 (inserted d) [] in
        let d' := {| collections :=
                       Dict.set (collections d) name (db_collection d name ++ [(oid, doc)]);
                     inserted := (inserted d + 1)%N |} in
        (Return (ObjectId.to_string oid), with_db w d')
      else (Raised "InvalidDocument", w)
  end.

(** A document as a handler returns it: [serialize_doc] turns [_id] into
    the string [id], and the creating handlers return [{"id": ..., **doc}]. *)
Record served := { id : string; body : document }.

Definition serialize_doc (entry : ObjectId.t * document) : served :=
  {| id := ObjectId.to_string (fst entry); body := snd entry |}.

(* ================================================================== *)
(** * Type inference *)
(* ================================================================== *)

(** [infer_type]: blank is ["null"]; otherwise what [int] accepts is
    ["int"], what only [float] accepts is ["float"], the rest ["string"].
    Blank is what [str.strip] empties; [int] and [float] discard less. *)
Definition infer_type (value : string) : string :=
  if (PyStr.strip value =? "")%string then "null"
  else
    match PyStr.to_int value with
    | Some _ => "int"
    | None =>
        match PyFloat.of_string value with
        | Some _ => "float"
        | None => "string"
        end
    end.

(* ================================================================== *)
(** * Uploading a dataset *)
(* ================================================================== *)

Definition max_preview : nat := 100.

(** The tally a column starts with. *)
Definition new_counts : Dict.t string nat :=
  [("int", 0); ("float", 0); ("string", 0); ("null", 0)].

(** The body of [for k, v in row.items()]. *)
Definition tally_cell (type_counts : Dict.t column_key (Dict.t string nat))
    (kv : column_key * pyval) : outcome (Dict.t column_key (Dict.t string nat)) :=
  let (k, v) := kv in
  let t := infer_type (match v with VNone => "" | _ => py_str v end) in
  let type_counts :=
    if Dict.mem type_counts k then type_counts
    else Dict.set type_counts k new_counts in
  (counts <- expect "KeyError" (Dict.get type_counts k) ;;
   n <- expect "KeyError" (Dict.get counts t) ;;
   Return (Dict.set type_counts k (Dict.set counts t (n + 1))))%outcome.

(** The variables of the reading loop. *)
Record ingest := {
  rows : list row;
  total : nat;
  type_counts : Dict.t column_key (Dict.t string nat)
}.

(** The body of [for row in reader]. *)
Definition ingest_row (st : ingest) (r : row) : outcome ingest :=
  let total' := total st + 1 in
  let rows' :=
    if List.length (rows st) <? max_preview then rows st ++ [r] else rows st in
  (tc <- for_each tally_cell (Dict.items r) (type_counts st) ;;
   Return {| rows := rows'; total := total'; type_counts := tc |})%outcome.

(** The loop [for row in reader]: the body runs on the rows the reader
    yields, and an exception of the reader ends the loop and escapes. *)
Definition read_rows (reader : DictReader) : outcome ingest :=
  (st <- for_each ingest_row (yielded reader)
           {| rows := []; total := 0; type_counts := [] |} ;;
   match raised reader with
   | Some exn => Raised exn
   | None => Return st
   end)%outcome.

(** The most frequent non-null type of a tally. *)
Definition best_type (counts : Dict.t string nat) : outcome string :=
  (kv <- expect "ValueError"
        (py_max_by snd
           (filter (fun kv => negb (fst kv =? "null")%string) (Dict.items counts))) ;;
   Return (fst kv))%outcome.

(** The loop [for col, counts in type_counts.items()]. *)
Definition describe_columns (tc : Dict.t column_key (Dict.t string nat))
  : outcome (list column) :=
  for_each
    (fun columns_meta cc =>
       (best <- best_type (snd cc) ;;
        Return (columns_meta ++ [{| col_name := fst cc; col_type := best |}]))%outcome)
    (Dict.items tc) [].

(** [name or file.filename] *)
Definition display_name (name : option string) (filename : string) : string :=
  match name with
  | Some n => if (n =? "")%string then filename else n
  | None => filename
  end.

(** From the rows of the CSV reader to [dataset_doc]. *)
Definition extract (filename : string) (name : option string) (reader : DictReader)
  : outcome dataset_doc :=
  (st <- read_rows reader ;;
   if total st =? 0 then HTTPException 400 "Empty CSV or failed to parse"
   else
     columns_meta <- describe_columns (type_counts st) ;;
     Return {| ds_name := display_name name filename;
               ds_columns := columns_meta;
               ds_sample := rows st;
               ds_row_count := total st |})%outcome.

(** [POST /api/datasets].  [reader] is the CSV reader over the uploaded
    content. *)
Definition upload_dataset (filename : string) (name : option string)
    (reader : DictReader) (w : world) : outcome served * world :=
  if negb (PyStr.endswith (PyStr.lower filename) ".csv")
  then (HTTPException 400 "Only CSV files are supported", w)
  else
    match db w with
    | None =>
        (HTTPException 500
           "Database not configured. Set DATABASE_URL and DATABASE_NAME.", w)
    | Some _ =>
        if negb (has_multipart w)
        then (HTTPException 500
                "Missing dependency: python-multipart. Please add it to requirements.txt",
              w)
        else
          match extract filename name reader with
          | Return dataset_doc =>
              match create_document "dataset" (DatasetDoc dataset_doc) w with
              | (Return dataset_id, w') =>
                  (Return {| id := dataset_id; body := DatasetDoc dataset_doc |}, w')
              | (HTTPException c d, w') => (HTTPException c d, w')
              | (Raised e, w') => (Raised e, w')
              end
          | HTTPException c d => (HTTPException c d, w)
          | Raised e => (Raised e, w)
          end
    end.

(* ================================================================== *)
(** * Reading a dataset back *)
(* ================================================================== *)

(** [GET /api/datasets/{dataset_id}] *)
Definition get_dataset (dataset_id : string) (w : world) : outcome served * world :=
  match db w with
  | None => (HTTPException 500 "Database not configured", w)
  | Some d =>
      if negb (has_bson w)
      then (HTTPException 500
              "Missing bson (from pymongo). Ensure pymongo is installed.", w)
      else
        match ObjectId.of_string dataset_id with
        | None => (Raised "InvalidId", w)
        | Some oid =>
            match find_one (db_collection d "dataset") oid with
            | None => (HTTPException 404 "Dataset not found", w)
            | Some doc => (Return (serialize_doc doc), w)
            end
        end
  end.

(* ================================================================== *)
(** * Insights *)
(* ================================================================== *)

(** [doc.get("sample", [])] and [doc.get("columns", [])] *)
Definition doc_sample (d : document) : list row :=
  match d with DatasetDoc ds => ds_sample ds | _ => [] end.

Definition doc_columns (d : document) : list column :=
  match d with DatasetDoc ds => ds_columns ds | _ => [] end.

(** [r.get(col)] *)
Definition cell (r : row) (col : column_key) : pyval :=
  match Dict.get r col with
  | Some v => v
  | None => VNone
  end.

Definition numeric_cols (columns : list column) : list column_key :=
  map col_name
    (filter (fun c => existsb (String.eqb (col_type c)) ["int"; "float"]) columns).

Definition categorical_cols (columns : list column) : list column_key :=
  map col_name (filter (fun c => (col_type c =? "string")%string) columns).

(** The body of [for r in sample] in the numeric part. *)
Definition collect_val (col : column_key) (vals : list PyFloat.float) (r : row)
  : list PyFloat.float :=
  let v := cell r col in
  if pyval_eqb v VNone || (PyStr.strip (py_str v) =? "")%string then vals
  else
    match py_float v with
    | Some x => vals ++ [x]
    | None => vals
    end.

Definition numeric_line (col : column_key) (avg mn mx : PyFloat.float) : string :=
  (key_str col ++ ": avg " ++ PyFloat.format_2f avg ++ ", min " ++ PyFloat.format_2f mn
       ++ ", max " ++ PyFloat.format_2f mx ++ " based on sample")%string.

(** The body of [for col in numeric_cols]. *)
Definition numeric_detail (sample : list row) (details : list string)
    (col : column_key) : outcome (list string) :=
  let vals := fold_left (collect_val col) sample [] in
  match vals with
  | [] => Return details
  | _ :: _ =>
      (mn <- expect "ValueError" (PyFloat.py_min vals) ;;
       mx <- expect "ValueError" (PyFloat.py_max vals) ;;
       avg <- expect "ZeroDivisionError"
                (PyFloat.truediv (PyFloat.py_sum vals)
                   (PyFloat.of_len (List.length vals))) ;;
       Return (details ++ [numeric_line col avg mn mx]))%outcome
  end.

(** [collections.Counter(items)]: one entry per distinct item, in the order
    of first occurrence, counting its occurrences. *)
Definition counter_add (freq : Dict.t string nat) (x : string) : Dict.t string nat :=
  Dict.set freq x (match Dict.get freq x with Some n => n | None => 0 end + 1).

Definition Counter (items : list string) : Dict.t string nat :=
  fold_left counter_add items [].

(** [freq.most_common(1)]: [max] over the entries by count. *)
Definition most_common_1 (freq : Dict.t string nat) : list (string * nat) :=
  match py_max_by snd (Dict.items freq) with
  | Some kv => [kv]
  | None => []
  end.

(** The values the mode of a column is taken over. *)
Definition categorical_values (col : column_key) (sample : list row) : list string :=
  map (fun r => py_str (cell r col))
    (filter (fun r => negb (existsb (pyval_eqb (cell r col)) [VNone; VStr ""])) sample).

Definition categorical_line (col : column_key) (top : string) (cnt : nat) : string :=
  (key_str col ++ ": most frequent value is '" ++ top ++ "' (" ++ PyStr.of_nat cnt
       ++ " occurrences in sample)")%string.

(** The body of [for col in categorical_cols]. *)
Definition categorical_detail (sample : list row) (details : list string)
    (col : column_key) : outcome (list string) :=
  let freq := Counter (categorical_values col sample) in
  match freq with
  | [] => Return details
  | _ :: _ =>
      (top_cnt <- expect "IndexError" (hd_error (most_common_1 freq)) ;;
       Return (details ++ [categorical_line col (fst top_cnt) (snd top_cnt)]))%outcome
  end.

Definition summary_text : string :=
  "Quick AI-style summary based on your data sample.".

(** From a stored dataset to the detail lines. *)
Definition insight_details (doc : document) : outcome (list string) :=
  let sample := doc_sample doc in
  let columns := doc_columns doc in
  (details <- for_each (numeric_detail sample) (numeric_cols columns) [] ;;
   for_each (categorical_detail sample) (categorical_cols columns) details)%outcome.

(** [POST /api/insights/{dataset_id}] *)
Definition generate_insights (dataset_id : string) (w : world)
  : outcome served * world :=
  match db w with
  | None => (HTTPException 500 "Database not configured", w)
  | Some d =>
      if negb (has_bson w)
      then (HTTPException 500
              "Missing bson (from pymongo). Ensure pymongo is installed.", w)
      else
        match ObjectId.of_string dataset_id with
        | None => (Raised "InvalidId", w)
        | Some oid =>
            match find_one (db_collection d "dataset") oid with
            | None => (HTTPException 404 "Dataset not found", w)
            | Some doc =>
                match insight_details (snd doc) with
                | Return details =>
                    let insight :=
                      InsightDoc {| in_dataset_id := dataset_id;
                                    in_summary := summary_text;
                                    in_details := details |} in
                    match create_document "insight" insight w with
                    | (Return insight_id, w') =>
                        (Return {| id := insight_id; body := insight |}, w')
                    | (HTTPException c e, w') => (HTTPException c e, w')
                    | (Raised e, w') => (Raised e, w')
                    end
                | HTTPException c e => (HTTPException c e, w)
                | Raised e => (Raised e, w)
                end
            end
        end
  end.

(* ================================================================== *)
(** * Charts *)
(* ================================================================== *)

(** [POST /api/charts]; [payload] is the validated [CreateChart] body, which
    [model_dump] turns into the chart document field by field. *)
Definition save_chart (payload : chart_doc) (w : world) : outcome served * world :=
  match db w with
  | None => (HTTPException 500 "Database not configured", w)
  | Some d =>
      if negb (has_bson w)
      then (HTTPException 500
              "Missing bson (from pymongo). Ensure pymongo is installed.", w)
      else
        match ObjectId.of_string (ch_dataset_id payload) with
        | None => (Raised "InvalidId", w)
        | Some oid =>
            match find_one (db_collection d "dataset") oid with
            | None => (HTTPException 400 "Related dataset not found", w)
            | Some _ =>
                match create_document "chart" (ChartDoc payload) w with
                | (Return chart_id, w') =>
                    (Return {| id := chart_id; body := ChartDoc payload |}, w')
                | (HTTPException c e, w') => (HTTPException c e, w')
                | (Raised e, w') => (Raised e, w')
                end
            end
        end
  end.

(* ================================================================== *)
(** * Listing *)
(* ================================================================== *)

Section Listing.

(** [get_documents] of the store adapter ([database.py] is not among the
    sources), taken as the handlers use it: given the name of a collection
    and a filter it returns documents of the store or raises, and it writes
    nothing. *)
Variable get_documents :
  string -> Dict.t string pyval -> world -> outcome (list (ObjectId.t * document)).

(** [GET /api/datasets] *)
Definition list_datasets (w : world) : outcome (list served) * world :=
  match db w with
  | None => (Return [], w)
  | Some _ =>
      match get_documents "dataset" [] w with
      | Return items => (Return (map serialize_doc items), w)
      | HTTPException c e => (HTTPException c e, w)
      | Raised e => (Raised e, w)
      end
  end.

(** [GET /api/charts], with the optional query parameter [dataset_id]. *)
Definition list_charts (dataset_id : option string) (w : world)
  : outcome (list served) * world :=
  match db w with
  | None => (Return [], w)
  | Some _ =>
      let filt : Dict.t string pyval :=
        match dataset_id with
        | Some s =>
            if (s =? "")%string then [] else Dict.set [] "dataset_id" (VStr s)
        | None => []
        end in
      match get_documents "chart" filt w with
      | Return items => (Return (map serialize_doc items), w)
      | HTTPException c e => (HTTPException c e, w)
      | Raised e => (Raised e, w)
      end
  end.

End Listing.

(* ================================================================== *)
(** * What the statements below speak of *)
(* ================================================================== *)

Definition all_digits (s : string) : bool :=
  (fix go s := match s with
               | String c s' => PyStr.is_digit c && go s'
               | EmptyString => true
               end) s.

(** A number in fixed notation with two fractional digits: an optional
    minus sign, one digit or more, a point, two digits. *)
Definition fixed_2 (s : string) : bool :=
  let body :=
    match s with
    | String c r => if (c =? "-")%char then r else s
    | EmptyString => s
    end in
  match PyStr.take_digits body with
  | (String _ _, String "." (String d1 (String d2 EmptyString))) =>
      PyStr.is_digit d1 && PyStr.is_digit d2
  | _ => false
  end.

(** How a statistic is rendered: with two fractional digits when it is
    finite, by name when it is not. *)
Definition rendered (x : PyFloat.float) (s : string) : Prop :=
  s = PyFloat.format_2f x
  /\ if PyFloat.is_finite x then fixed_2 s = true
     else In s ["nan"; "inf"; "-inf"].

(** Following the spec: the values of a column that are present and not
    blank and parse as floating point, in the order of the sample; missing
    and unparsable cells are skipped. *)
Definition parsed_values (col : column_key) (sample : list row) : list PyFloat.float :=
  flat_map
    (fun r =>
       match Dict.get r col with
       | None | Some VNone => []
       | Some v =>
           if (PyStr.strip (py_str v) =? "")%string then []
           else match py_float v with Some x => [x] | None => [] end
       end)
    sample.

(** Following the spec: the values of a column that are neither null nor
    the empty string, as text, in the order of the sample. *)
Definition counted_values (col : column_key) (sample : list row) : list string :=
  flat_map
    (fun r =>
       match Dict.get r col with
       | None | Some VNone | Some (VStr EmptyString) => []
       | Some v => [py_str v]
       end)
    sample.



(** Where a float stands among the floats: the infinities at the ends, the
    negative numbers below the zeroes and the positive ones above, and
    numbers of one sign by exponent and mantissa. *)
Definition float_key (x : PyFloat.float) : Z * Z * Z :=
  match x with
  | S754_infinity true => (0, 0, 0)
  | S754_finite true m e => (1, - e, - Zpos m)
  | S754_zero _ => (2, 0, 0)
  | S754_finite false m e => (3, e, Zpos m)
  | S754_infinity false => (4, 0, 0)
  | S754_nan => (5, 0, 0)
  end%Z.

Definition lex_lt (a b : Z * Z * Z) : Prop :=
  let '(a1, a2, a3) := a in
  let '(b1, b2, b3) := b in
  (a1 < b1 \/ (a1 = b1 /\ (a2 < b2 \/ (a2 = b2 /\ a3 < b3))))%Z.

Definition labels : list string := ["int"; "float"; "string"; "null"].

(** Every tally has the four labels as its keys, in the order in which
    [new_counts] lists them. *)
Definition tally_ok (counts : Dict.t string nat) : Prop := Dict.keys counts = labels.

Definition tallies_ok (tc : Dict.t column_key (Dict.t string nat)) : Prop :=
  Forall (fun cc => tally_ok (snd cc)) tc.

(** The state of the reading loop after the rows [seen]. *)
Record ingest_inv (seen : list row) (st : ingest) : Prop := {
  inv_rows : rows st = firstn max_preview seen;
  inv_total : total st = List.length seen;
  inv_tallies : tallies_ok (type_counts st);
  inv_keys : forall r, In r seen -> incl (Dict.keys r) (Dict.keys (type_counts st));
  inv_cols : forall k, In k (Dict.keys (type_counts st)) ->
                       exists r, In r seen /\ In k (Dict.keys r)
}.

(** How a column descriptor relates to the tally it was computed from. *)
Definition describes (cc : column_key * Dict.t string nat) (c : column) : Prop :=
  col_name c = fst cc /\ best_type (snd cc) = Return (col_type c).

Definition guards_pass (filename : string) (w : world) : Prop :=
  PyStr.endswith (PyStr.lower filename) ".csv" = true
  /\ db w <> None /\ has_multipart w = true.

(** The database after one more document was stored in the collection
    [name]. *)
Definition stored (name : string) (doc : document) (d : database) : database :=
  {| collections :=
       Dict.set (collections d) name
         (db_collection d name
            ++ [(ObjectId.of_counter 12 (inserted d) [], doc)]);
     inserted := (inserted d + 1)%N |}.


(** The lines a column contributes, read off a run of the loop body on no
    details yet. *)
Definition numeric_lines (sample : list row) (col : column_key) : list string :=
  match numeric_detail sample [] col with
  | Return lines => lines
  | _ => []
  end.

Definition categorical_lines (sample : list row) (col : column_key) : list string :=
  match categorical_detail sample [] col with
  | Return lines => lines
  | _ => []
  end.

(** The text whose type a cell votes for: [str(v) if v is not None else ""]. *)
Definition cell_text (v : pyval) : string :=
  match v with
  | VNone => ""
  | _ => py_str v
  end.

(** All the cells of all the rows, in the order in which they are read. *)
Definition cells (rows : list row) : list (column_key * pyval) := List.concat rows.

(** The number of cells of column [k] whose text is inferred as [t]. *)
Definition votes (cs : list (column_key * pyval)) (k : column_key) (t : string) : nat :=
  List.length
    (filter (fun kv => key_eqb (fst kv) k
                       && (infer_type (cell_text (snd kv)) =? t)%string) cs).

(** The tally of column [k] after the cells [cs]. *)
Definition tally_of (cs : list (column_key * pyval)) (k : column_key)
  : Dict.t string nat :=
  [("int", votes cs k "int"); ("float", votes cs k "float");
   ("string", votes cs k "string"); ("null", votes cs k "null")].

(** The distinct elements of a list, in the order in which they are first
    met. *)
Fixpoint firsts {K : Type} {EK : Key K} (l : list K) : list K :=
  match l with
  | [] => []
  | x :: l' => x :: filter (fun y => negb (key_eqb y x)) (firsts l')
  end.

(** A key joining the keys of a dictionary. *)
Definition add_key {K : Type} {EK : Key K} (ks : list K) (k : K) : list K :=
  if existsb (key_eqb k) ks then ks else ks ++ [k].

(** The type-count table after the cells [cs]: its keys are the columns
    met, each once and in the order in which they were first met, and each
    has the tally of its votes. *)
Record tally_inv (cs : list (column_key * pyval))
    (tc : Dict.t column_key (Dict.t string nat)) : Prop := {
  ti_keys : Dict.keys tc = fold_left add_key (map fst cs) [];
  ti_nodup : NoDup (Dict.keys tc);
  ti_get : forall k, In k (Dict.keys tc) -> Dict.get tc k = Some (tally_of cs k)
}.

(** The ids of a database are the twelve-byte numbers of the documents
    inserted so far, and no two documents of a collection share one. *)
Definition id_space : N := (256 ^ 12)%N.

Definition counter_id (k : N) : ObjectId.t := ObjectId.of_counter 12 k [].

Record store_ok (d : database) : Prop := {
  so_bound : (inserted d <= id_space)%N;
  so_ids : forall name o doc,
      In (o, doc) (db_collection d name) ->
      exists k, (k < inserted d)%N /\ o = counter_id k;
  so_nodup : forall name, NoDup (map fst (db_collection d name))
}.

(** The column type the votes [i], [f] and [s] for int, float and string
    call for: the one with the most votes, the earlier of int, float, string
    when several have the most. *)
Definition wins (t : string) (i f s : nat) : Prop :=
  (t = "int" /\ f <= i /\ s <= i)
  \/ (t = "float" /\ i < f /\ s <= f)
  \/ (t = "string" /\ i < s /\ f < s).

(** The insight computed for a dataset. *)
Definition insight_for (dataset_id : string) (doc : document) : document :=
  InsightDoc
    {| in_dataset_id := dataset_id;
       in_summary := summary_text;
       in_details :=
         flat_map (numeric_lines (doc_sample doc)) (numeric_cols (doc_columns doc))
         ++ flat_map (categorical_lines (doc_sample doc))
              (categorical_cols (doc_columns doc)) |}.

(** The id under which the next document will be stored. *)
Definition next_id (d : database) : string :=
  ObjectId.to_string (counter_id (inserted d)).

(** What a request can be answered with short of a result. *)
Definition upload_errors : list (outcome served) :=
  [HTTPException 400 "Only CSV files are supported";
   HTTPException 500 "Database not configured. Set DATABASE_URL and DATABASE_NAME.";
   HTTPException 500
     "Missing dependency: python-multipart. Please add it to requirements.txt";
   HTTPException 400 "Empty CSV or failed to parse"].

Definition is_hex (c : ascii) : bool :=
  match ObjectId.hex_val c with Some _ => true | None => false end.

Definition all_hex (s : string) : bool :=
  (fix go s := match s with
               | String c s' => is_hex c && go s'
               | EmptyString => true
               end) s.

(** A text of characters of one class only. *)
Fixpoint all_of (sp : ascii -> bool) (s : string) : bool :=
  match s with
  | String c s' => sp c && all_of sp s'
  | EmptyString => true
  end.

(** A text of whitespace only. *)
Definition all_space (s : string) : bool := all_of PyStr.is_space s.

(** A text of nothing but the whitespace that [int] and [float] discard. *)
Definition all_number_space (s : string) : bool := all_of PyStr.is_number_space s.

(** A reader that yields the rows and is exhausted. *)
Definition exhausted (rows : list row) : DictReader :=
  {| yielded := rows; raised := None |}.

(** What the separator check remembers of the character before: whether
    it is a separator, and whether it is a digit. *)
Definition prev_us (prev : option ascii) : bool :=
  match prev with
  | Some p => (p =? "_")%char
  | None => false
  end.

Definition prev_digit (prev : option ascii) : bool :=
  match prev with
  | Some p => PyStr.is_digit p
  | None => false
  end.

(* ================================================================== *)
(** * Sample inputs *)
(* ================================================================== *)

(** A configured deployment whose database is still empty. *)
Definition fresh_world : world :=
  {| db := Some {| collections := []; inserted := 0 |};
     has_bson := true; has_multipart := true |}.

(** A file with one column whose cells are all empty. *)
Definition blank_rows : list row :=
  [[(Some "a", VStr "")]; [(Some "a", VStr " ")]].

(** Three rows, a numeric and a text column. *)
Definition small_rows : list row :=
  [[(Some "n", VStr "1"); (Some "t", VStr "x")];
   [(Some "n", VStr "2"); (Some "t", VStr "y")];
   [(Some "n", VStr "3"); (Some "t", VStr "x")]].

(** More rows than the preview keeps. *)
Definition many_rows : list row := repeat [(Some "n", VStr "7")] 130.

Definition small_dataset : document :=
  DatasetDoc {| ds_name := "small.csv";
                ds_columns := [{| col_name := Some "n"; col_type := "int" |};
                               {| col_name := Some "t"; col_type := "string" |}];
                ds_sample := small_rows;
                ds_row_count := 3 |}.

(** What uploading them to [fresh_world] returns. *)
Definition blank_upload : served :=
  {| id := "000000000000000000000000";
     body := DatasetDoc
               {| ds_name := "blank.csv";
                  ds_columns := [{| col_name := Some "a"; col_type := "int" |}];
                  ds_sample := blank_rows;
                  ds_row_count := 2 |} |}.

Definition many_upload : served :=
  {| id := "000000000000000000000000";
     body := DatasetDoc
               {| ds_name := "Many";
                  ds_columns := [{| col_name := Some "n"; col_type := "int" |}];
                  ds_sample := repeat [(Some "n", VStr "7")] 100;
                  ds_row_count := 130 |} |}.

(** A float column whose only cell reads [nan]. *)
Definition nan_rows : list row := [[(Some "x", VStr "nan")]].

Definition some_chart (dataset_id : string) : chart_doc :=
  {| ch_dataset_id := dataset_id; ch_title := "Sales"; ch_chart_type := "bar";
     ch_x := "n"; ch_y := None; ch_agg := None; ch_options := [] |}.

(** The deployment after [small_rows] was uploaded to [fresh_world]: one
    dataset, stored under the id of twenty-four zeroes. *)
Definition stocked_world : world :=
  snd (upload_dataset "small.csv" None (exhausted small_rows) fresh_world).

(** Rows whose columns appear at different times and hold mixed types. *)
Definition mixed_rows : list row :=
  [[(Some "b", VStr "1"); (Some "a", VStr "x")];
   [(Some "b", VStr "2.5"); (Some "a", VStr ""); (Some "c", VNone)];
   [(Some "c", VStr "7"); (Some "b", VStr "3")]].

Definition mixed_upload : served :=
  {| id := "000000000000000000000000";
     body := DatasetDoc
               {| ds_name := "Mixed";
                  ds_columns := [{| col_name := Some "b"; col_type := "int" |};
                                 {| col_name := Some "a"; col_type := "string" |};
                                 {| col_name := Some "c"; col_type := "int" |}];
                  ds_sample := mixed_rows;
                  ds_row_count := 3 |} |}.

Definition fresh_db : database := {| collections := []; inserted := 0 |}.

(** The database of [stocked_world]. *)
Definition stocked_db : database := stored "dataset" small_dataset fresh_db.

(** What uploading [mixed_rows] to [stocked_world] returns. *)
Definition second_upload : served :=
  {| id := "000000000000000000000001"; body := body mixed_upload |}.

(** The file of the two lines [a] and [1]: one row. *)
Definition one_row : list row := [[(Some "a", VStr "1")]].

(** The file of the two lines [a] and [1,2]: the one data line is longer
    than the header, and the reader files its second cell under [None]. *)
Definition long_row : list row := [[(Some "a", VStr "1"); (None, VList ["2"])]].

(** The file of the three lines [a], [1] and [2] with a bare carriage
    return before more text: the reader yields the row of the second line
    and raises [csv.Error] on the third. *)
Definition broken_reader : DictReader :=
  {| yielded := one_row; raised := Some "csv.Error" |}.

(** The file of the lines [a] and [1], each ended by a bare carriage
    return: the reader raises [csv.Error] before it yields a row. *)
Definition unreadable : DictReader :=
  {| yielded := []; raised := Some "csv.Error" |}.

(** A file of 101 rows of which only the last is longer than the header. *)
Definition late_long_rows : list row :=
  repeat [(Some "a", VStr "1")] 100 ++ long_row.

(* ================================================================== *)
(** * Dictionaries and loops: basic facts *)
(* ================================================================== *)

#[export] Instance string_key_laws : KeyLaws string.
Proof. intros a b. apply String.eqb_eq. Qed.

#[export] Instance option_key_laws {K : Type} {EK : Key K} {LK : KeyLaws K}
  : KeyLaws (option K).
Proof.
  intros [x|] [y|]; cbn; try (split; [discriminate | congruence | reflexivity]).
  - change (key_eqb x y = true <-> Some x = Some y).
    rewrite key_eqb_eq. split; congruence.
  - split; discriminate.
  - split; discriminate.
  - split; reflexivity.
Qed.

Section KeyFacts.
Context {K : Type} {EK : Key K} {LK : KeyLaws K}.
Implicit Types (k : K).

Lemma key_eqb_refl k : key_eqb k k = true.
Proof. now apply key_eqb_eq. Qed.

Lemma key_eqb_neq k k' : key_eqb k k' = false <-> k <> k'.
Proof.
  rewrite <- key_eqb_eq. destruct (key_eqb k k'); split; congruence.
Qed.

Lemma key_eqb_spec k k' : reflect (k = k') (key_eqb k k').
Proof.
  destruct (key_eqb k k') eqn:E; constructor.
  - now apply key_eqb_eq.
  - now apply key_eqb_neq.
Qed.

Lemma key_dec k k' : {k = k'} + {k <> k'}.
Proof. destruct (key_eqb_spec k k'); [now left | now right]. Qed.
End KeyFacts.

Section DictFacts.
Context {K V : Type} {EK : Key K} {LK : KeyLaws K}.
Implicit Types (d : Dict.t K V) (k : K) (v : V).

Lemma get_set_same d k v : Dict.get (Dict.set d k v) k = Some v.
Proof.
  induction d as [|[k' v'] d IH]; simpl.
  - now rewrite key_eqb_refl.
  - destruct (key_eqb k' k) eqn:E; simpl; rewrite E; auto.
Qed.

Lemma get_set_other d k k' v :
  k <> k' -> Dict.get (Dict.set d k v) k' = Dict.get d k'.
Proof.
  intros Hne. induction d as [|[k0 v0] d IH]; simpl.
  - apply key_eqb_neq in Hne. now rewrite Hne.
  - destruct (key_eqb k0 k) eqn:E; simpl.
    + apply key_eqb_eq in E. subst k0.
      apply key_eqb_neq in Hne. now rewrite Hne.
    + now rewrite IH.
Qed.

Lemma get_in_keys d k : Dict.get d k <> None <-> In k (Dict.keys d).
Proof.
  induction d as [|[k' v'] d IH]; simpl.
  - split; [congruence | tauto].
  - destruct (key_eqb k' k) eqn:E.
    + apply key_eqb_eq in E. split; [auto | congruence].
    + apply key_eqb_neq in E. rewrite IH. tauto.
Qed.

Lemma get_some_in d k v : Dict.get d k = Some v -> In (k, v) d.
Proof.
  induction d as [|[k' v'] d IH]; simpl; [congruence|].
  destruct (key_eqb k' k) eqn:E.
  - apply key_eqb_eq in E. intros [= ->]. subst. now left.
  - auto.
Qed.

(** Assigning to a key that is there keeps the keys and their order;
    assigning to a new key appends it. *)
Lemma keys_set d k v :
  Dict.keys (Dict.set d k v)
  = if Dict.mem d k then Dict.keys d else Dict.keys d ++ [k].
Proof.
  unfold Dict.mem.
  induction d as [|[k' v'] d IH]; simpl; [reflexivity|].
  destruct (key_eqb k' k) eqn:E; simpl; [reflexivity|].
  fold (Dict.keys (Dict.set d k v)). rewrite IH.
  fold (Dict.keys d). now destruct (Dict.get d k).
Qed.

Lemma keys_set_incl d k v : incl (Dict.keys d) (Dict.keys (Dict.set d k v)).
Proof.
  rewrite keys_set. destruct (Dict.mem d k);
    [apply incl_refl | apply incl_appl, incl_refl].
Qed.

Lemma key_set_in d k v : In k (Dict.keys (Dict.set d k v)).
Proof. apply get_in_keys. rewrite get_set_same. congruence. Qed.

(** What holds of every value still does after an assignment of a value
    of which it holds. *)
Lemma Forall_set (P : V -> Prop) d k v :
  Forall (fun kv => P (snd kv)) d -> P v ->
  Forall (fun kv => P (snd kv)) (Dict.set d k v).
Proof.
  intros Hd Hv. induction Hd as [|[k' v'] d Hx Hd IH]; simpl.
  - constructor; auto.
  - destruct (key_eqb k' k); constructor; auto.
Qed.

Lemma Forall_get (P : V -> Prop) d k v :
  Forall (fun kv => P (snd kv)) d -> Dict.get d k = Some v -> P v.
Proof.
  intros Hd Hg. apply get_some_in in Hg.
  rewrite Forall_forall in Hd. exact (Hd _ Hg).
Qed.
End DictFacts.

Section LoopFacts.
Context {A S : Type}.

(** A loop whose body keeps an invariant and never raises under it runs
    to the end, and the invariant holds there. *)
Lemma for_each_invariant (I : S -> Prop) (body : S -> A -> outcome S) :
  (forall s x, I s -> exists s', body s x = Return s' /\ I s') ->
  forall l s, I s -> exists s', for_each body l s = Return s' /\ I s'.
Proof.
  intros Hbody l. induction l as [|x l IH]; intros s Hs; simpl.
  - eauto.
  - destruct (Hbody s x Hs) as (s1 & -> & Hs1). simpl. auto.
Qed.

Lemma for_each_app (body : S -> A -> outcome S) l1 l2 s :
  for_each body (l1 ++ l2) s = obind (for_each body l1 s) (for_each body l2).
Proof.
  revert s. induction l1 as [|x l1 IH]; intros s; simpl; [reflexivity|].
  destruct (body s x); simpl; auto.
Qed.

(** A body that always returns makes the loop a left fold. *)
Lemma for_each_pure (f : S -> A -> S) l s :
  for_each (fun s x => Return (f s x)) l s = Return (fold_left f l s).
Proof. revert s. induction l as [|x l IH]; intros s; simpl; auto. Qed.
End LoopFacts.

(* ================================================================== *)
(** * The runtime on examples *)
(* ================================================================== *)

(** [int] and [float] discard spaces and U+00A0 around a numeral and take
    single separators between digits; the separator U+001C, which
    [str.strip] removes, makes the numeral malformed. *)
Example numerals_and_whitespace :
  PyStr.to_int " 42 " = Some 42%Z
  /\ PyStr.to_int (String (ascii_of_N 160) "42") = Some 42%Z
  /\ PyStr.to_int "-1_000" = Some (-1000)%Z
  /\ PyStr.to_int "1__0" = None
  /\ PyStr.to_int "4.5" = None
  /\ PyStr.strip (String (ascii_of_N 28) "42") = "42"
  /\ PyStr.to_int (String (ascii_of_N 28) "42") = None
  /\ PyFloat.of_string (String (ascii_of_N 28) "4.5") = None
  /\ PyFloat.of_string " 4.5 " = PyFloat.of_string "45e-1"
  /\ PyFloat.of_string "-Infinity" = Some (S754_infinity true).
Proof. repeat split; vm_compute; reflexivity. Qed.

(** A numeral of 4300 digits is an [int]; one digit more and only [float]
    reads it. *)
Example long_numerals :
  infer_type (String.concat "" (repeat "1" 4300)) = "int"
  /\ PyStr.to_int (String.concat "" (repeat "1" 4301)) = None
  /\ infer_type (String.concat "" (repeat "1" 4301)) = "float".
Proof. split; [|split]; reflexivity. Qed.

(** The text of a list cell is its [repr], and its vote is [string]. *)
Example list_cells :
  py_str (VList ["2"]) = "['2']"
  /\ py_str (VList ["x"; "y z"]) = "['x', 'y z']"
  /\ py_str (VList [String (ascii_of_N 10) "a"]) = "['\na']"
  /\ py_str (VList ["it's"])
     = String "[" (String PyStr.double_quote "it's" ++ String PyStr.double_quote "]")
  /\ infer_type (cell_text (VList ["2"])) = "string"
  /\ py_float (VList ["2"]) = None.
Proof. repeat split; vm_compute; reflexivity. Qed.

(* ================================================================== *)
(** * The reading loop *)
(* ================================================================== *)

Lemma infer_type_label value : In (infer_type value) labels.
Proof.
  unfold infer_type, labels.
  destruct (PyStr.strip value =? "")%string; [simpl; tauto|].
  destruct (PyStr.to_int value); [simpl; tauto|].
  destruct (PyFloat.of_string value); simpl; tauto.
Qed.

Lemma tally_ok_get counts t :
  tally_ok counts -> In t labels -> exists n, Dict.get counts t = Some n.
Proof.
  intros Hk Ht. unfold tally_ok in Hk.
  destruct (Dict.get counts t) eqn:E; [eauto|].
  exfalso. rewrite <- Hk in Ht. apply get_in_keys in Ht. congruence.
Qed.

Lemma tally_ok_set counts t n :
  tally_ok counts -> In t labels -> tally_ok (Dict.set counts t n).
Proof.
  intros Hk Ht. unfold tally_ok in *. rewrite keys_set.
  destruct (tally_ok_get counts t Hk Ht) as [m Hm].
  unfold Dict.mem. now rewrite Hm.
Qed.

Lemma tally_ok_shape counts :
  tally_ok counts ->
  exists a b c d,
    counts = [("int", a); ("float", b); ("string", c); ("null", d)].
Proof.
  unfold tally_ok, Dict.keys, labels. intros H.
  destruct counts as [|[k1 a] [|[k2 b] [|[k3 c] [|[k4 d] [|? ?]]]]];
    simpl in H; try discriminate.
  injection H as -> -> -> ->. now exists a, b, c, d.
Qed.

(** One cell: the tally of its column exists afterwards, no column is
    lost, and nothing is raised. *)
Lemma tally_cell_spec tc k v :
  tallies_ok tc ->
  exists tc',
    tally_cell tc (k, v) = Return tc' /\ tallies_ok tc'
    /\ incl (Dict.keys tc) (Dict.keys tc') /\ In k (Dict.keys tc')
    /\ incl (Dict.keys tc') (k :: Dict.keys tc).
Proof.
  intros Hok. unfold tally_cell.
  set (t := infer_type _).
  assert (Ht : In t labels) by apply infer_type_label.
  set (tc1 := if Dict.mem tc k then tc else Dict.set tc k new_counts).
  assert (Hok1 : tallies_ok tc1).
  { subst tc1. destruct (Dict.mem tc k); [assumption|].
    apply Forall_set; [assumption | reflexivity]. }
  assert (Hinc : incl (Dict.keys tc) (Dict.keys tc1)).
  { subst tc1. destruct (Dict.mem tc k);
      [apply incl_refl | apply keys_set_incl]. }
  assert (Hk : exists counts, Dict.get tc1 k = Some counts).
  { subst tc1. unfold Dict.mem. destruct (Dict.get tc k) eqn:E; [eauto|].
    rewrite get_set_same. eauto. }
  destruct Hk as [counts Hc]. rewrite Hc. simpl.
  assert (Hcok : tally_ok counts) by exact (Forall_get _ _ _ _ Hok1 Hc).
  destruct (tally_ok_get counts t Hcok Ht) as [n Hn]. rewrite Hn. simpl.
  assert (Hback : incl (Dict.keys tc1) (k :: Dict.keys tc)).
  { subst tc1. destruct (Dict.mem tc k) eqn:E; [apply incl_tl, incl_refl|].
    rewrite keys_set, E. intros x Hx. apply in_app_or in Hx.
    destruct Hx as [Hx | [<- | []]]; [now right | now left]. }
  eexists. split; [reflexivity|]. split; [|split; [|split]].
  - apply Forall_set; [assumption | now apply tally_ok_set].
  - eapply incl_tran; [exact Hinc | apply keys_set_incl].
  - apply key_set_in.
  - rewrite keys_set. unfold Dict.mem. rewrite Hc. exact Hback.
Qed.

(** One row: all its keys have a tally afterwards. *)
Lemma tally_row_spec (r : row) : forall tc,
  tallies_ok tc ->
  exists tc',
    for_each tally_cell r tc = Return tc' /\ tallies_ok tc'
    /\ incl (Dict.keys tc) (Dict.keys tc') /\ incl (Dict.keys r) (Dict.keys tc')
    /\ incl (Dict.keys tc') (Dict.keys r ++ Dict.keys tc).
Proof.
  induction r as [|[k v] r IH]; intros tc Hok; cbn [for_each].
  - exists tc. repeat split; auto using incl_refl. intros x [].
  - destruct (tally_cell_spec tc k v Hok)
      as (tc1 & -> & Hok1 & Hinc1 & Hk1 & Hback1).
    cbn [obind].
    destruct (IH tc1 Hok1) as (tc2 & -> & Hok2 & Hinc2 & Hr2 & Hback2).
    exists tc2. repeat split; auto.
    + eapply incl_tran; eauto.
    + intros x [<- | Hx]; [apply Hinc2, Hk1 | apply Hr2, Hx].
    + intros x Hx. apply Hback2, in_app_or in Hx. simpl.
      destruct Hx as [Hx | Hx].
      * right. apply in_or_app. now left.
      * apply Hback1 in Hx. destruct Hx as [<- | Hx]; [now left|].
        right. apply in_or_app. now right.
Qed.

Lemma firstn_snoc {A : Type} (n : nat) (l : list A) (x : A) :
  firstn n (l ++ [x]) = if List.length l <? n then firstn n l ++ [x] else firstn n l.
Proof.
  destruct (List.length l <? n) eqn:E.
  - apply Nat.ltb_lt in E.
    rewrite firstn_app. replace (n - List.length l) with (S (n - S (List.length l))) by lia.
    simpl. now rewrite firstn_nil.
  - apply Nat.ltb_ge in E.
    rewrite firstn_app. replace (n - List.length l) with 0 by lia.
    simpl. now rewrite app_nil_r.
Qed.

Lemma ingest_row_spec seen st r :
  ingest_inv seen st ->
  exists st', ingest_row st r = Return st' /\ ingest_inv (seen ++ [r]) st'.
Proof.
  intros [Hrows Htot Hok Hkeys Hcols]. unfold ingest_row.
  destruct (tally_row_spec r _ Hok) as (tc' & Htc & Hok' & Hinc & Hr & Hback).
  unfold Dict.items. rewrite Htc. cbn [obind].
  eexists. split; [reflexivity|]. constructor; cbn [rows total type_counts].
  - rewrite firstn_snoc, Hrows.
    assert (Hlen : (List.length (firstn max_preview seen) <? max_preview)
                   = (List.length seen <? max_preview)).
    { rewrite length_firstn.
      destruct (List.length seen <? max_preview) eqn:E.
      - apply Nat.ltb_lt in E. apply Nat.ltb_lt. lia.
      - apply Nat.ltb_ge in E. apply Nat.ltb_ge. lia. }
    rewrite Hlen. destruct (List.length seen <? max_preview) eqn:E; [reflexivity|].
    reflexivity.
  - rewrite length_app, Htot. simpl. lia.
  - assumption.
  - intros r0 Hin. apply in_app_or in Hin. destruct Hin as [Hin | [<- | []]].
    + eapply incl_tran; [apply Hkeys, Hin | exact Hinc].
    + exact Hr.
  - intros k Hk. apply Hback, in_app_or in Hk. destruct Hk as [Hk | Hk].
    + exists r. split; [apply in_or_app; right; now left | exact Hk].
    + destruct (Hcols k Hk) as (r0 & Hin & Hk0).
      exists r0. split; [apply in_or_app; now left | exact Hk0].
Qed.

Lemma for_each_ingest_spec (l : list row) : forall seen st,
  ingest_inv seen st ->
  exists st', for_each ingest_row l st = Return st' /\ ingest_inv (seen ++ l) st'.
Proof.
  induction l as [|r l IH]; intros seen st Hinv; cbn [for_each].
  - exists st. now rewrite app_nil_r.
  - destruct (ingest_row_spec seen st r Hinv) as (st1 & -> & Hinv1). cbn [obind].
    destruct (IH _ _ Hinv1) as (st2 & -> & Hinv2).
    exists st2. split; [reflexivity|]. now rewrite <- app_assoc in Hinv2.
Qed.

(** The body of the reading loop never raises; the loop keeps the first
    [max_preview] rows, counts all of them, and has a well-formed tally for
    every key of every row. *)
Lemma ingest_rows_spec (l : list row) :
  exists st,
    for_each ingest_row l {| rows := []; total := 0; type_counts := [] |} = Return st
    /\ ingest_inv l st.
Proof.
  apply (for_each_ingest_spec l []). constructor; simpl; auto.
  - constructor.
  - intros r [].
  - intros k [].
Qed.

(** The loop as a whole ends as the reader does: with its state when the
    reader is exhausted, with the exception of the reader otherwise. *)
Lemma read_rows_spec reader :
  exists st,
    ingest_inv (yielded reader) st
    /\ for_each ingest_row (yielded reader)
         {| rows := []; total := 0; type_counts := [] |} = Return st
    /\ read_rows reader
       = match raised reader with
         | Some exn => Raised exn
         | None => Return st
         end.
Proof.
  destruct (ingest_rows_spec (yielded reader)) as (st & Hst & Hinv).
  exists st. split; [exact Hinv|]. split; [exact Hst|].
  unfold read_rows. now rewrite Hst.
Qed.

Lemma read_rows_returns reader st :
  read_rows reader = Return st ->
  raised reader = None /\ ingest_inv (yielded reader) st
  /\ for_each ingest_row (yielded reader)
       {| rows := []; total := 0; type_counts := [] |} = Return st.
Proof.
  destruct (read_rows_spec reader) as (st' & Hinv & Hloop & ->).
  destruct (raised reader); [discriminate|].
  intros [= <-]. auto.
Qed.

(* ================================================================== *)
(** * Choosing the column types *)
(* ================================================================== *)

(** The winner of a tally: [max] keeps the earliest of the largest
    counts, and the candidates come in the order int, float, string. *)
Lemma best_type_shape a b c d :
  best_type [("int", a); ("float", b); ("string", c); ("null", d)]
  = Return (if a <? b
            then if b <? c then "string" else "float"
            else if a <? c then "string" else "int").
Proof.
  unfold best_type, py_max_by, Dict.items.
  cbn [filter fst snd negb String.eqb Ascii.eqb Bool.eqb fold_left expect obind].
  destruct (a <? b); cbn [snd];
    [destruct (b <? c) | destruct (a <? c)]; reflexivity.
Qed.

Lemma best_type_returns counts :
  tally_ok counts -> exists best, best_type counts = Return best.
Proof.
  intros H. destruct (tally_ok_shape counts H) as (a & b & c & d & ->).
  rewrite best_type_shape. eauto.
Qed.

Lemma describe_loop_spec (tc : Dict.t column_key (Dict.t string nat)) : forall acc,
  tallies_ok tc ->
  exists cols,
    for_each
      (fun columns_meta cc =>
         (best <- best_type (snd cc) ;;
          Return (columns_meta ++ [{| col_name := fst cc; col_type := best |}]))%outcome)
      tc acc = Return (acc ++ cols)
    /\ Forall2 describes tc cols.
Proof.
  induction tc as [|cc tc IH]; intros acc Hok; cbn [for_each].
  - exists []. rewrite app_nil_r. split; [reflexivity | constructor].
  - inversion Hok as [|? ? Hcc Htc]; subst.
    destruct (best_type_returns _ Hcc) as [best Hbest].
    rewrite Hbest. cbn [obind].
    destruct (IH (acc ++ [{| col_name := fst cc; col_type := best |}]) Htc)
      as (cols & -> & Hcols).
    exists ({| col_name := fst cc; col_type := best |} :: cols).
    rewrite <- app_assoc. split; [reflexivity|].
    constructor; [split; [reflexivity | exact Hbest] | exact Hcols].
Qed.

Lemma describe_columns_spec tc :
  tallies_ok tc ->
  exists cols, describe_columns tc = Return cols /\ Forall2 describes tc cols.
Proof.
  intros Hok. destruct (describe_loop_spec tc [] Hok) as (cols & H & HF).
  exists cols. split; [exact H | exact HF].
Qed.

Lemma describes_names tc cols :
  Forall2 describes tc cols -> map col_name cols = Dict.keys tc.
Proof.
  induction 1 as [|cc c tc cols [Hn _] _ IH]; simpl; [reflexivity|].
  now rewrite Hn, IH.
Qed.

Lemma describes_in tc cols col counts :
  Forall2 describes tc cols -> In (col, counts) tc ->
  exists best,
    best_type counts = Return best
    /\ In {| col_name := col; col_type := best |} cols.
Proof.
  induction 1 as [|cc c tc cols [Hn Hb] _ IH]; simpl; [tauto|].
  intros [-> | Hin].
  - exists (col_type c). split; [exact Hb|]. left.
    destruct c as [n t]; simpl in *. now subst.
  - destruct (IH Hin) as (best & ? & ?). eauto.
Qed.

(** ** The extraction as a whole *)

Lemma extract_raised filename name reader exn :
  raised reader = Some exn -> extract filename name reader = Raised exn.
Proof.
  intros H. unfold extract.
  destruct (read_rows_spec reader) as (st & _ & _ & ->). now rewrite H.
Qed.

Lemma extract_empty filename name reader :
  raised reader = None -> yielded reader = [] ->
  extract filename name reader = HTTPException 400 "Empty CSV or failed to parse".
Proof.
  intros Hr Hy. unfold extract, read_rows. now rewrite Hy, Hr.
Qed.

Lemma extract_nonempty filename name reader :
  raised reader = None -> yielded reader <> [] ->
  exists st cols,
    read_rows reader = Return st /\ ingest_inv (yielded reader) st
    /\ describe_columns (type_counts st) = Return cols
    /\ Forall2 describes (type_counts st) cols
    /\ extract filename name reader
       = Return {| ds_name := display_name name filename;
                   ds_columns := cols;
                   ds_sample := rows st;
                   ds_row_count := total st |}.
Proof.
  intros Hr Hne. destruct (read_rows_spec reader) as (st & Hinv & _ & Hst).
  rewrite Hr in Hst.
  destruct (describe_columns_spec _ (inv_tallies _ _ Hinv)) as (cols & Hcols & HF).
  exists st, cols. split; [exact Hst|]. split; [exact Hinv|].
  split; [exact Hcols|]. split; [exact HF|].
  unfold extract. rewrite Hst. cbn [obind].
  assert (Htot : (total st =? 0) = false).
  { apply Nat.eqb_neq. rewrite (inv_total _ _ Hinv).
    destruct (yielded reader); [congruence | simpl; lia]. }
  rewrite Htot, Hcols. reflexivity.
Qed.

(** A successful extraction comes from a reader that was exhausted and a
    reading loop that ended well. *)
Lemma extract_returns filename name reader ds :
  extract filename name reader = Return ds ->
  exists st,
    read_rows reader = Return st /\ ingest_inv (yielded reader) st
    /\ Forall2 describes (type_counts st) (ds_columns ds)
    /\ ds_sample ds = rows st /\ ds_row_count ds = total st
    /\ yielded reader <> [] /\ raised reader = None.
Proof.
  intros H. destruct (raised reader) as [exn|] eqn:Hr.
  { rewrite (extract_raised _ _ _ _ Hr) in H. discriminate. }
  destruct (yielded reader) as [|r l] eqn:Hy.
  - rewrite (extract_empty _ _ _ Hr Hy) in H. discriminate.
  - destruct (extract_nonempty filename name reader Hr)
      as (st & cols & Hst & Hinv & _ & HF & He); [congruence|].
    rewrite He in H. injection H as <-. exists st. cbn [ds_columns ds_sample ds_row_count].
    rewrite Hy in Hinv.
    split; [exact Hst|]. split; [exact Hinv|]. split; [exact HF|].
    split; [reflexivity|]. split; [reflexivity|]. split; [discriminate | reflexivity].
Qed.

(** The sample of an extracted dataset is the first rows of the reader. *)
Lemma extract_sample filename name reader ds :
  extract filename name reader = Return ds ->
  ds_sample ds = firstn max_preview (yielded reader)
  /\ ds_row_count ds = List.length (yielded reader).
Proof.
  intros H. destruct (extract_returns _ _ _ _ H) as (st & _ & Hinv & _ & Hs & Hc & _).
  rewrite Hs, Hc. split; [apply (inv_rows _ _ Hinv) | apply (inv_total _ _ Hinv)].
Qed.

(** ** The handler around it *)

Lemma upload_dataset_returns filename name reader w res w' :
  upload_dataset filename name reader w = (Return res, w') ->
  exists ds d,
    extract filename name reader = Return ds
    /\ db w = Some d
    /\ res = {| id := ObjectId.to_string (ObjectId.of_counter 12 (inserted d) []);
                body := DatasetDoc ds |}
    /\ w' = with_db w (stored "dataset" (DatasetDoc ds) d).
Proof.
  unfold upload_dataset, create_document.
  destruct (negb (PyStr.endswith (PyStr.lower filename) ".csv")); [discriminate|].
  destruct (db w) as [d|] eqn:Hdb; [|discriminate].
  destruct (negb (has_multipart w)); [discriminate|].
  destruct (extract filename name reader) as [ds| |]; try discriminate.
  destruct (encodable (DatasetDoc ds)); [|discriminate].
  intros [= <- <-]. exists ds, d. repeat split.
Qed.

Lemma upload_dataset_extracts filename name reader w :
  guards_pass filename w ->
  exists d,
    db w = Some d
    /\ upload_dataset filename name reader w
       = match extract filename name reader with
         | Return ds =>
             if forallb text_keys (ds_sample ds)
             then (Return {| id := ObjectId.to_string
                                     (ObjectId.of_counter 12 (inserted d) []);
                            body := DatasetDoc ds |},
                   with_db w (stored "dataset" (DatasetDoc ds) d))
             else (Raised "InvalidDocument", w)
         | HTTPException c e => (HTTPException c e, w)
         | Raised e => (Raised e, w)
         end.
Proof.
  intros (Hcsv & Hdb & Hmp). unfold upload_dataset, create_document.
  rewrite Hcsv, Hmp. cbn [negb].
  destruct (db w) as [d|]; [|congruence].
  exists d. split; [reflexivity|].
  destruct (extract filename name reader) as [ds| |]; try reflexivity.
  cbn [encodable]. destruct (forallb text_keys (ds_sample ds)); reflexivity.
Qed.

(** Whatever goes wrong, nothing is written. *)
Lemma upload_dataset_failure_writes_nothing filename name reader w :
  (forall res, fst (upload_dataset filename name reader w) <> Return res) ->
  snd (upload_dataset filename name reader w) = w.
Proof.
  unfold upload_dataset, create_document. intros H.
  destruct (negb (PyStr.endswith (PyStr.lower filename) ".csv")); [reflexivity|].
  destruct (db w) as [d|] eqn:Hdb; [|reflexivity].
  destruct (negb (has_multipart w)); [reflexivity|].
  destruct (extract filename name reader) as [ds| |]; try reflexivity.
  destruct (encodable (DatasetDoc ds)); [|reflexivity].
  exfalso. eapply H. reflexivity.
Qed.

(* ================================================================== *)
(** * Rendering floats *)
(* ================================================================== *)

Lemma all_digits_uint u : all_digits (NilEmpty.string_of_uint u) = true.
Proof. induction u; simpl; auto. Qed.

Lemma nonneg_text z :
  (0 <= z)%Z ->
  exists c ds, PyStr.of_Z z = String c ds /\ all_digits (String c ds) = true.
Proof.
  intros Hz. unfold PyStr.of_Z.
  assert (H : forall u, exists c ds,
             NilZero.string_of_uint u = String c ds
             /\ all_digits (String c ds) = true).
  { intros u. pose proof (all_digits_uint u) as Hu.
    destruct u; simpl in *; eauto. }
  destruct z; try apply H. lia.
Qed.

Lemma digit_is_not_minus c : PyStr.is_digit c = true -> (c =? "-")%char = false.
Proof.
  intros H. apply Ascii.eqb_neq. intros ->. discriminate H.
Qed.

Lemma take_digits_stops ds c r :
  all_digits ds = true -> PyStr.is_digit c = false ->
  PyStr.take_digits (ds ++ String c r) = (ds, String c r).
Proof.
  intros Hds Hc. induction ds as [|d ds IH]; simpl in *.
  - now rewrite Hc.
  - apply andb_prop in Hds as [Hd Hds]. now rewrite Hd, IH.
Qed.

Lemma digit_char_is_digit d :
  (0 <= d <= 9)%Z -> PyStr.is_digit (PyFloat.digit_char d) = true.
Proof.
  intros Hd. unfold PyStr.is_digit, PyFloat.digit_char, PyStr.code.
  rewrite N_ascii_embedding by lia.
  apply andb_true_intro. split; apply N.leb_le; lia.
Qed.

Lemma hundredths_nonneg m e : (0 <= PyFloat.hundredths m e)%Z.
Proof.
  unfold PyFloat.hundredths. destruct (0 <=? e)%Z eqn:E.
  - apply Z.leb_le in E.
    pose proof (Z.pow_nonneg 2 e ltac:(lia)). nia.
  - apply Z.leb_gt in E. unfold PyFloat.div_round_half_even.
    assert (Hden : (0 < 2 ^ (- e))%Z) by (apply Z.pow_pos_nonneg; lia).
    assert (Hq : (0 <= Z.pos m * 100 / 2 ^ (- e))%Z)
      by (apply Z.div_pos; lia).
    destruct (2 * _ ?= _)%Z; [destruct (Z.even _) | |]; lia.
Qed.

(** A finite float is rendered in fixed notation with two fractional
    digits. *)
Lemma format_2f_finite x :
  PyFloat.is_finite x = true -> fixed_2 (PyFloat.format_2f x) = true.
Proof.
  destruct x as [neg | neg | | neg m e]; try discriminate; intros _.
  - destruct neg; reflexivity.
  - unfold PyFloat.format_2f.
    pose proof (hundredths_nonneg m e) as Hh.
    set (h := PyFloat.hundredths m e) in *.
    destruct (nonneg_text (h / 100) ltac:(apply Z.div_pos; lia))
      as (c & ds & -> & Hds).
    pose proof (Z.mod_pos_bound h 100 ltac:(lia)) as Hr.
    set (r := (h mod 100)%Z) in *.
    assert (H1 : PyStr.is_digit (PyFloat.digit_char (r / 10)) = true).
    { apply digit_char_is_digit.
      split; [apply Z.div_pos; lia | apply Z.lt_succ_r, Z.div_lt_upper_bound; lia]. }
    assert (H2 : PyStr.is_digit (PyFloat.digit_char (r mod 10)) = true).
    { apply digit_char_is_digit.
      pose proof (Z.mod_pos_bound r 10 ltac:(lia)). lia. }
    assert (Hc : PyStr.is_digit c = true).
    { simpl in Hds. now apply andb_prop in Hds. }
    unfold fixed_2, PyFloat.two_digits.
    assert (Hbody :
      PyStr.take_digits
        (String c ds ++ "." ++
           String (PyFloat.digit_char (r / 10))
             (String (PyFloat.digit_char (r mod 10)) ""))%string
      = (String c ds,
         String "." (String (PyFloat.digit_char (r / 10))
                       (String (PyFloat.digit_char (r mod 10)) "")))).
    { apply take_digits_stops; [exact Hds | reflexivity]. }
    destruct neg; cbn [PyFloat.sign_text String.append].
    + cbn [Ascii.eqb Bool.eqb]. cbn [String.append] in Hbody.
      rewrite Hbody. now rewrite H1, H2.
    + rewrite (digit_is_not_minus c Hc). cbn [String.append] in Hbody.
      rewrite Hbody. now rewrite H1, H2.
Qed.

Lemma format_2f_rendered x : rendered x (PyFloat.format_2f x).
Proof.
  split; [reflexivity|].
  destruct (PyFloat.is_finite x) eqn:E; [now apply format_2f_finite|].
  destruct x as [neg | [|] | | neg m e]; try discriminate; simpl; tauto.
Qed.

(* ================================================================== *)
(** * Lengths as floats *)
(* ================================================================== *)

(** Halving a number of two binary digits or more leaves one digit less. *)
Lemma shr_1_digits mrs q d :
  shr_m mrs = Zpos q -> (Zpos (digits2_pos q) = d + 1)%Z -> (1 <= d)%Z ->
  exists q', shr_m (shr_1 mrs) = Zpos q' /\ Zpos (digits2_pos q') = d.
Proof.
  destruct mrs as [m r s]. cbn [shr_m]. intros -> Hd Hpos.
  destruct q as [q|q|]; cbn [shr_1 shr_m digits2_pos] in *.
  - exists q. split; [reflexivity | lia].
  - exists q. split; [reflexivity | lia].
  - lia.
Qed.

Lemma iter_shr_1_digits k : forall mrs q d,
  shr_m mrs = Zpos q -> (Zpos (digits2_pos q) = d + Zpos k)%Z -> (1 <= d)%Z ->
  exists q', shr_m (iter_pos shr_1 k mrs) = Zpos q' /\ Zpos (digits2_pos q') = d.
Proof.
  induction k as [k IH | k IH |]; intros mrs q d Hm Hd Hpos; cbn [iter_pos].
  - destruct (shr_1_digits mrs q (d + Zpos k + Zpos k) Hm ltac:(lia) ltac:(lia))
      as (q1 & Hm1 & Hd1).
    destruct (IH _ q1 (d + Zpos k)%Z Hm1 ltac:(lia) ltac:(lia)) as (q2 & Hm2 & Hd2).
    exact (IH _ q2 d Hm2 Hd2 Hpos).
  - destruct (IH mrs q (d + Zpos k)%Z Hm ltac:(lia) ltac:(lia)) as (q1 & Hm1 & Hd1).
    exact (IH _ q1 d Hm1 Hd1 Hpos).
  - exact (shr_1_digits mrs q d Hm Hd Hpos).
Qed.

(** Bringing a positive mantissa to the precision of a float leaves it
    positive, as long as the exponent is not below the least one. *)
Lemma shr_fexp_positive m e l :
  (-1074 <= e)%Z ->
  exists q,
    shr_m (fst (shr_fexp PyFloat.prec PyFloat.emax (Zpos m) e l)) = Zpos q
    /\ (-1074 <= snd (shr_fexp PyFloat.prec PyFloat.emax (Zpos m) e l))%Z.
Proof.
  intros He. unfold shr_fexp, shr.
  assert (Hrec : shr_m (shr_record_of_loc (Zpos m) l) = Zpos m)
    by (destruct l as [|[| |]]; reflexivity).
  destruct (fexp PyFloat.prec PyFloat.emax (Zdigits2 (Zpos m) + e) - e)%Z
    as [|k|k] eqn:Hn; cbn [fst snd].
  - exists m. split; [exact Hrec | exact He].
  - assert (Hd : (Zpos (digits2_pos m) = 53 + Zpos k)%Z).
    { unfold fexp, emin, PyFloat.prec, PyFloat.emax, Zdigits2 in Hn. lia. }
    destruct (iter_shr_1_digits k _ m 53%Z Hrec Hd ltac:(lia)) as (q & Hq & _).
    exists q. split; [exact Hq | lia].
  - exists m. split; [exact Hrec | exact He].
Qed.

Lemma round_nearest_even_positive q l :
  exists q', round_nearest_even (Zpos q) l = Zpos q'.
Proof.
  destruct l as [|[| |]]; cbn [round_nearest_even]; eauto.
  - destruct (Z.even (Zpos q)); [eauto|]. exists (q + 1)%positive. reflexivity.
  - exists (q + 1)%positive. reflexivity.
Qed.

(** Rounding a positive number gives a positive float or [inf]. *)
Lemma binary_round_aux_positive m e l :
  (-1074 <= e)%Z ->
  match binary_round_aux PyFloat.prec PyFloat.emax false (Zpos m) e l with
  | S754_finite false _ _ | S754_infinity false => True
  | _ => False
  end.
Proof.
  intros He. unfold binary_round_aux.
  destruct (shr_fexp_positive m e l He) as (q & Hq & He').
  destruct (shr_fexp PyFloat.prec PyFloat.emax (Zpos m) e l) as [mrs' e'].
  cbn [fst snd] in Hq, He'. rewrite Hq.
  destruct (round_nearest_even_positive q (loc_of_shr_record mrs')) as (q' & ->).
  destruct (shr_fexp_positive q' e' loc_Exact He') as (q'' & Hq'' & _).
  destruct (shr_fexp PyFloat.prec PyFloat.emax (Zpos q') e' loc_Exact) as [mrs'' e''].
  cbn [fst] in Hq''. rewrite Hq''.
  destruct (e'' <=? PyFloat.emax - PyFloat.prec)%Z; exact I.
Qed.

(** The length of a list that is not empty converts to a float that is
    not zero. *)
Lemma of_len_positive n :
  0 < n ->
  match PyFloat.of_len n with
  | S754_finite false _ _ | S754_infinity false => True
  | _ => False
  end.
Proof.
  intros Hpos. unfold PyFloat.of_len.
  destruct (Z.of_nat n) as [|p|p] eqn:Hn; try lia.
  unfold binary_normalize, binary_round, shl_align.
  set (ex := fexp PyFloat.prec PyFloat.emax (Zpos (digits2_pos p) + 0)).
  assert (Hex : (-1074 <= ex)%Z).
  { subst ex. unfold fexp, emin, PyFloat.prec, PyFloat.emax. lia. }
  destruct (ex - 0)%Z; apply binary_round_aux_positive; lia.
Qed.

(** Dividing by the length of a list that is not empty raises nothing. *)
Lemma truediv_of_len x n :
  0 < n ->
  PyFloat.truediv x (PyFloat.of_len n)
  = Some (SFdiv PyFloat.prec PyFloat.emax x (PyFloat.of_len n)).
Proof.
  intros Hpos. pose proof (of_len_positive n Hpos) as H.
  unfold PyFloat.truediv. destruct (PyFloat.of_len n) as [s|s| |s m e];
    try reflexivity. destruct H.
Qed.

(* ================================================================== *)
(** * Numeric columns *)
(* ================================================================== *)

(** The inner loop collects exactly the parsed values. *)
Lemma collect_val_spec col (sample : list row) : forall acc,
  fold_left (collect_val col) sample acc = acc ++ parsed_values col sample.
Proof.
  induction sample as [|r sample IH]; intros acc; simpl.
  - now rewrite app_nil_r.
  - rewrite IH. unfold collect_val, cell.
    destruct (Dict.get r col) as [v|]; [|now rewrite app_nil_l].
    destruct v as [|s|n|l]; cbn [pyval_eqb orb]; try (now rewrite app_nil_l).
    + destruct (PyStr.strip (py_str (VStr s)) =? "")%string;
        [reflexivity|].
      destruct (py_float (VStr s)); [now rewrite <- app_assoc | reflexivity].
    + destruct (PyStr.strip (py_str (VInt n)) =? "")%string;
        [reflexivity|].
      destruct (py_float (VInt n)); [now rewrite <- app_assoc | reflexivity].
    + destruct (PyStr.strip (py_str (VList l)) =? "")%string;
        [reflexivity|].
      destruct (py_float (VList l)); [now rewrite <- app_assoc | reflexivity].
Qed.

(** A fold that keeps either its candidate or the next element ends on
    one of the elements. *)
Lemma fold_choice_in {A : Type} (pick : A -> A -> bool) (rest : list A) : forall cur,
  In (fold_left (fun cur x => if pick cur x then x else cur) rest cur) (cur :: rest).
Proof.
  induction rest as [|x rest IH]; intros cur; simpl; [auto|].
  destruct (pick cur x).
  - right. apply IH.
  - destruct (IH cur) as [H | H]; [left | right; right]; auto.
Qed.

Lemma py_min_in vals mn : PyFloat.py_min vals = Some mn -> In mn vals.
Proof.
  destruct vals as [|v rest]; [discriminate|]. intros [= <-].
  apply (fold_choice_in (fun cur x => PyFloat.ltb x cur)).
Qed.

Lemma py_max_in vals mx : PyFloat.py_max vals = Some mx -> In mx vals.
Proof.
  destruct vals as [|v rest]; [discriminate|]. intros [= <-].
  apply (fold_choice_in (fun cur x => PyFloat.ltb cur x)).
Qed.

(** ** The order of floats *)

Lemma ltb_lex x y :
  PyFloat.ltb x y = true
  <-> PyFloat.is_nan x = false /\ PyFloat.is_nan y = false
      /\ lex_lt (float_key x) (float_key y).
Proof.
  unfold PyFloat.ltb, SFltb, SFcompare.
  destruct x as [sx | sx | | sx mx ex], y as [sy | sy | | sy my ey];
    try destruct sx; try destruct sy; cbn [PyFloat.is_nan float_key lex_lt];
    try (split; [discriminate | intros (? & ? & ?); try discriminate; lia]);
    try (split; [intros _; repeat split; lia | reflexivity]).
  - change (Pos.compare_cont Eq mx my) with (Pos.compare mx my).
    destruct (Z.compare_spec ex ey); destruct (Pos.compare_spec mx my);
      cbn [CompOpp]; split; try discriminate; try (intros _; repeat split; lia);
      try (intros (_ & _ & ?); lia); try reflexivity.
  - change (Pos.compare_cont Eq mx my) with (Pos.compare mx my).
    destruct (Z.compare_spec ex ey); destruct (Pos.compare_spec mx my);
      split; try discriminate; try (intros _; repeat split; lia);
      try (intros (_ & _ & ?); lia); try reflexivity.
Qed.

Lemma ltb_irrefl x : PyFloat.ltb x x = false.
Proof.
  destruct (PyFloat.ltb x x) eqn:E; [|reflexivity].
  apply ltb_lex in E as (_ & _ & H).
  destruct (float_key x) as [[a b] c]. simpl in H. lia.
Qed.

Lemma ltb_trans x y z :
  PyFloat.ltb x y = true -> PyFloat.ltb y z = true -> PyFloat.ltb x z = true.
Proof.
  intros Hxy Hyz.
  apply ltb_lex in Hxy as (Hx & _ & H1). apply ltb_lex in Hyz as (_ & Hz & H2).
  apply ltb_lex. split; [exact Hx|]. split; [exact Hz|].
  destruct (float_key x) as [[a1 a2] a3], (float_key y) as [[b1 b2] b3],
    (float_key z) as [[c1 c2] c3].
  simpl in *. lia.
Qed.

(** A fold that replaces its candidate by the elements that beat it ends
    on an element that none beats, when beating is transitive and nothing
    beats itself. *)
Section Unbeaten.
Context {A : Type} (beats : A -> A -> bool).
Hypothesis beats_irrefl : forall x, beats x x = false.
Hypothesis beats_trans :
  forall x y z, beats x y = true -> beats y z = true -> beats x z = true.

Let pick (rest : list A) (cur : A) : A :=
  fold_left (fun c x => if beats x c then x else c) rest cur.

Lemma fold_beats_start rest : forall cur,
  pick rest cur = cur \/ beats (pick rest cur) cur = true.
Proof.
  unfold pick. induction rest as [|x rest IH]; intros cur; cbn [fold_left].
  - now left.
  - destruct (beats x cur) eqn:E; [|apply IH].
    right. destruct (IH x) as [-> | H]; [exact E | eauto].
Qed.

Lemma not_beaten_by_start rest cur : beats cur (pick rest cur) = false.
Proof.
  destruct (beats cur (pick rest cur)) eqn:E; [|reflexivity].
  destruct (fold_beats_start rest cur) as [H | H].
  - rewrite H in E. now rewrite beats_irrefl in E.
  - rewrite <- (beats_irrefl cur). symmetry. eauto.
Qed.

Lemma fold_unbeaten rest : forall cur,
  Forall (fun y => beats y (pick rest cur) = false) (cur :: rest).
Proof.
  induction rest as [|x rest IH]; intros cur.
  - constructor; [apply beats_irrefl | constructor].
  - constructor; [apply not_beaten_by_start|].
    unfold pick. cbn [fold_left]. fold (pick rest).
    destruct (beats x cur) eqn:E; [apply IH|].
    specialize (IH cur). inversion IH as [|? ? _ Hrest]; subst.
    constructor; [|exact Hrest].
    destruct (beats x (pick rest cur)) eqn:Ex; [|exact Ex].
    destruct (fold_beats_start rest cur) as [H | H].
    + rewrite H in Ex. congruence.
    + rewrite <- E. symmetry. eauto.
Qed.
End Unbeaten.

Lemma py_min_least vals mn :
  PyFloat.py_min vals = Some mn -> Forall (fun v => PyFloat.ltb v mn = false) vals.
Proof.
  destruct vals as [|v rest]; [discriminate|]. intros [= <-].
  apply (fold_unbeaten (fun x c => PyFloat.ltb x c)).
  - apply ltb_irrefl.
  - apply ltb_trans.
Qed.

Lemma py_max_greatest vals mx :
  PyFloat.py_max vals = Some mx -> Forall (fun v => PyFloat.ltb mx v = false) vals.
Proof.
  destruct vals as [|v rest]; [discriminate|]. intros [= <-].
  apply (fold_unbeaten (fun x c => PyFloat.ltb c x)).
  - apply ltb_irrefl.
  - intros x y z Hxy Hyz. exact (ltb_trans _ _ _ Hyz Hxy).
Qed.

(** What one numeric column adds to the details; nothing is raised. *)
Lemma numeric_detail_spec (sample : list row) details col :
  match parsed_values col sample with
  | [] => numeric_detail sample details col = Return details
  | (_ :: _) as vals =>
      exists avg mn mx,
        numeric_detail sample details col
        = Return (details ++ [numeric_line col avg mn mx])
        /\ PyFloat.py_min vals = Some mn /\ PyFloat.py_max vals = Some mx
        /\ PyFloat.truediv (PyFloat.py_sum vals) (PyFloat.of_len (List.length vals))
           = Some avg
  end.
Proof.
  unfold numeric_detail.
  rewrite collect_val_spec, app_nil_l.
  destruct (parsed_values col sample) as [|v rest] eqn:Hvals; [reflexivity|].
  set (vals := v :: rest) in *.
  rewrite (truediv_of_len (PyFloat.py_sum vals) (List.length vals))
    by (simpl; lia).
  cbn [PyFloat.py_min PyFloat.py_max vals expect obind].
  do 3 eexists. repeat split; reflexivity.
Qed.

(* ================================================================== *)
(** * Counting and the first maximum *)
(* ================================================================== *)

Section MoreDictFacts.
Context {K V : Type} {EK : Key K} {LK : KeyLaws K}.
Implicit Types (d : Dict.t K V) (k : K) (v : V).

Lemma mem_in_keys d k : Dict.mem d k = true <-> In k (Dict.keys d).
Proof.
  rewrite <- get_in_keys. unfold Dict.mem.
  destruct (Dict.get d k); split; congruence.
Qed.

Lemma nodup_keys_set d k v :
  NoDup (Dict.keys d) -> NoDup (Dict.keys (Dict.set d k v)).
Proof.
  intros Hnd. rewrite keys_set. destruct (Dict.mem d k) eqn:E; [assumption|].
  apply NoDup_app; [assumption | repeat constructor; auto|].
  intros x Hx [<- | []]. apply mem_in_keys in Hx. congruence.
Qed.

Lemma in_get_nodup d k v :
  NoDup (Dict.keys d) -> In (k, v) d -> Dict.get d k = Some v.
Proof.
  induction d as [|[k' v'] d IH]; simpl; [tauto|].
  intros Hnd [[= -> ->] | Hin].
  - now rewrite key_eqb_refl.
  - inversion Hnd as [|? ? Hnotin Hnd']; subst.
    destruct (key_eqb k' k) eqn:E; [|auto].
    apply key_eqb_eq in E. subst k'. exfalso. apply Hnotin.
    change k with (fst (k, v)). now apply in_map.
Qed.
End MoreDictFacts.





(** ** The counter *)










(* ================================================================== *)
(** * Categorical columns and the details as a whole *)
(* ================================================================== *)

(** The comprehension of the handler selects the cells that are neither
    [None] nor the empty string, and takes their text. *)
Lemma categorical_values_spec col (sample : list row) :
  categorical_values col sample = counted_values col sample.
Proof.
  unfold categorical_values, counted_values.
  assert (Hrow : forall r : row,
             match Dict.get r col with
             | None | Some VNone | Some (VStr EmptyString) => []
             | Some v => [py_str v]
             end
             = if negb (existsb (pyval_eqb (cell r col)) [VNone; VStr ""])
               then [py_str (cell r col)] else []).
  { intros r. unfold cell.
    destruct (Dict.get r col) as [[|[|c s]|n|l]|]; reflexivity. }
  induction sample as [|r sample IH]; [reflexivity|].
  cbn [filter flat_map]. rewrite Hrow, <- IH.
  destruct (negb (existsb (pyval_eqb (cell r col)) [VNone; VStr ""]));
    reflexivity.
Qed.



Lemma numeric_detail_lines sample details col :
  numeric_detail sample details col = Return (details ++ numeric_lines sample col).
Proof.
  unfold numeric_lines.
  pose proof (numeric_detail_spec sample details col) as H1.
  pose proof (numeric_detail_spec sample [] col) as H2.
  destruct (parsed_values col sample) as [|v rest].
  - rewrite H1, H2. now rewrite app_nil_r.
  - destruct H1 as (avg & mn & mx & -> & Hmn & Hmx & Havg).
    destruct H2 as (avg' & mn' & mx' & -> & Hmn' & Hmx' & Havg').
    rewrite Hmn in Hmn'. rewrite Hmx in Hmx'.
    injection Hmn' as <-. injection Hmx' as <-.
    rewrite Havg in Havg'. injection Havg' as <-. reflexivity.
Qed.

Lemma categorical_detail_lines sample details col :
  categorical_detail sample details col
  = Return (details ++ categorical_lines sample col).
Proof.
  unfold categorical_lines, categorical_detail.
  destruct (Counter (categorical_values col sample)) as [|e freq].
  - now rewrite app_nil_r.
  - unfold most_common_1, py_max_by, Dict.items.
    cbn [hd_error expect obind app]. reflexivity.
Qed.

Lemma for_each_lines (body : list string -> column_key -> outcome (list string))
    (lines : column_key -> list string) (cols : list column_key) :
  (forall details col, body details col = Return (details ++ lines col)) ->
  forall details,
    for_each body cols details = Return (details ++ flat_map lines cols).
Proof.
  intros Hbody. induction cols as [|col cols IH]; intros details; cbn [for_each flat_map].
  - now rewrite app_nil_r.
  - rewrite Hbody. cbn [obind]. rewrite IH. now rewrite <- app_assoc.
Qed.

(** The details: the lines of the numeric columns in their order, then the
    lines of the categorical columns in theirs; nothing is raised. *)
Lemma insight_details_spec doc :
  insight_details doc
  = Return (flat_map (numeric_lines (doc_sample doc)) (numeric_cols (doc_columns doc))
            ++ flat_map (categorical_lines (doc_sample doc))
                 (categorical_cols (doc_columns doc))).
Proof.
  unfold insight_details.
  rewrite (for_each_lines _ (numeric_lines (doc_sample doc))).
  - cbn [obind app]. apply for_each_lines. intros. apply categorical_detail_lines.
  - intros. apply numeric_detail_lines.
Qed.

Lemma numeric_cols_spec columns col :
  In col (numeric_cols columns)
  <-> exists c, In c columns /\ col_name c = col
                /\ (col_type c = "int" \/ col_type c = "float").
Proof.
  unfold numeric_cols. rewrite in_map_iff. split.
  - intros (c & Hn & Hin). apply filter_In in Hin as [Hin Ht].
    exists c. split; [exact Hin|]. split; [exact Hn|]. cbn [existsb] in Ht.
    apply orb_prop in Ht as [Ht | Ht]; [left | right].
    + now apply String.eqb_eq.
    + apply orb_prop in Ht as [Ht | Ht]; [|discriminate].
      now apply String.eqb_eq.
  - intros (c & Hin & Hn & Ht). exists c. split; [exact Hn|].
    apply filter_In. split; [exact Hin|].
    destruct Ht as [-> | ->]; reflexivity.
Qed.

Lemma categorical_cols_spec columns col :
  In col (categorical_cols columns)
  <-> exists c, In c columns /\ col_name c = col /\ col_type c = "string".
Proof.
  unfold categorical_cols. rewrite in_map_iff. split.
  - intros (c & Hn & Hin). apply filter_In in Hin as [Hin Ht].
    exists c. repeat split; auto. now apply String.eqb_eq.
  - intros (c & Hin & Hn & Ht). exists c. split; [exact Hn|].
    apply filter_In. split; [exact Hin|]. now apply String.eqb_eq.
Qed.

(* ================================================================== *)
(** * Looking a dataset up by id *)
(* ================================================================== *)

(** With the store and [bson] available and a well-formed id, the dataset
    handler returns the stored record or answers 404, and writes nothing. *)
Lemma get_dataset_well_formed dataset_id w d oid :
  db w = Some d -> has_bson w = true ->
  ObjectId.of_string dataset_id = Some oid ->
  get_dataset dataset_id w
  = (match find_one (db_collection d "dataset") oid with
     | Some entry => Return (serialize_doc entry)
     | None => HTTPException 404 "Dataset not found"
     end, w).
Proof.
  intros Hdb Hbson Hoid. unfold get_dataset.
  rewrite Hdb, Hbson, Hoid. cbn [negb].
  destruct (find_one _ oid); reflexivity.
Qed.

Lemma get_dataset_malformed dataset_id w d :
  db w = Some d -> has_bson w = true ->
  ObjectId.of_string dataset_id = None ->
  get_dataset dataset_id w = (Raised "InvalidId", w).
Proof.
  intros Hdb Hbson Hoid. unfold get_dataset.
  now rewrite Hdb, Hbson, Hoid.
Qed.

(** With the store and [bson] available and a well-formed dataset id, a
    chart is stored exactly when the dataset exists; otherwise the answer is
    400 and nothing is written. *)
Lemma save_chart_well_formed payload w d oid :
  db w = Some d -> has_bson w = true ->
  ObjectId.of_string (ch_dataset_id payload) = Some oid ->
  save_chart payload w
  = match find_one (db_collection d "dataset") oid with
    | Some _ =>
        (Return {| id := ObjectId.to_string (ObjectId.of_counter 12 (inserted d) []);
                   body := ChartDoc payload |},
         with_db w (stored "chart" (ChartDoc payload) d))
    | None => (HTTPException 400 "Related dataset not found", w)
    end.
Proof.
  intros Hdb Hbson Hoid. unfold save_chart, create_document.
  rewrite Hdb, Hbson, Hoid. cbn [negb].
  destruct (find_one _ oid); reflexivity.
Qed.

Lemma save_chart_malformed payload w d :
  db w = Some d -> has_bson w = true ->
  ObjectId.of_string (ch_dataset_id payload) = None ->
  save_chart payload w = (Raised "InvalidId", w).
Proof.
  intros Hdb Hbson Hoid. unfold save_chart.
  now rewrite Hdb, Hbson, Hoid.
Qed.

(* ================================================================== *)
(** * The properties of the specification *)
(* ================================================================== *)

(** C2.  The type inferencer is a function of its argument alone, defined
    on every string, and its value is one of the four distinct labels
    [null], [int], [float], [string]; on the inputs the specification lists
    it gives the labels listed there. *)
Theorem infer_type_total :
  (forall value, In (infer_type value) ["null"; "int"; "float"; "string"])
  /\ NoDup ["null"; "int"; "float"; "string"]
  /\ infer_type "" = "null" /\ infer_type " " = "null"
  /\ infer_type "42" = "int" /\ infer_type "42.5" = "float"
  /\ infer_type "-3" = "int" /\ infer_type "abc" = "string"
  /\ infer_type "1e10" = "float".
Proof.
  split; [|split].
  - intros value. pose proof (infer_type_label value) as H.
    unfold labels in H. simpl in *. tauto.
  - repeat constructor; simpl; intuition discriminate.
  - repeat split; vm_compute; reflexivity.
Qed.

(** C1, as the code has it.  A column whose tally is zero for [int],
    [float] and [string] (all its cells were blank) gets the type [int], the
    first candidate of the tally, and is among the column descriptors of the
    dataset. *)
Theorem all_blank_column_is_int filename name reader w res w' st col counts :
  upload_dataset filename name reader w = (Return res, w') ->
  read_rows reader = Return st ->
  In (col, counts) (Dict.items (type_counts st)) ->
  Dict.get counts "int" = Some 0 ->
  Dict.get counts "float" = Some 0 ->
  Dict.get counts "string" = Some 0 ->
  best_type counts = Return "int"
  /\ exists ds,
       body res = DatasetDoc ds
       /\ In {| col_name := col; col_type := "int" |} (ds_columns ds).
Proof.
  intros Hup Hst Hin Hi Hf Hs.
  destruct (upload_dataset_returns _ _ _ _ _ _ Hup) as (ds & d & Hex & _ & -> & _).
  destruct (extract_returns _ _ _ _ Hex) as (st' & Hst' & Hinv & HF & _).
  rewrite Hst in Hst'. injection Hst' as <-.
  assert (Hok : tally_ok counts).
  { pose proof (inv_tallies _ _ Hinv) as Hall. unfold tallies_ok in Hall.
    rewrite Forall_forall in Hall. exact (Hall _ Hin). }
  destruct (tally_ok_shape counts Hok) as (a & b & c & e & ->).
  cbn in Hi, Hf, Hs. injection Hi as ->. injection Hf as ->. injection Hs as ->.
  split; [apply best_type_shape|].
  exists ds. split; [reflexivity|].
  destruct (describes_in _ _ _ _ HF Hin) as (best & Hbest & Hcol).
  rewrite best_type_shape in Hbest. injection Hbest as <-. exact Hcol.
Qed.

Lemma all_blank_column_is_int_witness :
  best_type [("int", 0); ("float", 0); ("string", 0); ("null", 2)] = Return "int"
  /\ exists ds,
       body blank_upload = DatasetDoc ds
       /\ In {| col_name := Some "a"; col_type := "int" |} (ds_columns ds).
Proof.
  apply (all_blank_column_is_int "blank.csv" None (exhausted blank_rows) fresh_world
           blank_upload
           (snd (upload_dataset "blank.csv" None (exhausted blank_rows) fresh_world))
           {| rows := blank_rows; total := 2;
              type_counts :=
                [(Some "a", [("int", 0); ("float", 0); ("string", 0); ("null", 2)])] |}
           (Some "a")).
  - vm_compute. reflexivity.
  - vm_compute. reflexivity.
  - simpl. left. reflexivity.
  - reflexivity.
  - reflexivity.
  - reflexivity.
Defined.

(** C1, as the specification states it, fails: the file [blank_rows] has one
    column, all of whose cells are blank; its tally is zero for [int],
    [float] and [string], and the type chosen for it is [int], not
    [string]. *)
Lemma all_blank_column_is_not_string :
  read_rows (exhausted blank_rows)
  = Return {| rows := blank_rows; total := 2;
              type_counts :=
                [(Some "a", [("int", 0); ("float", 0); ("string", 0); ("null", 2)])] |}
  /\ best_type [("int", 0); ("float", 0); ("string", 0); ("null", 2)]
     <> Return "string"
  /\ fst (upload_dataset "blank.csv" None (exhausted blank_rows) fresh_world)
     = Return {| id := "000000000000000000000000";
                 body := DatasetDoc
                           {| ds_name := "blank.csv";
                              ds_columns := [{| col_name := Some "a"; col_type := "int" |}];
                              ds_sample := blank_rows;
                              ds_row_count := 2 |} |}.
Proof.
  split; [vm_compute; reflexivity|]. split; [vm_compute; discriminate|].
  vm_compute. reflexivity.
Qed.

(** C3.  Whenever an upload succeeds, the sample of the dataset is the
    first [min(row_count, 100)] rows of the input, unchanged and in order,
    so its length is [min(row_count, 100)]; [row_count] is the number of
    rows of the input. *)
Theorem sample_is_first_rows filename name reader w res w' :
  upload_dataset filename name reader w = (Return res, w') ->
  exists ds,
    body res = DatasetDoc ds
    /\ ds_row_count ds = List.length (yielded reader)
    /\ List.length (ds_sample ds) = Nat.min (ds_row_count ds) 100
    /\ ds_sample ds = firstn (Nat.min (ds_row_count ds) 100) (yielded reader).
Proof.
  intros Hup.
  destruct (upload_dataset_returns _ _ _ _ _ _ Hup) as (ds & d & Hex & _ & -> & _).
  destruct (extract_returns _ _ _ _ Hex) as (st & _ & Hinv & _ & Hs & Hc & _).
  exists ds. split; [reflexivity|].
  rewrite Hs, Hc, (inv_rows _ _ Hinv), (inv_total _ _ Hinv).
  unfold max_preview. split; [reflexivity|]. split.
  - rewrite length_firstn. lia.
  - destruct (Nat.le_ge_cases (List.length (yielded reader)) 100) as [Hle | Hge].
    + rewrite Nat.min_l by assumption.
      now rewrite !firstn_all2 by lia.
    + now rewrite Nat.min_r by assumption.
Qed.

Lemma sample_is_first_rows_witness :
  exists ds,
    body many_upload = DatasetDoc ds
    /\ ds_row_count ds = List.length many_rows
    /\ List.length (ds_sample ds) = Nat.min (ds_row_count ds) 100
    /\ ds_sample ds = firstn (Nat.min (ds_row_count ds) 100) many_rows.
Proof.
  apply (sample_is_first_rows "many.csv" (Some "Many") (exhausted many_rows)
           fresh_world many_upload
           (snd (upload_dataset "many.csv" (Some "Many") (exhausted many_rows)
                   fresh_world))).
  vm_compute. reflexivity.
Defined.

(** What an upload comes to once the guards have passed (a [.csv] file
    name, the database configured, [multipart] installed).  When the reader
    raises while the rows are read, its exception escapes the handler.  When
    it is exhausted without a row, the answer is 400.  When it is exhausted
    after one row or more, the dataset has the number of rows as its
    [row_count], and it is stored and returned unless one of the first 100
    rows has the key [None], with which the store refuses it. *)
Lemma upload_dataset_after_guards filename name reader w :
  guards_pass filename w ->
  match raised reader, yielded reader with
  | Some exn, _ => upload_dataset filename name reader w = (Raised exn, w)
  | None, [] =>
      upload_dataset filename name reader w
      = (HTTPException 400 "Empty CSV or failed to parse", w)
  | None, (_ :: _) as read =>
      exists ds d,
        db w = Some d
        /\ extract filename name reader = Return ds
        /\ ds_row_count ds = List.length read
        /\ upload_dataset filename name reader w
           = if forallb text_keys (firstn 100 read)
             then (Return {| id := next_id d; body := DatasetDoc ds |},
                   with_db w (stored "dataset" (DatasetDoc ds) d))
             else (Raised "InvalidDocument", w)
  end.
Proof.
  intros Hg.
  destruct (upload_dataset_extracts filename name reader w Hg) as (d & Hdb & Hup).
  destruct (raised reader) as [exn|] eqn:Hr.
  { now rewrite Hup, (extract_raised _ _ _ _ Hr). }
  destruct (yielded reader) as [|r rest] eqn:Hy.
  - now rewrite Hup, (extract_empty _ _ _ Hr Hy).
  - destruct (extract_nonempty filename name reader Hr)
      as (st & cols & _ & _ & _ & _ & Hex); [congruence|].
    destruct (extract_sample _ _ _ _ Hex) as [Hs Hc]. rewrite Hy in Hs, Hc.
    eexists. exists d. split; [exact Hdb|]. split; [exact Hex|].
    split; [exact Hc|]. rewrite Hup, Hex, Hs. reflexivity.
Qed.

(** C4, where the code departs from it.  Once the guards have passed, a
    reader that is exhausted without a row is answered with the client error
    400 "Empty CSV or failed to parse" and nothing is written, and the one
    row of the lines [a] and [1] is stored with [row_count] 1: so far the
    claim holds.  But a content that the reader refuses is answered with
    neither the client error nor a dataset: the [csv.Error] escapes the
    handler, be it raised before the first row (the lines [a] and [1] ended
    by bare carriage returns) or after it.  And the one row of the lines
    [a] and [1,2], whose second cell the reader files under the key [None],
    is not stored with [row_count] 1: the store refuses the key and
    [InvalidDocument] escapes the handler.  Nothing is written in any of
    these cases. *)
Theorem empty_input_is_rejected :
  (forall filename name w,
     guards_pass filename w ->
     extract filename name (exhausted [])
     = HTTPException 400 "Empty CSV or failed to parse"
     /\ upload_dataset filename name (exhausted []) w
        = (HTTPException 400 "Empty CSV or failed to parse", w))
  /\ guards_pass "rows.csv" fresh_world
  /\ fst (upload_dataset "rows.csv" None (exhausted one_row) fresh_world)
     = Return {| id := "000000000000000000000000";
                 body := DatasetDoc
                           {| ds_name := "rows.csv";
                              ds_columns := [{| col_name := Some "a"; col_type := "int" |}];
                              ds_sample := one_row;
                              ds_row_count := 1 |} |}
  /\ upload_dataset "rows.csv" None unreadable fresh_world
     = (Raised "csv.Error", fresh_world)
  /\ upload_dataset "rows.csv" None broken_reader fresh_world
     = (Raised "csv.Error", fresh_world)
  /\ upload_dataset "rows.csv" None (exhausted long_row) fresh_world
     = (Raised "InvalidDocument", fresh_world).
Proof.
  split.
  - intros filename name w Hg. split; [now apply extract_empty|].
    exact (upload_dataset_after_guards filename name (exhausted []) w Hg).
  - split; [split; [reflexivity | split; [discriminate | reflexivity]]|].
    repeat split; vm_compute; reflexivity.
Qed.

Lemma empty_input_is_rejected_witness :
  guards_pass "none.csv" fresh_world
  /\ upload_dataset "none.csv" None (exhausted []) fresh_world
     = (HTTPException 400 "Empty CSV or failed to parse", fresh_world).
Proof.
  assert (Hg : guards_pass "none.csv" fresh_world)
    by (split; [reflexivity | split; [discriminate | reflexivity]]).
  split; [exact Hg|].
  exact (proj2 (proj1 empty_input_is_rejected "none.csv" None fresh_world Hg)).
Defined.

(** A line longer than the header that is not among the first 100 rows
    does not stand in the way: the dataset is stored, with a column whose
    name is [None]. *)
Example late_long_line_is_stored :
  fst (upload_dataset "rows.csv" None (exhausted late_long_rows) fresh_world)
  = Return {| id := "000000000000000000000000";
              body := DatasetDoc
                        {| ds_name := "rows.csv";
                           ds_columns := [{| col_name := Some "a"; col_type := "int" |};
                                          {| col_name := None; col_type := "string" |}];
                           ds_sample := repeat [(Some "a", VStr "1")] 100;
                           ds_row_count := 101 |} |}.
Proof. vm_compute. reflexivity. Qed.

Lemma in_firstn {A : Type} (n : nat) (l : list A) (x : A) :
  In x (firstn n l) -> In x l.
Proof.
  intros H. rewrite <- (firstn_skipn n l). apply in_or_app. now left.
Qed.

(** C9.  Whenever an upload succeeds, every key of every sample row is the
    name of a column descriptor: the names of the column descriptors are
    exactly the keys met in the rows of the input, and the sample rows are
    among those. *)
Theorem sample_keys_are_columns filename name reader w res w' :
  upload_dataset filename name reader w = (Return res, w') ->
  exists ds,
    body res = DatasetDoc ds
    /\ (forall r k, In r (ds_sample ds) -> In k (Dict.keys r) ->
                    In k (map col_name (ds_columns ds)))
    /\ (forall r, In r (ds_sample ds) -> In r (yielded reader))
    /\ (forall k, In k (map col_name (ds_columns ds))
                  <-> exists r, In r (yielded reader) /\ In k (Dict.keys r)).
Proof.
  intros Hup.
  destruct (upload_dataset_returns _ _ _ _ _ _ Hup) as (ds & d & Hex & _ & -> & _).
  destruct (extract_returns _ _ _ _ Hex) as (st & _ & Hinv & HF & Hs & _).
  exists ds. split; [reflexivity|].
  rewrite (describes_names _ _ HF), Hs, (inv_rows _ _ Hinv).
  split; [|split].
  - intros r k Hr Hk. apply in_firstn in Hr.
    exact (inv_keys _ _ Hinv r Hr k Hk).
  - intros r. apply in_firstn.
  - intros k. split; [apply (inv_cols _ _ Hinv)|].
    intros (r & Hr & Hk). exact (inv_keys _ _ Hinv r Hr k Hk).
Qed.

Lemma sample_keys_are_columns_witness :
  exists ds,
    body many_upload = DatasetDoc ds
    /\ (forall r k, In r (ds_sample ds) -> In k (Dict.keys r) ->
                    In k (map col_name (ds_columns ds)))
    /\ (forall r, In r (ds_sample ds) -> In r many_rows)
    /\ (forall k, In k (map col_name (ds_columns ds))
                  <-> exists r, In r many_rows /\ In k (Dict.keys r)).
Proof.
  apply (sample_keys_are_columns "many.csv" (Some "Many") (exhausted many_rows)
           fresh_world many_upload
           (snd (upload_dataset "many.csv" (Some "Many") (exhausted many_rows)
                   fresh_world))).
  vm_compute. reflexivity.
Defined.

(** C5, as the code has it.  For every sample, the details are the lines
    of the numeric columns (type [int] or [float]) followed by those of the
    categorical ones, and a numeric column contributes as follows.  Its
    parsed values are those of the cells that are present, not blank and
    accepted by [float]; the other cells are skipped.  Without a parsed
    value it contributes no line.  Otherwise it contributes the one line
    ["<col>: avg <avg>, min <min>, max <max> based on sample"], where the
    minimum is a parsed value that no parsed value is below, the maximum
    one that none is above, the average is the sum of the parsed values
    over their number, and each is written with two fractional digits when
    it is finite and as [nan], [inf] or [-inf] when it is not. *)
Theorem numeric_columns_summarised doc :
  insight_details doc
  = Return (flat_map (numeric_lines (doc_sample doc)) (numeric_cols (doc_columns doc))
            ++ flat_map (categorical_lines (doc_sample doc))
                 (categorical_cols (doc_columns doc)))
  /\ (forall col,
        In col (numeric_cols (doc_columns doc))
        <-> exists c, In c (doc_columns doc) /\ col_name c = col
                      /\ (col_type c = "int" \/ col_type c = "float"))
  /\ forall col,
       match parsed_values col (doc_sample doc) with
       | [] => numeric_lines (doc_sample doc) col = []
       | (_ :: _) as vals =>
           exists avg mn mx a m x,
             numeric_lines (doc_sample doc) col
             = [(key_str col ++ ": avg " ++ a ++ ", min " ++ m ++ ", max " ++ x
                     ++ " based on sample")%string]
             /\ PyFloat.py_min vals = Some mn /\ In mn vals
             /\ Forall (fun v => PyFloat.ltb v mn = false) vals
             /\ PyFloat.py_max vals = Some mx /\ In mx vals
             /\ Forall (fun v => PyFloat.ltb mx v = false) vals
             /\ PyFloat.truediv (PyFloat.py_sum vals)
                  (PyFloat.of_len (List.length vals)) = Some avg
             /\ rendered avg a /\ rendered mn m /\ rendered mx x
       end.
Proof.
  split; [apply insight_details_spec|].
  split; [intros col; apply numeric_cols_spec|].
  intros col. unfold numeric_lines.
  pose proof (numeric_detail_spec (doc_sample doc) [] col) as H.
  destruct (parsed_values col (doc_sample doc)) as [|v rest].
  - now rewrite H.
  - destruct H as (avg & mn & mx & -> & Hmn & Hmx & Havg).
    exists avg, mn, mx,
      (PyFloat.format_2f avg), (PyFloat.format_2f mn), (PyFloat.format_2f mx).
    split; [reflexivity|].
    split; [exact Hmn|]. split; [now apply py_min_in|].
    split; [now apply py_min_least|].
    split; [exact Hmx|]. split; [now apply py_max_in|].
    split; [now apply py_max_greatest|].
    split; [exact Havg|].
    repeat split; apply format_2f_rendered.
Qed.

(** C5, as the specification states it, fails: a cell reading [nan] is
    accepted by [float] (such a column is inferred as [float]), and the line
    of the column then shows [nan], which has no fractional digits. *)
Lemma nan_statistics_have_no_fraction_digits :
  infer_type "nan" = "float"
  /\ parsed_values (Some "x") nan_rows = [PyFloat.nan]
  /\ numeric_detail nan_rows [] (Some "x")
     = Return ["x: avg nan, min nan, max nan based on sample"]
  /\ fixed_2 "nan" = false.
Proof. repeat split; vm_compute; reflexivity. Qed.

(** The example of the specification: the column 1, 2, 3. *)
Example numeric_lines_small :
  insight_details small_dataset
  = Return ["n: avg 2.00, min 1.00, max 3.00 based on sample";
            "t: most frequent value is 'x' (2 occurrences in sample)"].
Proof. vm_compute. reflexivity. Qed.


(** C10.  In the mode computation a cell is left out exactly when it is
    [None] or the empty string: any other text counts, a blank one such as
    [" "] included, whereas the numeric part strips a text before it decides
    whether it is blank and so skips [" "].  What is counted is the [str] of
    the cell, so the number 1 and the text ["1"] are counted as one value. *)
Theorem only_none_and_empty_are_not_counted (col : column_key) :
  (forall sample, categorical_values col sample = counted_values col sample)
  /\ (forall c s, categorical_values col [[(col, VStr (String c s))]] = [String c s])
  /\ categorical_values col [[(col, VNone)]; [(col, VStr "")]; []] = []
  /\ categorical_detail [[(col, VStr " ")]] [] col
     = Return [(key_str col
                  ++ ": most frequent value is ' ' (1 occurrences in sample)")%string]
  /\ (forall s vals,
        collect_val col vals [(col, VStr s)]
        = if (PyStr.strip s =? "")%string then vals
          else match PyFloat.of_string s with
               | Some x => vals ++ [x]
               | None => vals
               end)
  /\ numeric_detail [[(col, VStr " ")]] [] col = Return []
  /\ (forall n, categorical_values col [[(col, VInt n)]] = [PyStr.of_Z n])
  /\ categorical_detail [[(col, VInt 1)]; [(col, VStr "1")]] [] col
     = Return [(key_str col
                  ++ ": most frequent value is '1' (2 occurrences in sample)")%string].
Proof.
  assert (Hone : forall v : pyval, Dict.get [(col, v)] col = Some v).
  { intros v. cbn [Dict.get]. now rewrite key_eqb_refl. }
  assert (Hvals : forall sample,
             categorical_values col sample = counted_values col sample)
    by (intros; apply categorical_values_spec).
  split; [exact Hvals|].
  split.
  { intros c s. rewrite Hvals. unfold counted_values. cbn [flat_map].
    now rewrite Hone. }
  split.
  { rewrite Hvals. unfold counted_values. cbn [flat_map].
    rewrite !Hone. reflexivity. }
  split.
  { unfold categorical_detail. rewrite Hvals. unfold counted_values.
    cbn [flat_map]. rewrite Hone. cbn [app py_str].
    change (Counter [" "]) with [(" ", 1)].
    change (most_common_1 [(" ", 1)]) with [(" ", 1)].
    reflexivity. }
  split.
  { intros s vals. unfold collect_val, cell. rewrite Hone. reflexivity. }
  split.
  { unfold numeric_detail. cbn [fold_left]. unfold collect_val, cell.
    rewrite Hone. reflexivity. }
  split.
  { intros n. rewrite Hvals. unfold counted_values. cbn [flat_map].
    now rewrite Hone. }
  unfold categorical_detail. rewrite Hvals. unfold counted_values.
  cbn [flat_map]. rewrite !Hone. cbn [app].
  change (py_str (VInt 1)) with "1". change (py_str (VStr "1")) with "1".
  change (Counter ["1"; "1"]) with [("1", 2)].
  change (most_common_1 [("1", 2)]) with [("1", 2)].
  reflexivity.
Qed.

(** C8, where the code departs from it.  With the store configured and one
    dataset in it, its id is answered with the record and another
    well-formed id with 404; but the id [abc] is answered with neither: the
    [InvalidId] of the [ObjectId] constructor escapes the handler. *)
Theorem get_dataset_malformed_id_escapes :
  get_dataset "000000000000000000000000" stocked_world
  = (Return {| id := "000000000000000000000000"; body := small_dataset |},
     stocked_world)
  /\ get_dataset "000000000000000000000001" stocked_world
     = (HTTPException 404 "Dataset not found", stocked_world)
  /\ get_dataset "abc" stocked_world = (Raised "InvalidId", stocked_world).
Proof. repeat split; vm_compute; reflexivity. Qed.

(** C7, where the code departs from it.  With the store configured and one
    dataset in it, a chart for that dataset is stored and returned with a
    new id, and a chart for another well-formed id is refused with 400 and
    nothing is written; but a chart whose [dataset_id] is [no-such-dataset],
    which references no stored dataset either, is not refused with a client
    error: the [InvalidId] of the [ObjectId] constructor escapes the handler
    (nothing is written). *)
Theorem save_chart_malformed_id_escapes :
  (exists w',
     save_chart (some_chart "000000000000000000000000") stocked_world
     = (Return {| id := "000000000000000000000001";
                  body := ChartDoc (some_chart "000000000000000000000000") |}, w')
     /\ option_map (fun d => db_collection d "chart") (db w')
        = Some [([0; 0; 0; 0; 0; 0; 0; 0; 0; 0; 0; 1]%N,
                 ChartDoc (some_chart "000000000000000000000000"))])
  /\ save_chart (some_chart "00000000000000000000000f") stocked_world
     = (HTTPException 400 "Related dataset not found", stocked_world)
  /\ save_chart (some_chart "no-such-dataset") stocked_world
     = (Raised "InvalidId", stocked_world).
Proof.
  split; [|split; vm_compute; reflexivity].
  eexists. split; vm_compute; reflexivity.
Qed.

(* ================================================================== *)
(** * The type counts as votes *)
(* ================================================================== *)

Lemma votes_snoc cs k v k' t' :
  votes (cs ++ [(k, v)]) k' t'
  = votes cs k' t'
    + (if key_eqb k k' && (infer_type (cell_text v) =? t')%string
       then 1 else 0).
Proof.
  unfold votes. rewrite filter_app, length_app. cbn [filter fst snd].
  destruct (key_eqb k k' && (infer_type (cell_text v) =? t')%string);
    reflexivity.
Qed.

Lemma votes_absent cs k t : ~ In k (map fst cs) -> votes cs k t = 0.
Proof.
  unfold votes. induction cs as [|[k0 v0] cs IH]; intros Hnot; [reflexivity|].
  cbn [filter fst snd]. simpl in Hnot.
  assert (E : key_eqb k0 k = false) by (apply key_eqb_neq; tauto).
  rewrite E. cbn [andb]. apply IH. tauto.
Qed.

Section KeyLists.
Context {K : Type} {EK : Key K} {LK : KeyLaws K}.
Implicit Types (k : K) (ks : list K).

Lemma existsb_eqb_in k ks : existsb (key_eqb k) ks = true <-> In k ks.
Proof.
  rewrite existsb_exists. split.
  - intros (x & Hx & E). apply key_eqb_eq in E. now subst.
  - intros H. exists k. split; [exact H | apply key_eqb_refl].
Qed.

Lemma in_add_key ks k x : In x (add_key ks k) <-> In x ks \/ x = k.
Proof.
  unfold add_key. destruct (existsb (key_eqb k) ks) eqn:E.
  - apply existsb_eqb_in in E. split; [tauto|]. intros [H | ->]; assumption.
  - rewrite in_app_iff. simpl. split; intros [H | H]; auto.
    destruct H as [<- | []]. now right.
Qed.

Lemma in_fold_add_key l : forall acc x,
  In x (fold_left add_key l acc) <-> In x acc \/ In x l.
Proof.
  induction l as [|k l IH]; intros acc x; simpl; [tauto|].
  rewrite IH, in_add_key. intuition congruence.
Qed.

Lemma mem_existsb {V : Type} (d : Dict.t K V) k :
  Dict.mem d k = existsb (key_eqb k) (Dict.keys d).
Proof.
  destruct (Dict.mem d k) eqn:E; symmetry.
  - apply existsb_eqb_in, mem_in_keys, E.
  - destruct (existsb (key_eqb k) (Dict.keys d)) eqn:E'; [|reflexivity].
    apply existsb_eqb_in, mem_in_keys in E'. congruence.
Qed.

Lemma keys_set_add_key {V : Type} (d : Dict.t K V) k v :
  Dict.keys (Dict.set d k v) = add_key (Dict.keys d) k.
Proof. rewrite keys_set, mem_existsb. reflexivity. Qed.

Lemma add_key_present ks k : In k ks -> add_key ks k = ks.
Proof.
  intros H. unfold add_key. apply existsb_eqb_in in H. now rewrite H.
Qed.

Lemma filter_filter_ext {A : Type} (f g h : A -> bool) (l : list A) :
  (forall y, h y = g y && f y) -> filter f (filter g l) = filter h l.
Proof.
  intros H. induction l as [|y l IH]; [reflexivity|].
  cbn [filter]. rewrite H. destruct (g y); cbn [andb filter]; [|exact IH].
  destruct (f y); now rewrite IH.
Qed.

(** Joining keys one by one keeps the order in which they are first met. *)
Lemma fold_add_key_firsts l : forall acc,
  fold_left add_key l acc
  = acc ++ filter (fun y => negb (existsb (key_eqb y) acc)) (firsts l).
Proof.
  induction l as [|x l IH]; intros acc; cbn [fold_left firsts filter].
  - now rewrite app_nil_r.
  - rewrite IH. unfold add_key. destruct (existsb (key_eqb x) acc) eqn:E.
    + cbn [negb]. f_equal. symmetry. apply filter_filter_ext. intros y.
      destruct (key_eqb_spec y x) as [-> | Hne]; cbn [negb andb].
      * now rewrite E.
      * reflexivity.
    + cbn [negb]. rewrite <- app_assoc. cbn [app]. do 2 f_equal.
      symmetry. apply filter_filter_ext. intros y.
      rewrite existsb_app. cbn [existsb]. rewrite orb_false_r, negb_orb.
      apply andb_comm.
Qed.

Lemma fold_add_key_nil l : fold_left add_key l [] = firsts l.
Proof.
  rewrite fold_add_key_firsts. cbn [app existsb negb].
  induction (firsts l) as [|y ys IH]; [reflexivity|].
  cbn [filter]. now rewrite IH.
Qed.
End KeyLists.

(** Raising the count of [t] in the tally of a column is counting one more
    cell of that column and type. *)
Lemma tally_of_bump cs k v :
  let t := infer_type (cell_text v) in
  Dict.get (tally_of cs k) t = Some (votes cs k t)
  /\ Dict.set (tally_of cs k) t (votes cs k t + 1) = tally_of (cs ++ [(k, v)]) k.
Proof.
  intros t. unfold tally_of. rewrite !votes_snoc, key_eqb_refl. cbn [andb].
  fold t. pose proof (infer_type_label (cell_text v)) as Ht. fold t in Ht.
  unfold labels in Ht. simpl in Ht.
  destruct Ht as [<- | [<- | [<- | [<- | []]]]]; cbn; split;
    first [reflexivity | repeat f_equal; lia].
Qed.

Lemma tally_of_other cs k v k' :
  k <> k' -> tally_of (cs ++ [(k, v)]) k' = tally_of cs k'.
Proof.
  intros Hne. unfold tally_of. rewrite !votes_snoc.
  apply key_eqb_neq in Hne. rewrite Hne. cbn [andb].
  now rewrite !Nat.add_0_r.
Qed.

Lemma tally_of_absent cs k : ~ In k (map fst cs) -> tally_of cs k = new_counts.
Proof.
  intros H. unfold tally_of. now rewrite !votes_absent by assumption.
Qed.

(** One cell more: the table stays the table of the votes. *)
Lemma tally_cell_votes cs tc k v :
  tally_inv cs tc ->
  exists tc', tally_cell tc (k, v) = Return tc' /\ tally_inv (cs ++ [(k, v)]) tc'.
Proof.
  intros [Hkeys Hnd Hget].
  assert (Hin : forall x, In x (Dict.keys tc) <-> In x (map fst cs)).
  { intros x. rewrite Hkeys, in_fold_add_key. simpl. tauto. }
  unfold tally_cell. change (match v with VNone => "" | _ => py_str v end)
    with (cell_text v).
  set (t := infer_type (cell_text v)).
  set (tc1 := if Dict.mem tc k then tc else Dict.set tc k new_counts).
  assert (Hk1 : Dict.keys tc1 = add_key (Dict.keys tc) k).
  { subst tc1. destruct (Dict.mem tc k) eqn:E.
    - symmetry. apply add_key_present. now apply mem_in_keys.
    - apply keys_set_add_key. }
  assert (Hnd1 : NoDup (Dict.keys tc1)).
  { subst tc1. destruct (Dict.mem tc k); [assumption | now apply nodup_keys_set]. }
  assert (Hget1 : Dict.get tc1 k = Some (tally_of cs k)).
  { subst tc1. destruct (Dict.mem tc k) eqn:E.
    - apply Hget. now apply mem_in_keys.
    - rewrite get_set_same. f_equal. symmetry. apply tally_of_absent.
      rewrite <- Hin. intros H. apply mem_in_keys in H. congruence. }
  assert (Hother : forall k', k <> k' -> Dict.get tc1 k' = Dict.get tc k').
  { intros k' Hne. subst tc1. destruct (Dict.mem tc k); [reflexivity|].
    now apply get_set_other. }
  destruct (tally_of_bump cs k v) as [Hgt Hset]. fold t in Hgt, Hset.
  rewrite Hget1. cbn [expect obind]. rewrite Hgt. cbn [expect obind].
  eexists. split; [reflexivity|]. rewrite Hset. constructor.
  - rewrite keys_set_add_key, Hk1, map_app, fold_left_app. cbn [map fst fold_left].
    rewrite <- Hkeys. apply add_key_present. apply in_add_key. now right.
  - now apply nodup_keys_set.
  - intros k' Hk'. destruct (key_dec k k') as [<- | Hne].
    + apply get_set_same.
    + rewrite get_set_other by assumption. rewrite Hother by assumption.
      rewrite tally_of_other by assumption. apply Hget.
      rewrite keys_set_add_key, Hk1 in Hk'.
      apply in_add_key in Hk' as [Hk' | ->]; [|congruence].
      apply in_add_key in Hk' as [Hk' | ->]; [assumption | congruence].
Qed.

Lemma tally_cells_votes (l : list (column_key * pyval)) : forall cs tc,
  tally_inv cs tc ->
  exists tc', for_each tally_cell l tc = Return tc' /\ tally_inv (cs ++ l) tc'.
Proof.
  induction l as [|[k v] l IH]; intros cs tc Hinv; cbn [for_each].
  - exists tc. now rewrite app_nil_r.
  - destruct (tally_cell_votes cs tc k v Hinv) as (tc1 & -> & Hinv1).
    cbn [obind]. destruct (IH _ _ Hinv1) as (tc2 & -> & Hinv2).
    exists tc2. split; [reflexivity|]. now rewrite <- app_assoc in Hinv2.
Qed.

(** The reading loop runs the cell loop over all the cells in turn. *)
Lemma ingest_cells (l : list row) : forall st st',
  for_each ingest_row l st = Return st' ->
  for_each tally_cell (cells l) (type_counts st) = Return (type_counts st').
Proof.
  induction l as [|r l IH]; intros st st' H; cbn [for_each] in H.
  - injection H as <-. reflexivity.
  - unfold ingest_row at 1 in H. unfold Dict.items in H.
    destruct (for_each tally_cell r (type_counts st)) as [tc| |] eqn:E;
      cbn [obind] in H; try discriminate.
    apply IH in H. cbn [type_counts] in H.
    unfold cells. cbn [List.concat]. rewrite for_each_app, E. exact H.
Qed.

Lemma ingest_rows_votes (l : list row) st :
  for_each ingest_row l {| rows := []; total := 0; type_counts := [] |} = Return st ->
  tally_inv (cells l) (type_counts st).
Proof.
  intros H. apply ingest_cells in H. cbn [type_counts] in H.
  destruct (tally_cells_votes (cells l) [] []) as (tc & Htc & Hinv).
  { constructor; [reflexivity | constructor | intros k []]. }
  rewrite H in Htc. injection Htc as <-. exact Hinv.
Qed.

Lemma read_rows_votes reader st :
  read_rows reader = Return st -> tally_inv (cells (yielded reader)) (type_counts st).
Proof.
  intros H. apply read_rows_returns in H as (_ & _ & H).
  now apply ingest_rows_votes.
Qed.

Lemma Forall2_in_r {A B : Type} (R : A -> B -> Prop) l1 l2 y :
  Forall2 R l1 l2 -> In y l2 -> exists x, In x l1 /\ R x y.
Proof.
  induction 1 as [|a b l1 l2 Hab _ IH]; [intros []|].
  intros [<- | Hin].
  - exists a. split; [now left | exact Hab].
  - destruct (IH Hin) as (x & Hx & HR). exists x. split; [now right | exact HR].
Qed.

(** A successful upload went through the reading loop, whose table is the
    table of the votes, and described each of its columns. *)
Lemma upload_dataset_votes filename name reader w res w' :
  upload_dataset filename name reader w = (Return res, w') ->
  exists ds st,
    body res = DatasetDoc ds
    /\ tally_inv (cells (yielded reader)) (type_counts st)
    /\ Forall2 describes (type_counts st) (ds_columns ds).
Proof.
  intros Hup.
  destruct (upload_dataset_returns _ _ _ _ _ _ Hup) as (ds & d & Hex & _ & -> & _).
  destruct (extract_returns _ _ _ _ Hex) as (st & Hst & _ & HF & _).
  exists ds, st. split; [reflexivity|]. split; [now apply read_rows_votes | exact HF].
Qed.

(* ================================================================== *)
(** * Object ids and the store *)
(* ================================================================== *)

Lemma hex_digit_round_trip n :
  (n < 16)%N ->
  ObjectId.hex_val (ObjectId.hex_digit n) = Some n
  /\ ObjectId.is_ascii_space (ObjectId.hex_digit n) = false.
Proof.
  intros Hn. rewrite <- (N2Nat.id n).
  assert (Hk : N.to_nat n < 16) by lia.
  revert Hk. generalize (N.to_nat n). clear Hn. intros k Hk.
  do 16 (destruct k as [|k]; [split; reflexivity|]). lia.
Qed.

Lemma fromhex_to_string (o : ObjectId.t) :
  Forall (fun b => (b < 256)%N) o ->
  ObjectId.fromhex (ObjectId.to_string o) = Some o.
Proof.
  induction 1 as [|b o Hb _ IH]; [reflexivity|].
  cbn [ObjectId.to_string ObjectId.fromhex].
  assert (Hhi : (b / 16 < 16)%N) by (apply N.Div0.div_lt_upper_bound; lia).
  assert (Hlo : (b mod 16 < 16)%N) by (apply N.mod_lt; lia).
  destruct (hex_digit_round_trip _ Hhi) as [-> ->].
  destruct (hex_digit_round_trip _ Hlo) as [-> _].
  rewrite IH. f_equal. f_equal.
  rewrite (N.div_mod b 16) at 3 by lia. reflexivity.
Qed.

Lemma to_string_length (o : ObjectId.t) :
  String.length (ObjectId.to_string o) = 2 * List.length o.
Proof.
  induction o as [|b o IH]; [reflexivity|].
  cbn [ObjectId.to_string String.length List.length]. rewrite IH. lia.
Qed.

Lemma of_counter_shape w : forall n acc,
  List.length (ObjectId.of_counter w n acc) = w + List.length acc
  /\ (Forall (fun b => (b < 256)%N) acc ->
      Forall (fun b => (b < 256)%N) (ObjectId.of_counter w n acc)).
Proof.
  induction w as [|w IH]; intros n acc; cbn [ObjectId.of_counter].
  - split; [reflexivity | auto].
  - destruct (IH (n / 256)%N ((n mod 256)%N :: acc)) as [Hlen Hall].
    split; [rewrite Hlen; simpl; lia|].
    intros Hacc. apply Hall. constructor; [apply N.mod_lt; lia | exact Hacc].
Qed.

(** The text of a generated id reads back as that id. *)
Lemma counter_id_round_trip k :
  ObjectId.of_string (ObjectId.to_string (counter_id k)) = Some (counter_id k).
Proof.
  unfold ObjectId.of_string, counter_id.
  destruct (of_counter_shape 12 k []) as [Hlen Hall].
  rewrite to_string_length, Hlen. cbn [List.length Nat.add Nat.mul Nat.eqb].
  apply fromhex_to_string, Hall. constructor.
Qed.

Lemma of_counter_injective w : forall n m acc acc',
  List.length acc = List.length acc' ->
  ObjectId.of_counter w n acc = ObjectId.of_counter w m acc' ->
  (n mod 256 ^ N.of_nat w = m mod 256 ^ N.of_nat w)%N /\ acc = acc'.
Proof.
  induction w as [|w IH]; intros n m acc acc' Hlen H; cbn [ObjectId.of_counter] in H.
  - split; [now rewrite !N.mod_1_r | exact H].
  - apply IH in H; [|simpl; now rewrite Hlen].
    destruct H as [Hdiv Hcons]. injection Hcons as Hmod Hacc.
    split; [|exact Hacc].
    rewrite Nat2N.inj_succ, N.pow_succ_r'.
    rewrite !N.Div0.mod_mul_r. now rewrite Hmod, Hdiv.
Qed.

Lemma counter_id_injective k k' :
  (k < id_space)%N -> (k' < id_space)%N -> counter_id k = counter_id k' -> k = k'.
Proof.
  unfold counter_id, id_space. intros Hk Hk' H.
  apply of_counter_injective in H as [H _]; [|reflexivity].
  change (N.of_nat 12) with 12%N in H.
  now rewrite !N.mod_small in H by assumption.
Qed.

Lemma oid_eqb_eq (a b : ObjectId.t) : ObjectId.eqb a b = true <-> a = b.
Proof.
  revert b. induction a as [|x a IH]; intros [|y b]; cbn [ObjectId.eqb];
    try (split; [discriminate | congruence]); [split; reflexivity|].
  rewrite andb_true_iff, N.eqb_eq, IH. split; [intros [-> ->] | intros [= -> ->]]; auto.
Qed.

Lemma find_one_some c oid e :
  find_one c oid = Some e -> In e c /\ fst e = oid.
Proof.
  induction c as [|[o d] c IH]; cbn [find_one]; [discriminate|].
  destruct (ObjectId.eqb o oid) eqn:E.
  - intros [= <-]. apply oid_eqb_eq in E. split; [now left | exact E].
  - intros H. destruct (IH H). split; [now right | assumption].
Qed.

Lemma find_one_none c oid :
  find_one c oid = None <-> ~ In oid (map fst c).
Proof.
  induction c as [|[o d] c IH]; cbn [find_one map fst]; [simpl; tauto|].
  destruct (ObjectId.eqb o oid) eqn:E.
  - apply oid_eqb_eq in E. split; [discriminate|]. simpl. tauto.
  - rewrite IH. simpl. split; [|tauto]. intros Hn [-> | H]; [|tauto].
    assert (ObjectId.eqb oid oid = true) by now apply oid_eqb_eq. congruence.
Qed.

Lemma find_one_in c o d :
  NoDup (map fst c) -> In (o, d) c -> find_one c o = Some (o, d).
Proof.
  induction c as [|[o' d'] c IH]; cbn [find_one map fst]; [intros _ []|].
  intros Hnd Hin. inversion Hnd as [|? ? Hnotin Hnd']; subst.
  destruct Hin as [[= -> ->] | Hin].
  - assert (E : ObjectId.eqb o o = true) by now apply oid_eqb_eq. now rewrite E.
  - destruct (ObjectId.eqb o' o) eqn:E; [|auto].
    apply oid_eqb_eq in E. subst o'. exfalso. apply Hnotin.
    change o with (fst (o, d)). now apply in_map.
Qed.

(** Looking up after one more document was appended. *)
Lemma find_one_app c o d oid :
  find_one (c ++ [(o, d)]) oid
  = match find_one c oid with
    | Some e => Some e
    | None => if ObjectId.eqb o oid then Some (o, d) else None
    end.
Proof.
  induction c as [|[o' d'] c IH]; cbn [app find_one]; [reflexivity|].
  destruct (ObjectId.eqb o' oid); [reflexivity | exact IH].
Qed.

Lemma db_collection_stored name doc d name' :
  db_collection (stored name doc d) name'
  = if (name =? name')%string
    then db_collection d name ++ [(counter_id (inserted d), doc)]
    else db_collection d name'.
Proof.
  unfold db_collection at 1, stored. cbn [collections].
  destruct (String.eqb_spec name name') as [<- | Hne].
  - now rewrite get_set_same.
  - now rewrite get_set_other.
Qed.

Lemma store_ok_empty : store_ok {| collections := []; inserted := 0 |}.
Proof.
  constructor; cbn.
  - unfold id_space. lia.
  - intros name o doc [].
  - intros name. constructor.
Qed.

(** Storing a document keeps the ids apart, as long as ids are left. *)
Lemma store_ok_stored name doc d :
  store_ok d -> (inserted d < id_space)%N -> store_ok (stored name doc d).
Proof.
  intros [Hb Hids Hnd] Hlt. constructor.
  - cbn [stored inserted]. lia.
  - intros name' o doc' Hin. rewrite db_collection_stored in Hin.
    cbn [stored inserted].
    destruct (name =? name')%string.
    + apply in_app_or in Hin. destruct Hin as [Hin | [[= <- <-] | []]].
      * destruct (Hids _ _ _ Hin) as (k & Hk & ->). exists k. split; [lia | reflexivity].
      * exists (inserted d). split; [lia | reflexivity].
    + destruct (Hids _ _ _ Hin) as (k & Hk & ->). exists k. split; [lia | reflexivity].
  - intros name'. rewrite db_collection_stored.
    destruct (name =? name')%string; [|apply Hnd].
    rewrite map_app. cbn [map fst]. apply NoDup_app; [apply Hnd | repeat constructor; auto|].
    intros o Ho [<- | []]. apply in_map_iff in Ho as ([o' doc'] & Ho' & Hin).
    cbn [fst] in Ho'. subst o'.
    destruct (Hids _ _ _ Hin) as (k & Hk & Heq).
    apply counter_id_injective in Heq; lia.
Qed.

(* ================================================================== *)
(** * Further properties of the upload *)
(* ================================================================== *)

(** X1.  The code of the reading loop raises nothing.  When the reader
    raises while the rows are read, its exception ends the loop and
    escapes.  When the reader is exhausted, the loop has run to its end, and
    its table has one entry for each key met in the rows, in the order in
    which the keys are first met, and the entry of a key holds, for each of
    [int], [float], [string] and [null], the number of cells under that
    key, over all the rows, whose text [infer_type] gives that label. *)
Theorem type_counts_are_votes (reader : DictReader) :
  match raised reader with
  | Some exn => read_rows reader = Raised exn
  | None =>
      exists st,
        read_rows reader = Return st
        /\ Dict.keys (type_counts st) = firsts (map fst (cells (yielded reader)))
        /\ Forall (fun k =>
                     Dict.get (type_counts st) k
                     = Some [("int", votes (cells (yielded reader)) k "int");
                             ("float", votes (cells (yielded reader)) k "float");
                             ("string", votes (cells (yielded reader)) k "string");
                             ("null", votes (cells (yielded reader)) k "null")])
             (firsts (map fst (cells (yielded reader))))
  end.
Proof.
  destruct (read_rows_spec reader) as (st & _ & Hloop & Hst).
  destruct (raised reader) as [exn|]; [exact Hst|].
  pose proof (ingest_rows_votes _ _ Hloop) as [Hkeys _ Hget].
  exists st. split; [exact Hst|]. rewrite Hkeys, fold_add_key_nil.
  split; [reflexivity|].
  apply Forall_forall. intros k Hk. apply Hget.
  now rewrite Hkeys, fold_add_key_nil.
Qed.

(** X2.  Whenever an upload succeeds, the type of every column descriptor is
    the one of [int], [float], [string] with the most votes among all the
    cells of the column, the earlier of the three when several have the
    most; the votes for [null] play no part. *)
Theorem column_type_has_most_votes filename name reader w res w' :
  upload_dataset filename name reader w = (Return res, w') ->
  exists ds,
    body res = DatasetDoc ds
    /\ Forall (fun c =>
                 wins (col_type c)
                   (votes (cells (yielded reader)) (col_name c) "int")
                   (votes (cells (yielded reader)) (col_name c) "float")
                   (votes (cells (yielded reader)) (col_name c) "string"))
         (ds_columns ds).
Proof.
  intros Hup.
  destruct (upload_dataset_votes _ _ _ _ _ _ Hup) as (ds & st & Hbody & Hinv & HF).
  exists ds. split; [exact Hbody|]. apply Forall_forall. intros c Hc.
  destruct (Forall2_in_r _ _ _ _ HF Hc) as ([k counts] & Hin & Hname & Hbest).
  cbn [fst snd] in Hname, Hbest. rewrite Hname.
  assert (Hk : In k (Dict.keys (type_counts st))).
  { change k with (fst (k, counts)). now apply in_map. }
  pose proof (in_get_nodup _ _ _ (ti_nodup _ _ Hinv) Hin) as Hget.
  rewrite (ti_get _ _ Hinv k Hk) in Hget. injection Hget as <-.
  unfold tally_of in Hbest. rewrite best_type_shape in Hbest.
  injection Hbest as <-. unfold wins.
  set (cs := cells (yielded reader)).
  destruct (Nat.ltb_spec (votes cs k "int") (votes cs k "float"));
    [destruct (Nat.ltb_spec (votes cs k "float") (votes cs k "string"))
    |destruct (Nat.ltb_spec (votes cs k "int") (votes cs k "string"))].
  - right. right. repeat split; lia.
  - right. left. repeat split; lia.
  - right. right. repeat split; lia.
  - left. repeat split; lia.
Qed.

Lemma column_type_has_most_votes_witness :
  exists ds,
    body mixed_upload = DatasetDoc ds
    /\ Forall (fun c =>
                 wins (col_type c)
                   (votes (cells mixed_rows) (col_name c) "int")
                   (votes (cells mixed_rows) (col_name c) "float")
                   (votes (cells mixed_rows) (col_name c) "string"))
         (ds_columns ds).
Proof.
  apply (column_type_has_most_votes "mixed.csv" (Some "Mixed") (exhausted mixed_rows)
           fresh_world mixed_upload
           (snd (upload_dataset "mixed.csv" (Some "Mixed") (exhausted mixed_rows)
                   fresh_world))).
  vm_compute. reflexivity.
Defined.

(** X3.  Whenever an upload succeeds, the dataset has one column descriptor
    for each distinct key of the rows, and the descriptors come in the order
    in which the keys are first met while the rows are read. *)
Theorem columns_in_order_of_first_appearance filename name reader w res w' :
  upload_dataset filename name reader w = (Return res, w') ->
  exists ds,
    body res = DatasetDoc ds
    /\ map col_name (ds_columns ds) = firsts (flat_map Dict.keys (yielded reader))
    /\ NoDup (map col_name (ds_columns ds)).
Proof.
  intros Hup.
  destruct (upload_dataset_votes _ _ _ _ _ _ Hup) as (ds & st & Hbody & Hinv & HF).
  exists ds. split; [exact Hbody|].
  rewrite (describes_names _ _ HF).
  assert (Hcells : forall l : list row, map fst (cells l) = flat_map Dict.keys l).
  { unfold cells, Dict.keys. clear. induction l as [|r l IH]; [reflexivity|].
    cbn [List.concat flat_map]. now rewrite map_app, IH. }
  split; [|exact (ti_nodup _ _ Hinv)].
  now rewrite (ti_keys _ _ Hinv), fold_add_key_nil, Hcells.
Qed.

Lemma columns_in_order_of_first_appearance_witness :
  exists ds,
    body mixed_upload = DatasetDoc ds
    /\ map col_name (ds_columns ds) = firsts (flat_map Dict.keys mixed_rows)
    /\ NoDup (map col_name (ds_columns ds)).
Proof.
  apply (columns_in_order_of_first_appearance "mixed.csv" (Some "Mixed")
           (exhausted mixed_rows) fresh_world mixed_upload
           (snd (upload_dataset "mixed.csv" (Some "Mixed") (exhausted mixed_rows)
                   fresh_world))).
  vm_compute. reflexivity.
Defined.

(** X4.  How an upload ends.  It is answered with the stored dataset; or
    with one of four HTTP errors (the file is not named [.csv], the
    database is not configured, [multipart] is not installed, there are no
    rows); or the exception that the reader raised while the rows were read
    escapes the handler; or the [InvalidDocument] with which the store
    refuses the dataset does.  In all cases but the first the store is as it
    was. *)
Theorem upload_dataset_outcomes filename name reader w :
  (exists ds d,
     db w = Some d
     /\ upload_dataset filename name reader w
        = (Return {| id := next_id d; body := DatasetDoc ds |},
           with_db w (stored "dataset" (DatasetDoc ds) d)))
  \/ (In (fst (upload_dataset filename name reader w)) upload_errors
      /\ snd (upload_dataset filename name reader w) = w)
  \/ (exists exn,
        raised reader = Some exn
        /\ upload_dataset filename name reader w = (Raised exn, w))
  \/ (raised reader = None
      /\ upload_dataset filename name reader w = (Raised "InvalidDocument", w)).
Proof.
  unfold upload_errors.
  destruct (PyStr.endswith (PyStr.lower filename) ".csv") eqn:Hcsv.
  2:{ right. left. unfold upload_dataset. rewrite Hcsv. cbn [negb fst snd].
      split; [now left | reflexivity]. }
  destruct (db w) as [d|] eqn:Hdb.
  2:{ right. left. unfold upload_dataset. rewrite Hcsv, Hdb. cbn [negb fst snd].
      split; [right; now left | reflexivity]. }
  destruct (has_multipart w) eqn:Hmp.
  2:{ right. left. unfold upload_dataset. rewrite Hcsv, Hdb, Hmp. cbn [negb fst snd].
      split; [right; right; now left | reflexivity]. }
  destruct (upload_dataset_extracts filename name reader w) as (d' & Hd' & Hup).
  { split; [exact Hcsv|]. split; [congruence | exact Hmp]. }
  rewrite Hdb in Hd'. injection Hd' as <-.
  destruct (raised reader) as [exn|] eqn:Hr.
  { right. right. left. exists exn. split; [reflexivity|].
    now rewrite Hup, (extract_raised _ _ _ _ Hr). }
  destruct (yielded reader) as [|r rest] eqn:Hy.
  - right. left. rewrite Hup, (extract_empty _ _ _ Hr Hy). cbn [fst snd].
    split; [right; right; right; now left | reflexivity].
  - destruct (extract_nonempty filename name reader Hr)
      as (st & cols & _ & _ & _ & _ & Hex); [congruence|].
    pose proof (extract_sample _ _ _ _ Hex) as [Hs _]. rewrite Hy in Hs.
    rewrite Hex in Hup. rewrite Hs in Hup. unfold max_preview in Hup.
    destruct (forallb text_keys (firstn 100 (r :: rest))) eqn:Henc.
    + left. eexists. exists d. split; [reflexivity | exact Hup].
    + right. right. right. split; [reflexivity | exact Hup].
Qed.

(* ================================================================== *)
(** * Further properties of the other handlers *)
(* ================================================================== *)

Lemma generate_insights_found dataset_id w d oid entry :
  db w = Some d -> has_bson w = true ->
  ObjectId.of_string dataset_id = Some oid ->
  find_one (db_collection d "dataset") oid = Some entry ->
  generate_insights dataset_id w
  = match insight_details (snd entry) with
    | Return details =>
        let insight :=
          InsightDoc {| in_dataset_id := dataset_id;
                        in_summary := summary_text;
                        in_details := details |} in
        (Return {| id := next_id d; body := insight |},
         with_db w (stored "insight" insight d))
    | HTTPException c e => (HTTPException c e, w)
    | Raised e => (Raised e, w)
    end.
Proof.
  intros Hdb Hbson Hoid Hfind. unfold generate_insights, create_document.
  rewrite Hdb, Hbson, Hoid, Hfind. cbn [negb].
  destruct (insight_details (snd entry)); reflexivity.
Qed.

Lemma generate_insights_missing dataset_id w d oid :
  db w = Some d -> has_bson w = true ->
  ObjectId.of_string dataset_id = Some oid ->
  find_one (db_collection d "dataset") oid = None ->
  generate_insights dataset_id w = (HTTPException 404 "Dataset not found", w).
Proof.
  intros Hdb Hbson Hoid Hfind. unfold generate_insights.
  now rewrite Hdb, Hbson, Hoid, Hfind.
Qed.

(** X5.  A request that is not answered with a result leaves the store as
    it was, whichever handler it goes to; reading a dataset and listing
    never change the store at all, whatever [get_documents] returns. *)
Theorem failed_requests_write_nothing (w : world)
    (get_documents :
       string -> Dict.t string pyval -> world -> outcome (list (ObjectId.t * document))) :
  (forall filename name reader,
     (exists res, fst (upload_dataset filename name reader w) = Return res)
     \/ snd (upload_dataset filename name reader w) = w)
  /\ (forall dataset_id,
        (exists res, fst (generate_insights dataset_id w) = Return res)
        \/ snd (generate_insights dataset_id w) = w)
  /\ (forall payload,
        (exists res, fst (save_chart payload w) = Return res)
        \/ snd (save_chart payload w) = w)
  /\ (forall dataset_id, snd (get_dataset dataset_id w) = w)
  /\ snd (list_datasets get_documents w) = w
  /\ (forall dataset_id, snd (list_charts get_documents dataset_id w) = w).
Proof.
  split; [|split; [|split; [|split; [|split]]]].
  - intros filename name reader.
    destruct (fst (upload_dataset filename name reader w)) as [res| |] eqn:E.
    + left. now exists res.
    + right. apply upload_dataset_failure_writes_nothing.
      intros res. rewrite E. discriminate.
    + right. apply upload_dataset_failure_writes_nothing.
      intros res. rewrite E. discriminate.
  - intros dataset_id. unfold generate_insights, create_document.
    destruct (db w) as [d|]; [|now right].
    destruct (negb (has_bson w)); [now right|].
    destruct (ObjectId.of_string dataset_id); [|now right].
    destruct (find_one _ _); [|now right].
    destruct (insight_details _);
      [left; eexists; reflexivity | now right | now right].
  - intros payload. unfold save_chart, create_document.
    destruct (db w) as [d|]; [|now right].
    destruct (negb (has_bson w)); [now right|].
    destruct (ObjectId.of_string _); [|now right].
    destruct (find_one _ _); [left; eexists; reflexivity | now right].
  - intros dataset_id. unfold get_dataset.
    destruct (db w) as [d|]; [|reflexivity].
    destruct (negb (has_bson w)); [reflexivity|].
    destruct (ObjectId.of_string dataset_id); [|reflexivity].
    destruct (find_one _ _); reflexivity.
  - unfold list_datasets. destruct (db w); [|reflexivity].
    destruct (get_documents _ _ _); reflexivity.
  - intros dataset_id. unfold list_charts. destruct (db w); [|reflexivity].
    destruct (get_documents _ _ _); reflexivity.
Qed.

Lemma get_dataset_entry w d o doc :
  store_ok d -> db w = Some d -> has_bson w = true ->
  In (o, doc) (db_collection d "dataset") ->
  get_dataset (ObjectId.to_string o) w = (Return (serialize_doc (o, doc)), w).
Proof.
  intros Hok Hdb Hbson Hin.
  destruct (so_ids _ Hok _ _ _ Hin) as (k & _ & ->).
  rewrite (get_dataset_well_formed _ w d (counter_id k) Hdb Hbson
             (counter_id_round_trip k)).
  now rewrite (find_one_in _ _ _ (so_nodup _ Hok "dataset") Hin).
Qed.

Lemma stocked_world_db : db stocked_world = Some stocked_db.
Proof. vm_compute. reflexivity. Qed.

Lemma fresh_db_has_ids : (inserted fresh_db < id_space)%N.
Proof. vm_compute. reflexivity. Qed.

Lemma stocked_db_ok : store_ok stocked_db.
Proof. apply store_ok_stored; [apply store_ok_empty | apply fresh_db_has_ids]. Qed.

(** X7.  On a store whose ids are in order and not used up, with [bson]
    available, a dataset that was just uploaded can be read back: asking for
    it by the id the upload returned gives the record the upload returned. *)
Theorem uploaded_dataset_is_read_back filename name reader w d res w' :
  store_ok d -> (inserted d < id_space)%N ->
  db w = Some d -> has_bson w = true ->
  upload_dataset filename name reader w = (Return res, w') ->
  get_dataset (id res) w' = (Return res, w').
Proof.
  intros Hok Hlt Hdb Hbson Hup.
  destruct (upload_dataset_returns _ _ _ _ _ _ Hup) as (ds & d' & _ & Hdb' & -> & ->).
  rewrite Hdb in Hdb'. injection Hdb' as <-. cbn [id].
  apply (get_dataset_entry _ (stored "dataset" (DatasetDoc ds) d)
           (counter_id (inserted d)) (DatasetDoc ds)).
  - now apply store_ok_stored.
  - reflexivity.
  - exact Hbson.
  - rewrite db_collection_stored, String.eqb_refl.
    apply in_or_app. right. now left.
Qed.

Lemma uploaded_dataset_is_read_back_witness :
  get_dataset (id second_upload)
    (snd (upload_dataset "mixed.csv" (Some "Mixed") (exhausted mixed_rows) stocked_world))
  = (Return second_upload,
     snd (upload_dataset "mixed.csv" (Some "Mixed") (exhausted mixed_rows) stocked_world)).
Proof.
  apply (uploaded_dataset_is_read_back "mixed.csv" (Some "Mixed") (exhausted mixed_rows)
           stocked_world stocked_db second_upload).
  - apply stocked_db_ok.
  - vm_compute. reflexivity.
  - vm_compute. reflexivity.
  - reflexivity.
  - vm_compute. reflexivity.
Defined.

Lemma get_dataset_returns dataset_id w r w' :
  get_dataset dataset_id w = (Return r, w') ->
  exists d oid entry,
    db w = Some d /\ has_bson w = true
    /\ ObjectId.of_string dataset_id = Some oid
    /\ find_one (db_collection d "dataset") oid = Some entry
    /\ r = serialize_doc entry /\ w' = w.
Proof.
  unfold get_dataset.
  destruct (db w) as [d|]; [|discriminate].
  destruct (has_bson w); cbn [negb]; [|discriminate].
  destruct (ObjectId.of_string dataset_id) as [oid|]; [|discriminate].
  destruct (find_one _ oid) as [entry|] eqn:E; [|discriminate].
  intros [= <- <-]. exists d, oid, entry. repeat split; auto.
Qed.

Lemma generate_insights_returns dataset_id w res w' :
  generate_insights dataset_id w = (Return res, w') ->
  exists d oid entry details,
    db w = Some d /\ has_bson w = true
    /\ ObjectId.of_string dataset_id = Some oid
    /\ find_one (db_collection d "dataset") oid = Some entry
    /\ insight_details (snd entry) = Return details
    /\ res = {| id := next_id d;
                body := InsightDoc {| in_dataset_id := dataset_id;
                                      in_summary := summary_text;
                                      in_details := details |} |}
    /\ w' = with_db w (stored "insight" (body res) d).
Proof.
  unfold generate_insights, create_document.
  destruct (db w) as [d|] eqn:Hdb; [|discriminate].
  destruct (has_bson w); cbn [negb]; [|discriminate].
  destruct (ObjectId.of_string dataset_id) as [oid|]; [|discriminate].
  destruct (find_one _ oid) as [entry|] eqn:E; [|discriminate].
  destruct (insight_details (snd entry)) as [details| |] eqn:Hd; try discriminate.
  intros [= <- <-]. exists d, oid, entry, details. repeat split; auto.
Qed.

Lemma save_chart_returns payload w res w' :
  save_chart payload w = (Return res, w') ->
  exists d oid entry,
    db w = Some d /\ has_bson w = true
    /\ ObjectId.of_string (ch_dataset_id payload) = Some oid
    /\ find_one (db_collection d "dataset") oid = Some entry
    /\ res = {| id := next_id d; body := ChartDoc payload |}
    /\ w' = with_db w (stored "chart" (ChartDoc payload) d).
Proof.
  unfold save_chart, create_document.
  destruct (db w) as [d|] eqn:Hdb; [|discriminate].
  destruct (has_bson w); cbn [negb]; [|discriminate].
  destruct (ObjectId.of_string _) as [oid|]; [|discriminate].
  destruct (find_one _ oid) as [entry|] eqn:E; [|discriminate].
  intros [= <- <-]. exists d, oid, entry. repeat split; auto.
Qed.

(** A write keeps what the dataset collection answered before. *)
Lemma find_one_stored name doc d oid entry :
  find_one (db_collection d "dataset") oid = Some entry ->
  find_one (db_collection (stored name doc d) "dataset") oid = Some entry.
Proof.
  intros H. rewrite db_collection_stored.
  destruct (name =? "dataset")%string eqn:E; [|exact H].
  apply String.eqb_eq in E. subst name. now rewrite find_one_app, H.
Qed.

(** X8.  A write never disturbs the datasets already stored: a dataset that
    is served under an id is served under it, unchanged, after any
    successful upload, insight generation or chart creation. *)
Theorem served_datasets_stay dataset_id r w w' :
  get_dataset dataset_id w = (Return r, w) ->
  (exists filename name reader res,
     upload_dataset filename name reader w = (Return res, w'))
  \/ (exists other res, generate_insights other w = (Return res, w'))
  \/ (exists payload res, save_chart payload w = (Return res, w')) ->
  get_dataset dataset_id w' = (Return r, w').
Proof.
  intros Hget Hwrite.
  destruct (get_dataset_returns _ _ _ _ Hget)
    as (d & oid & entry & Hdb & Hbson & Hoid & Hfind & -> & _).
  assert (Hw' : exists name doc, w' = with_db w (stored name doc d)).
  { destruct Hwrite as [(f & n & rd & res & H) | [(i & res & H) | (p & res & H)]].
    - destruct (upload_dataset_returns _ _ _ _ _ _ H) as (ds & d' & _ & Hd' & _ & ->).
      rewrite Hdb in Hd'. injection Hd' as <-. eauto.
    - destruct (generate_insights_returns _ _ _ _ H)
        as (d' & _ & _ & _ & Hd' & _ & _ & _ & _ & _ & ->).
      rewrite Hdb in Hd'. injection Hd' as <-. eauto.
    - destruct (save_chart_returns _ _ _ _ H) as (d' & _ & _ & Hd' & _ & _ & _ & _ & ->).
      rewrite Hdb in Hd'. injection Hd' as <-. eauto. }
  destruct Hw' as (name & doc & ->).
  rewrite (get_dataset_well_formed dataset_id
             (with_db w (stored name doc d)) (stored name doc d) oid
             (eq_refl : db (with_db w (stored name doc d)) = Some (stored name doc d))
             Hbson Hoid).
  now rewrite (find_one_stored name doc d oid entry Hfind).
Qed.

Lemma served_datasets_stay_witness :
  get_dataset "000000000000000000000000"
    (snd (upload_dataset "mixed.csv" (Some "Mixed") (exhausted mixed_rows) stocked_world))
  = (Return {| id := "000000000000000000000000"; body := small_dataset |},
     snd (upload_dataset "mixed.csv" (Some "Mixed") (exhausted mixed_rows) stocked_world)).
Proof.
  apply (served_datasets_stay "000000000000000000000000" _ stocked_world).
  - vm_compute. reflexivity.
  - left. exists "mixed.csv", (Some "Mixed"), (exhausted mixed_rows), second_upload.
    vm_compute. reflexivity.
Defined.

Lemma generate_insights_stored dataset_id w d oid entry :
  db w = Some d -> has_bson w = true ->
  ObjectId.of_string dataset_id = Some oid ->
  find_one (db_collection d "dataset") oid = Some entry ->
  generate_insights dataset_id w
  = (Return {| id := next_id d; body := insight_for dataset_id (snd entry) |},
     with_db w (stored "insight" (insight_for dataset_id (snd entry)) d)).
Proof.
  intros Hdb Hbson Hoid Hfind.
  rewrite (generate_insights_found _ _ _ _ _ Hdb Hbson Hoid Hfind).
  now rewrite insight_details_spec.
Qed.

(** X9.  With the store and [bson] available and a well-formed id, insight
    generation has two outcomes only.  An id without a dataset is answered
    with 404 and nothing is written.  Otherwise the insight is stored in the
    insight collection and returned under a new id: it carries the id as it
    was given, the fixed summary text, and as details the lines of the
    numeric columns followed by those of the categorical ones, none at all
    when no column qualifies; the engine raises nothing. *)
Theorem insights_of_a_stored_dataset dataset_id w d oid :
  db w = Some d -> has_bson w = true ->
  ObjectId.of_string dataset_id = Some oid ->
  generate_insights dataset_id w
  = match find_one (db_collection d "dataset") oid with
    | None => (HTTPException 404 "Dataset not found", w)
    | Some entry =>
        (Return {| id := next_id d; body := insight_for dataset_id (snd entry) |},
         with_db w (stored "insight" (insight_for dataset_id (snd entry)) d))
    end.
Proof.
  intros Hdb Hbson Hoid.
  destruct (find_one (db_collection d "dataset") oid) as [[o doc]|] eqn:Hfind.
  - exact (generate_insights_stored _ _ _ _ _ Hdb Hbson Hoid Hfind).
  - now apply (generate_insights_missing _ _ _ _ Hdb Hbson Hoid).
Qed.

Lemma insights_of_a_stored_dataset_witness :
  generate_insights "000000000000000000000000" stocked_world
  = (Return {| id := next_id stocked_db;
               body := insight_for "000000000000000000000000" small_dataset |},
     with_db stocked_world
       (stored "insight" (insight_for "000000000000000000000000" small_dataset)
          stocked_db)).
Proof.
  exact (insights_of_a_stored_dataset "000000000000000000000000" stocked_world
           stocked_db (counter_id 0) stocked_world_db eq_refl eq_refl).
Defined.

(** X10.  Insights can be asked for again: when a request for the insights
    of a dataset succeeds, the same request on the store it leaves succeeds
    too, with the same dataset id, summary and details (each request stores
    an insight document of its own). *)
Theorem insights_are_repeatable dataset_id w r1 w1 :
  generate_insights dataset_id w = (Return r1, w1) ->
  exists r2 w2,
    generate_insights dataset_id w1 = (Return r2, w2) /\ body r2 = body r1.
Proof.
  intros H.
  destruct (generate_insights_returns _ _ _ _ H)
    as (d & oid & entry & details & Hdb & Hbson & Hoid & Hfind & Hdet & -> & ->).
  cbn [body].
  rewrite (generate_insights_found dataset_id _ _ oid entry
             (eq_refl : db (with_db w _) = Some _) Hbson Hoid
             (find_one_stored _ _ _ _ _ Hfind)).
  rewrite Hdet. cbn zeta. eauto.
Qed.

Lemma insights_are_repeatable_witness :
  exists r2 w2,
    generate_insights "000000000000000000000000"
      (snd (generate_insights "000000000000000000000000" stocked_world))
    = (Return r2, w2)
    /\ body r2 = insight_for "000000000000000000000000" small_dataset.
Proof.
  apply (insights_are_repeatable "000000000000000000000000" stocked_world
           {| id := next_id stocked_db;
              body := insight_for "000000000000000000000000" small_dataset |}).
  vm_compute. reflexivity.
Defined.

Lemma numeric_detail_grows sample details col details' :
  numeric_detail sample details col = Return details' ->
  List.length details' <= List.length details + 1.
Proof.
  unfold numeric_detail.
  destruct (fold_left (collect_val col) sample []) as [|v vals].
  - intros [= <-]. lia.
  - destruct (PyFloat.py_min _); cbn [expect obind]; [|discriminate].
    destruct (PyFloat.py_max _); cbn [expect obind]; [|discriminate].
    destruct (PyFloat.truediv _ _); cbn [expect obind]; [|discriminate].
    intros [= <-]. rewrite length_app. simpl. lia.
Qed.

Lemma categorical_detail_grows sample details col details' :
  categorical_detail sample details col = Return details' ->
  List.length details' <= List.length details + 1.
Proof.
  rewrite categorical_detail_lines. intros [= <-]. rewrite length_app.
  unfold categorical_lines, categorical_detail.
  destruct (Counter _); [simpl; lia|].
  destruct (hd_error _); cbn [expect obind]; simpl; lia.
Qed.

Lemma for_each_grows (body : list string -> column_key -> outcome (list string)) :
  (forall details col details',
     body details col = Return details' ->
     List.length details' <= List.length details + 1) ->
  forall cols details details',
    for_each body cols details = Return details' ->
    List.length details' <= List.length details + List.length cols.
Proof.
  intros Hbody cols. induction cols as [|col cols IH]; intros details details' H;
    cbn [for_each] in H.
  - injection H as <-. simpl. lia.
  - destruct (body details col) as [d1| |] eqn:E; cbn [obind] in H; try discriminate.
    apply Hbody in E. apply IH in H. simpl. lia.
Qed.

Lemma exclusive_filters {A : Type} (f g : A -> bool) (l : list A) :
  (forall x, f x && g x = false) ->
  List.length (filter f l) + List.length (filter g l) <= List.length l.
Proof.
  intros H. induction l as [|x l IH]; [simpl; lia|].
  cbn [filter]. specialize (H x).
  destruct (f x), (g x); try discriminate; simpl; lia.
Qed.

(** X11.  The details never hold more lines than the dataset has column
    descriptors: no column is both numeric and categorical, and a column
    adds one line at most. *)
Theorem details_at_most_one_per_column doc details :
  insight_details doc = Return details ->
  List.length details <= List.length (doc_columns doc).
Proof.
  unfold insight_details. intros H.
  destruct (for_each (numeric_detail (doc_sample doc))
              (numeric_cols (doc_columns doc)) []) as [d1| |] eqn:E1;
    cbn [obind] in H; try discriminate.
  apply (for_each_grows _ (numeric_detail_grows (doc_sample doc))) in E1.
  apply (for_each_grows _ (categorical_detail_grows (doc_sample doc))) in H.
  unfold numeric_cols in E1. unfold categorical_cols in H.
  rewrite length_map in E1. rewrite length_map in H.
  change (List.length (@nil string)) with 0 in E1.
  assert (Hex : List.length
                  (filter (fun c => existsb (String.eqb (col_type c)) ["int"; "float"])
                     (doc_columns doc))
                + List.length
                    (filter (fun c => (col_type c =? "string")%string)
                       (doc_columns doc))
                <= List.length (doc_columns doc)).
  { apply exclusive_filters. intros c. cbn [existsb].
    destruct (String.eqb_spec (col_type c) "string") as [-> | _];
      [reflexivity | apply andb_false_r]. }
  lia.
Qed.

Lemma details_at_most_one_per_column_witness :
  List.length ["n: avg 2.00, min 1.00, max 3.00 based on sample";
               "t: most frequent value is 'x' (2 occurrences in sample)"]
  <= List.length (doc_columns small_dataset).
Proof.
  apply (details_at_most_one_per_column small_dataset).
  vm_compute. reflexivity.
Defined.

(** X12.  On a store whose ids are in order and not used up, with [bson]
    available, the insights of a dataset that was just uploaded can always
    be generated, whatever the rows were: the request with the id the upload
    returned is answered with an insight, computed from the column
    descriptors and the sample (the first 100 rows) of the dataset. *)
Theorem uploaded_dataset_has_insights filename name reader w d res w' :
  store_ok d -> (inserted d < id_space)%N ->
  db w = Some d -> has_bson w = true ->
  upload_dataset filename name reader w = (Return res, w') ->
  exists ds ins w'',
    body res = DatasetDoc ds
    /\ ds_sample ds = firstn 100 (yielded reader)
    /\ generate_insights (id res) w' = (Return ins, w'')
    /\ body ins = insight_for (id res) (DatasetDoc ds).
Proof.
  intros Hok Hlt Hdb Hbson Hup.
  destruct (upload_dataset_returns _ _ _ _ _ _ Hup) as (ds & d' & Hex & Hdb' & -> & ->).
  rewrite Hdb in Hdb'. injection Hdb' as <-.
  destruct (extract_returns _ _ _ _ Hex) as (st & _ & Hinv & _ & Hs & _).
  assert (Hsample : ds_sample ds = firstn 100 (yielded reader)).
  { rewrite Hs. exact (inv_rows _ _ Hinv). }
  pose proof (generate_insights_stored
                (ObjectId.to_string (counter_id (inserted d)))
                (with_db w (stored "dataset" (DatasetDoc ds) d))
                (stored "dataset" (DatasetDoc ds) d)
                (counter_id (inserted d)) (counter_id (inserted d), DatasetDoc ds)
                eq_refl Hbson (counter_id_round_trip _)) as Hgen.
  exists ds. do 2 eexists. split; [reflexivity|]. split; [exact Hsample|].
  cbn [id]. split.
  - apply Hgen. apply find_one_in.
    + apply (so_nodup _ (store_ok_stored _ _ _ Hok Hlt)).
    + rewrite db_collection_stored, String.eqb_refl.
      apply in_or_app. right. now left.
  - reflexivity.
Qed.

Lemma uploaded_dataset_has_insights_witness :
  exists ds ins w'',
    body many_upload = DatasetDoc ds
    /\ ds_sample ds = firstn 100 many_rows
    /\ generate_insights (id many_upload)
         (snd (upload_dataset "many.csv" (Some "Many") (exhausted many_rows) fresh_world))
       = (Return ins, w'')
    /\ body ins = insight_for (id many_upload) (DatasetDoc ds).
Proof.
  apply (uploaded_dataset_has_insights "many.csv" (Some "Many") (exhausted many_rows)
           fresh_world fresh_db many_upload).
  - apply store_ok_empty.
  - vm_compute. reflexivity.
  - reflexivity.
  - reflexivity.
  - vm_compute. reflexivity.
Defined.

Lemma counter_id_mod k k' :
  counter_id k = counter_id k' -> (k mod id_space = k' mod id_space)%N.
Proof.
  unfold counter_id, id_space. intros H.
  apply of_counter_injective in H as [H _]; [exact H | reflexivity].
Qed.

(** X13.  On a store whose ids are in order and not used up, with [bson]
    available, a chart can be saved for a dataset as soon as the dataset is
    uploaded: a chart request naming the id the upload returned is stored
    and returned under a new id. *)
Theorem uploaded_dataset_takes_charts filename name reader w d res w' payload :
  store_ok d -> (inserted d < id_space)%N ->
  db w = Some d -> has_bson w = true ->
  upload_dataset filename name reader w = (Return res, w') ->
  ch_dataset_id payload = id res ->
  exists d',
    db w' = Some d'
    /\ save_chart payload w'
       = (Return {| id := next_id d'; body := ChartDoc payload |},
          with_db w' (stored "chart" (ChartDoc payload) d'))
    /\ next_id d' <> id res.
Proof.
  intros Hok Hlt Hdb Hbson Hup Hid.
  destruct (upload_dataset_returns _ _ _ _ _ _ Hup) as (ds & d' & Hex & Hdb' & -> & ->).
  rewrite Hdb in Hdb'. injection Hdb' as <-. cbn [id] in Hid.
  exists (stored "dataset" (DatasetDoc ds) d). split; [reflexivity|]. split.
  - rewrite (save_chart_well_formed payload
               (with_db w (stored "dataset" (DatasetDoc ds) d))
               (stored "dataset" (DatasetDoc ds) d)
               (counter_id (inserted d)) eq_refl Hbson).
    2:{ rewrite Hid. apply counter_id_round_trip. }
    rewrite (find_one_in _ (counter_id (inserted d)) (DatasetDoc ds)).
    + reflexivity.
    + apply (so_nodup _ (store_ok_stored _ _ _ Hok Hlt)).
    + rewrite db_collection_stored, String.eqb_refl.
      apply in_or_app. right. now left.
  - unfold next_id. cbn [stored inserted id]. intros Heq.
    assert (Hsome : Some (counter_id (inserted d + 1)) = Some (counter_id (inserted d))).
    { rewrite <- !counter_id_round_trip. now rewrite Heq. }
    assert (Hc : counter_id (inserted d + 1) = counter_id (inserted d))
      by congruence.
    apply counter_id_mod in Hc as Hmod.
    rewrite (N.mod_small (inserted d)) in Hmod by assumption.
    destruct (N.eq_dec (inserted d + 1) id_space) as [E | E].
    + rewrite E, N.Div0.mod_same in Hmod.
      assert (Hsp : (1 < id_space)%N) by (vm_compute; reflexivity). lia.
    + rewrite N.mod_small in Hmod by lia. lia.
Qed.

Lemma uploaded_dataset_takes_charts_witness :
  exists d',
    db (snd (upload_dataset "mixed.csv" (Some "Mixed") (exhausted mixed_rows) fresh_world))
    = Some d'
    /\ save_chart (some_chart "000000000000000000000000")
         (snd (upload_dataset "mixed.csv" (Some "Mixed") (exhausted mixed_rows) fresh_world))
       = (Return {| id := next_id d';
                    body := ChartDoc (some_chart "000000000000000000000000") |},
          with_db
            (snd (upload_dataset "mixed.csv" (Some "Mixed") (exhausted mixed_rows) fresh_world))
            (stored "chart" (ChartDoc (some_chart "000000000000000000000000")) d'))
    /\ next_id d' <> id mixed_upload.
Proof.
  apply (uploaded_dataset_takes_charts "mixed.csv" (Some "Mixed") (exhausted mixed_rows)
           fresh_world fresh_db mixed_upload).
  - apply store_ok_empty.
  - vm_compute. reflexivity.
  - reflexivity.
  - reflexivity.
  - vm_compute. reflexivity.
  - reflexivity.
Defined.

(* ================================================================== *)
(** * Which ids the handlers take *)
(* ================================================================== *)

(** X16.  With the store and [bson] available, an id that is not 24
    characters long is answered by none of the three handlers that look a
    dataset up: the [InvalidId] of the [ObjectId] constructor escapes each
    of them, and nothing is written. *)
Theorem ids_of_other_lengths_escape dataset_id w d :
  db w = Some d -> has_bson w = true ->
  String.length dataset_id <> 24 ->
  get_dataset dataset_id w = (Raised "InvalidId", w)
  /\ generate_insights dataset_id w = (Raised "InvalidId", w)
  /\ forall payload,
       ch_dataset_id payload = dataset_id ->
       save_chart payload w = (Raised "InvalidId", w).
Proof.
  intros Hdb Hbson Hlen.
  assert (Hoid : ObjectId.of_string dataset_id = None).
  { unfold ObjectId.of_string. apply Nat.eqb_neq in Hlen. now rewrite Hlen. }
  split; [now apply (get_dataset_malformed _ _ d)|]. split.
  - unfold generate_insights. now rewrite Hdb, Hbson, Hoid.
  - intros payload Hp. apply (save_chart_malformed _ _ d); auto. now rewrite Hp.
Qed.

Lemma ids_of_other_lengths_escape_witness :
  get_dataset "42" stocked_world = (Raised "InvalidId", stocked_world)
  /\ generate_insights "42" stocked_world = (Raised "InvalidId", stocked_world)
  /\ forall payload,
       ch_dataset_id payload = "42" ->
       save_chart payload stocked_world = (Raised "InvalidId", stocked_world).
Proof.
  apply (ids_of_other_lengths_escape "42" stocked_world stocked_db).
  - vm_compute. reflexivity.
  - reflexivity.
  - vm_compute. discriminate.
Defined.

Lemma hex_is_not_space c : is_hex c = true -> ObjectId.is_ascii_space c = false.
Proof.
  destruct c as [b0 b1 b2 b3 b4 b5 b6 b7].
  destruct b0, b1, b2, b3, b4, b5, b6, b7; vm_compute; congruence.
Qed.

Lemma fromhex_all_hex n : forall s,
  String.length s = 2 * n -> all_hex s = true ->
  exists o, ObjectId.fromhex s = Some o /\ List.length o = n.
Proof.
  induction n as [|n IH]; intros s Hlen Hhex.
  - destruct s; [|discriminate]. exists []. split; reflexivity.
  - destruct s as [|a [|b s]]; try (simpl in Hlen; lia).
    cbn [String.length] in Hlen.
    cbn [all_hex] in Hhex. apply andb_prop in Hhex as [Ha Hhex].
    apply andb_prop in Hhex as [Hb Hhex].
    destruct (IH s ltac:(lia) Hhex) as (o & Ho & Hlo).
    cbn [ObjectId.fromhex]. rewrite (hex_is_not_space a Ha).
    unfold is_hex in Ha, Hb.
    destruct (ObjectId.hex_val a) as [hi|]; [|discriminate].
    destruct (ObjectId.hex_val b) as [lo|]; [|discriminate].
    rewrite Ho. eexists. split; [reflexivity|]. simpl. now rewrite Hlo.
Qed.

(** X17.  With the store and [bson] available, an id of 24 hexadecimal
    digits, in either case, is always answered: with a record of the dataset
    collection, or with 404. *)
Theorem hex_ids_are_answered dataset_id w d :
  db w = Some d -> has_bson w = true ->
  String.length dataset_id = 24 -> all_hex dataset_id = true ->
  get_dataset dataset_id w = (HTTPException 404 "Dataset not found", w)
  \/ exists entry,
       In entry (db_collection d "dataset")
       /\ get_dataset dataset_id w = (Return (serialize_doc entry), w).
Proof.
  intros Hdb Hbson Hlen Hhex.
  destruct (fromhex_all_hex 12 dataset_id Hlen Hhex) as (oid & Hoid & _).
  assert (Hof : ObjectId.of_string dataset_id = Some oid).
  { unfold ObjectId.of_string. now rewrite Hlen. }
  rewrite (get_dataset_well_formed _ _ _ _ Hdb Hbson Hof).
  destruct (find_one (db_collection d "dataset") oid) as [entry|] eqn:Hfind.
  - right. exists entry. split; [|reflexivity]. now apply find_one_some in Hfind.
  - now left.
Qed.

Lemma hex_ids_are_answered_witness :
  get_dataset "0000000000000000000000AB" stocked_world
  = (HTTPException 404 "Dataset not found", stocked_world)
  \/ exists entry,
       In entry (db_collection stocked_db "dataset")
       /\ get_dataset "0000000000000000000000AB" stocked_world
          = (Return (serialize_doc entry), stocked_world).
Proof.
  apply (hex_ids_are_answered "0000000000000000000000AB" stocked_world stocked_db).
  - vm_compute. reflexivity.
  - reflexivity.
  - reflexivity.
  - reflexivity.
Defined.

(* ================================================================== *)
(** * Blank cells *)
(* ================================================================== *)

Section Stripping.
Variable sp : ascii -> bool.

Lemma lstrip_of_empty s : PyStr.lstrip_of sp s = "" <-> all_of sp s = true.
Proof.
  induction s as [|c s IH]; cbn [PyStr.lstrip_of all_of]; [tauto|].
  destruct (sp c); cbn [andb]; [exact IH|].
  split; discriminate.
Qed.

Lemma rstrip_of_empty s : PyStr.rstrip_of sp s = "" <-> all_of sp s = true.
Proof.
  induction s as [|c s IH]; cbn [PyStr.rstrip_of all_of]; [tauto|].
  destruct (PyStr.rstrip_of sp s) eqn:E.
  - destruct (sp c); cbn [andb].
    + split; [intros _; now apply IH | reflexivity].
    + split; discriminate.
  - split; [discriminate|]. intros H. apply andb_prop in H as [_ H].
    apply IH in H. discriminate.
Qed.

Lemma all_of_lstrip s : all_of sp (PyStr.lstrip_of sp s) = all_of sp s.
Proof.
  induction s as [|c s IH]; [reflexivity|]. cbn [PyStr.lstrip_of].
  destruct (sp c) eqn:E; [|reflexivity].
  cbn [all_of]. now rewrite E, IH.
Qed.

Lemma strip_of_empty s : PyStr.strip_of sp s = "" <-> all_of sp s = true.
Proof. unfold PyStr.strip_of. now rewrite rstrip_of_empty, all_of_lstrip. Qed.

Lemma lstrip_of_lead l x :
  all_of sp l = true -> PyStr.lstrip_of sp (l ++ x) = PyStr.lstrip_of sp x.
Proof.
  induction l as [|c l IH]; intros Hl; [reflexivity|].
  cbn [all_of] in Hl. apply andb_prop in Hl as [Hc Hl].
  cbn [String.append PyStr.lstrip_of]. rewrite Hc. now apply IH.
Qed.

Lemma rstrip_of_trail y r :
  all_of sp r = true -> PyStr.rstrip_of sp (y ++ r) = PyStr.rstrip_of sp y.
Proof.
  intros Hr. induction y as [|c y IH]; cbn [String.append].
  - now apply rstrip_of_empty.
  - cbn [PyStr.rstrip_of]. now rewrite IH.
Qed.

Lemma lstrip_of_trail y r :
  all_of sp r = true ->
  exists r',
    all_of sp r' = true
    /\ PyStr.lstrip_of sp (y ++ r) = (PyStr.lstrip_of sp y ++ r')%string.
Proof.
  intros Hr. induction y as [|c y IH]; cbn [String.append].
  - exists "". split; [reflexivity|]. now apply lstrip_of_empty.
  - cbn [PyStr.lstrip_of]. destruct (sp c); [exact IH|].
    exists r. split; [exact Hr | reflexivity].
Qed.

(** The characters of the class around a text are removed with the
    text's own. *)
Lemma strip_of_around l y r :
  all_of sp l = true -> all_of sp r = true ->
  PyStr.strip_of sp (l ++ y ++ r) = PyStr.strip_of sp y.
Proof.
  intros Hl Hr. unfold PyStr.strip_of. rewrite (lstrip_of_lead l _ Hl).
  destruct (lstrip_of_trail y r Hr) as (r' & Hr' & ->).
  now apply rstrip_of_trail.
Qed.

Lemma lstrip_of_split s :
  exists l, all_of sp l = true /\ s = (l ++ PyStr.lstrip_of sp s)%string.
Proof.
  induction s as [|c s (l & Hl & IH)].
  - exists "". split; reflexivity.
  - cbn [PyStr.lstrip_of]. destruct (sp c) eqn:E.
    + exists (String c l). split.
      * cbn [all_of]. now rewrite E, Hl.
      * cbn [String.append]. now rewrite <- IH.
    + exists "". split; reflexivity.
Qed.

Lemma rstrip_of_split s :
  exists r, all_of sp r = true /\ s = (PyStr.rstrip_of sp s ++ r)%string.
Proof.
  induction s as [|c s (r & Hr & IH)].
  - exists "". split; reflexivity.
  - cbn [PyStr.rstrip_of]. destruct (PyStr.rstrip_of sp s) as [|c' q] eqn:E.
    + cbn [String.append] in IH. subst s.
      destruct (sp c) eqn:Ec.
      * exists (String c r). split; [|reflexivity].
        cbn [all_of]. now rewrite Ec, Hr.
      * exists r. split; [exact Hr | reflexivity].
    + exists r. split; [exact Hr|]. cbn [String.append]. f_equal. exact IH.
Qed.

(** A text is what stripping leaves of it, between characters of the
    class. *)
Lemma strip_of_split s :
  exists l r,
    all_of sp l = true /\ all_of sp r = true
    /\ s = (l ++ PyStr.strip_of sp s ++ r)%string.
Proof.
  destruct (lstrip_of_split s) as (l & Hl & Hs).
  destruct (rstrip_of_split (PyStr.lstrip_of sp s)) as (r & Hr & Ht).
  exists l, r. split; [exact Hl|]. split; [exact Hr|].
  unfold PyStr.strip_of. now rewrite <- Ht.
Qed.
End Stripping.

Lemma strip_empty s : PyStr.strip s = "" <-> all_space s = true.
Proof. apply strip_of_empty. Qed.

(** X18.  A text is inferred as [null] exactly when it consists of
    whitespace only (the empty text included); in particular a missing cell
    votes [null]. *)
Theorem null_is_blank (value : string) :
  (infer_type value = "null" <-> all_space value = true)
  /\ infer_type (cell_text VNone) = "null".
Proof.
  split; [|reflexivity]. unfold infer_type.
  destruct (PyStr.strip value =? "")%string eqn:E.
  - apply String.eqb_eq in E. apply strip_empty in E. tauto.
  - apply String.eqb_neq in E. rewrite <- strip_empty.
    destruct (PyStr.to_int value); [split; [discriminate | tauto]|].
    destruct (PyFloat.of_string value); split; try discriminate; tauto.
Qed.

(* ================================================================== *)
(** * Whitespace and numerals *)
(* ================================================================== *)

Lemma drop_underscores_step prev c s :
  PyStr.drop_underscores prev (String c s)
  = if (c =? "_")%char
    then if prev_digit prev then PyStr.drop_underscores (Some c) s else None
    else if prev_us prev
         then if PyStr.is_digit c
              then option_map (String c) (PyStr.drop_underscores (Some c) s)
              else None
         else option_map (String c) (PyStr.drop_underscores (Some c) s).
Proof.
  cbn [PyStr.drop_underscores]. destruct (c =? "_")%char.
  - destruct prev; reflexivity.
  - destruct prev as [p|]; [|reflexivity].
    destruct p as [b0 b1 b2 b3 b4 b5 b6 b7].
    destruct b0, b1, b2, b3, b4, b5, b6, b7; reflexivity.
Qed.

Lemma drop_underscores_end prev :
  PyStr.drop_underscores prev "" = if prev_us prev then None else Some "".
Proof.
  destruct prev as [p|]; [|reflexivity].
  destruct p as [b0 b1 b2 b3 b4 b5 b6 b7].
  destruct b0, b1, b2, b3, b4, b5, b6, b7; reflexivity.
Qed.

(** The check depends on the character before only through what it
    remembers of it. *)
Lemma drop_underscores_prev p q s :
  prev_us p = prev_us q -> prev_digit p = prev_digit q ->
  PyStr.drop_underscores p s = PyStr.drop_underscores q s.
Proof.
  intros Hu Hd. destruct s as [|c s].
  - now rewrite !drop_underscores_end, Hu.
  - now rewrite !drop_underscores_step, Hu, Hd.
Qed.

Lemma number_space_is_plain c :
  PyStr.is_number_space c = true ->
  (c =? "_")%char = false /\ PyStr.is_digit c = false /\ PyStr.is_space c = true.
Proof.
  destruct c as [b0 b1 b2 b3 b4 b5 b6 b7].
  destruct b0, b1, b2, b3, b4, b5, b6, b7; vm_compute; intuition congruence.
Qed.

Lemma number_space_is_space s : all_number_space s = true -> all_space s = true.
Proof.
  unfold all_number_space, all_space.
  induction s as [|c s IH]; [reflexivity|]. cbn [all_of]. intros H.
  apply andb_prop in H as [Hc Hs].
  destruct (number_space_is_plain c Hc) as (_ & _ & ->). now apply IH.
Qed.

Lemma drop_underscores_spaces r : forall p,
  all_number_space r = true -> prev_us p = false ->
  PyStr.drop_underscores p r = Some r.
Proof.
  unfold all_number_space.
  induction r as [|c r IH]; intros p Hr Hp.
  - now rewrite drop_underscores_end, Hp.
  - cbn [all_of] in Hr. apply andb_prop in Hr as [Hc Hr].
    destruct (number_space_is_plain c Hc) as (Hus & _ & _).
    rewrite drop_underscores_step, Hus, Hp.
    now rewrite (IH (Some c) Hr Hus).
Qed.

(** Whitespace in front passes the check and changes nothing after it. *)
Lemma drop_underscores_lead l : forall p x,
  all_number_space l = true -> prev_us p = false -> prev_digit p = false ->
  PyStr.drop_underscores p (l ++ x)
  = option_map (String.append l) (PyStr.drop_underscores p x).
Proof.
  unfold all_number_space.
  induction l as [|c l IH]; intros p x Hl Hu Hd; cbn [String.append].
  - destruct (PyStr.drop_underscores p x); reflexivity.
  - cbn [all_of] in Hl. apply andb_prop in Hl as [Hc Hl].
    destruct (number_space_is_plain c Hc) as (Hus & Hdig & _).
    rewrite drop_underscores_step, Hus, Hu.
    rewrite (IH (Some c) x Hl Hus Hdig).
    rewrite (drop_underscores_prev (Some c) p x)
      by (cbn [prev_us prev_digit]; congruence).
    destruct (PyStr.drop_underscores p x); reflexivity.
Qed.

(** Whitespace at the end passes the check exactly when the text before it
    does. *)
Lemma drop_underscores_trail y : forall p r,
  all_number_space r = true ->
  PyStr.drop_underscores p (y ++ r)
  = option_map (fun y' => (y' ++ r)%string) (PyStr.drop_underscores p y).
Proof.
  induction y as [|c y IH]; intros p r Hr; cbn [String.append].
  - rewrite drop_underscores_end. destruct (prev_us p) eqn:Hp.
    + destruct r as [|c r]; [now rewrite drop_underscores_end, Hp|].
      unfold all_number_space in Hr.
      cbn [all_of] in Hr. apply andb_prop in Hr as [Hc _].
      destruct (number_space_is_plain c Hc) as (Hus & Hdig & _).
      now rewrite drop_underscores_step, Hus, Hp, Hdig.
    + now apply drop_underscores_spaces.
  - rewrite !drop_underscores_step, (IH (Some c) r Hr).
    destruct (c =? "_")%char; [destruct (prev_digit p); reflexivity|].
    destruct (prev_us p); [destruct (PyStr.is_digit c); [|reflexivity]|];
      destruct (PyStr.drop_underscores (Some c) y); reflexivity.
Qed.

(** ** Reading numbers *)

Lemma number_strip_around l s r :
  all_number_space l = true -> all_number_space r = true ->
  PyStr.number_strip (l ++ s ++ r) = PyStr.number_strip s.
Proof. apply strip_of_around. Qed.

Lemma to_int_around l s r :
  all_number_space l = true -> all_number_space r = true ->
  PyStr.to_int (l ++ s ++ r) = PyStr.to_int s.
Proof.
  intros Hl Hr. unfold PyStr.to_int. now rewrite number_strip_around.
Qed.

Lemma of_string_around l s r :
  all_number_space l = true -> all_number_space r = true ->
  PyFloat.of_string (l ++ s ++ r) = PyFloat.of_string s.
Proof.
  intros Hl Hr. unfold PyFloat.of_string.
  rewrite (drop_underscores_lead l None (s ++ r) Hl eq_refl eq_refl).
  rewrite (drop_underscores_trail s None r Hr).
  destruct (PyStr.drop_underscores None s) as [s1|]; cbn [option_map]; [|reflexivity].
  now rewrite number_strip_around.
Qed.

(** X19.  The whitespace that [int] and [float] discard (tabs, line breaks,
    spaces, U+0085 and U+00A0) never changes the inferred type of a cell
    when it stands before or after its text.  The separators U+001C to
    U+001F do: [str.strip] removes them, so the cell is not blank, but no
    number is read past them. *)
Theorem infer_type_ignores_padding :
  (forall l s r : string,
     all_number_space l = true -> all_number_space r = true ->
     infer_type (l ++ s ++ r) = infer_type s)
  /\ all_space (String (ascii_of_N 28) "") = true
  /\ infer_type (String (ascii_of_N 28) "5") = "string"
  /\ infer_type "5" = "int".
Proof.
  split; [|repeat split; vm_compute; reflexivity].
  intros l s r Hl Hr. unfold infer_type, PyStr.strip.
  rewrite (strip_of_around PyStr.is_space l s r)
    by (apply number_space_is_space; assumption).
  now rewrite to_int_around, of_string_around.
Qed.

Lemma infer_type_ignores_padding_witness :
  infer_type "  -1_000.5e3 " = infer_type "-1_000.5e3".
Proof.
  exact (proj1 infer_type_ignores_padding "  " "-1_000.5e3" " " eq_refl eq_refl).
Defined.

(** ** Whole numbers are numbers *)

Lemma take_sign_spec s :
  PyStr.take_sign s
  = match s with
    | String c r =>
        if (c =? "-")%char then (true, r)
        else if (c =? "+")%char then (false, r) else (false, s)
    | EmptyString => (false, s)
    end.
Proof.
  destruct s as [|c r]; [reflexivity|].
  destruct c as [b0 b1 b2 b3 b4 b5 b6 b7].
  destruct b0, b1, b2, b3, b4, b5, b6, b7; reflexivity.
Qed.

Lemma take_digits_spec s : forall p r,
  PyStr.take_digits s = (p, r) -> s = (p ++ r)%string /\ all_digits p = true.
Proof.
  induction s as [|c s IH]; intros p r H; cbn [PyStr.take_digits] in H.
  - injection H as <- <-. split; reflexivity.
  - destruct (PyStr.is_digit c) eqn:E.
    + destruct (PyStr.take_digits s) as [d r'] eqn:Hd. injection H as <- <-.
      destruct (IH d r' eq_refl) as [-> Hall]. split; [reflexivity|].
      change (all_digits (String c d)) with (PyStr.is_digit c && all_digits d).
      now rewrite E, Hall.
    + injection H as <- <-. split; reflexivity.
Qed.

Lemma take_digits_all ds : all_digits ds = true -> PyStr.take_digits ds = (ds, "").
Proof.
  induction ds as [|c ds IH]; intros H; [reflexivity|].
  change (all_digits (String c ds)) with (PyStr.is_digit c && all_digits ds) in H.
  apply andb_prop in H as [Hc Hds].
  cbn [PyStr.take_digits]. now rewrite Hc, (IH Hds).
Qed.

Lemma digit_is_plain c :
  PyStr.is_digit c = true ->
  PyStr.is_number_space c = false /\ PyStr.lower_char c = c
  /\ (c =? "-")%char = false /\ (c =? "+")%char = false
  /\ (c =? "i")%char = false /\ (c =? "n")%char = false.
Proof.
  destruct c as [b0 b1 b2 b3 b4 b5 b6 b7].
  destruct b0, b1, b2, b3, b4, b5, b6, b7; vm_compute; intuition congruence.
Qed.

Lemma rstrip_digits ds :
  all_digits ds = true -> PyStr.rstrip_of PyStr.is_number_space ds = ds.
Proof.
  induction ds as [|c ds IH]; intros H; [reflexivity|].
  change (all_digits (String c ds)) with (PyStr.is_digit c && all_digits ds) in H.
  apply andb_prop in H as [Hc Hds].
  cbn [PyStr.rstrip_of]. rewrite (IH Hds).
  destruct ds; [|reflexivity].
  now rewrite (proj1 (digit_is_plain c Hc)).
Qed.

(** The rest of [float] on a sign and digits. *)
Lemma float_of_digits neg c d :
  all_digits (String c d) = true ->
  exists x,
    (let low := PyStr.lower (String c d) in
     if ((low =? "inf") || (low =? "infinity"))%string
     then Some (S754_infinity neg)
     else if (low =? "nan")%string then Some S754_nan
     else option_map (fun me => PyFloat.of_decimal neg (fst me) (snd me))
            (PyFloat.parse_decimal (String c d)))
    = Some x.
Proof.
  intros Hall. pose proof Hall as Hall'.
  change (all_digits (String c d)) with (PyStr.is_digit c && all_digits d) in Hall'.
  apply andb_prop in Hall' as [Hc _].
  destruct (digit_is_plain c Hc) as (_ & Hlow & _ & _ & Hi & Hn).
  cbn zeta. cbn [PyStr.lower String.eqb]. rewrite Hlow, Hi, Hn. cbn [andb orb].
  unfold PyFloat.parse_decimal. rewrite (take_digits_all _ Hall).
  cbn [String.append PyFloat.parse_exponent option_map]. eauto.
Qed.

Lemma append_empty_r s : (s ++ "")%string = s.
Proof. induction s as [|c s IH]; [reflexivity|]. cbn [String.append]. now rewrite IH. Qed.

(** What [int] accepts is, once stripped, a sign and digits with
    separators. *)
Lemma to_int_shape s z :
  PyStr.to_int s = Some z ->
  exists neg body c d,
    PyStr.take_sign (PyStr.number_strip s) = (neg, body)
    /\ PyStr.drop_underscores None body = Some (String c d)
    /\ all_digits (String c d) = true.
Proof.
  unfold PyStr.to_int. destruct (PyStr.take_sign _) as [neg body].
  destruct (PyStr.drop_underscores None body) as [ds|] eqn:Hdrop; [|discriminate].
  destruct (PyStr.take_digits ds) as [[|c d] [|? ?]] eqn:Htd; try discriminate.
  intros _. apply take_digits_spec in Htd as [-> Hall].
  rewrite append_empty_r in Hdrop.
  exists neg, body, c, d. split; [reflexivity|]. split; [exact Hdrop | exact Hall].
Qed.

Lemma digits_strip c d :
  all_digits (String c d) = true ->
  PyStr.number_strip (String c d) = String c d.
Proof.
  intros Hall. pose proof Hall as Hall'.
  change (all_digits (String c d)) with (PyStr.is_digit c && all_digits d) in Hall'.
  apply andb_prop in Hall' as [Hc _].
  destruct (digit_is_plain c Hc) as (Hsp & _).
  unfold PyStr.number_strip, PyStr.strip_of. cbn [PyStr.lstrip_of]. rewrite Hsp.
  now apply rstrip_digits.
Qed.

Lemma signed_digits_strip c0 c d :
  PyStr.is_number_space c0 = false -> all_digits (String c d) = true ->
  PyStr.number_strip (String c0 (String c d)) = String c0 (String c d).
Proof.
  intros Hsp Hall. unfold PyStr.number_strip, PyStr.strip_of.
  cbn [PyStr.lstrip_of]. rewrite Hsp.
  change (PyStr.rstrip_of PyStr.is_number_space (String c0 (String c d)))
    with (match PyStr.rstrip_of PyStr.is_number_space (String c d) with
          | EmptyString =>
              if PyStr.is_number_space c0 then EmptyString else String c0 EmptyString
          | String a b => String c0 (String a b)
          end).
  now rewrite (rstrip_digits _ Hall).
Qed.

(** A sign in front passes the separator check with what follows it. *)
Lemma drop_underscores_signed c0 t :
  (c0 =? "-")%char = true \/ (c0 =? "+")%char = true ->
  PyStr.is_number_space c0 = false
  /\ PyStr.drop_underscores None (String c0 t)
     = option_map (String c0) (PyStr.drop_underscores None t).
Proof.
  intros [E | E]; apply Ascii.eqb_eq in E; subst c0; (split; [reflexivity|]);
    rewrite drop_underscores_step; cbn [Ascii.eqb Bool.eqb prev_us];
    now rewrite (drop_underscores_prev (Some _) None t) by reflexivity.
Qed.

(** Whatever [int] accepts, [float] accepts. *)
Lemma int_text_is_float_text s z :
  PyStr.to_int s = Some z -> exists x, PyFloat.of_string s = Some x.
Proof.
  intros Hint.
  destruct (to_int_shape s z Hint) as (neg & body & c & d & Hsign & Hdrop & Hall).
  destruct (strip_of_split PyStr.is_number_space s) as (l & r & Hl & Hr & Hs).
  rewrite Hs, (of_string_around l _ r Hl Hr).
  change (PyStr.strip_of PyStr.is_number_space s) with (PyStr.number_strip s).
  set (t := PyStr.number_strip s) in *. clearbody t. clear Hs.
  rewrite take_sign_spec in Hsign. unfold PyFloat.of_string.
  pose proof Hall as Hall'.
  change (all_digits (String c d)) with (PyStr.is_digit c && all_digits d) in Hall'.
  apply andb_prop in Hall' as [Hc _].
  destruct (digit_is_plain c Hc) as (_ & _ & Hm & Hp & _).
  destruct t as [|c0 t].
  - injection Hsign as <- <-. rewrite drop_underscores_end in Hdrop. discriminate.
  - destruct (c0 =? "-")%char eqn:Em; [|destruct (c0 =? "+")%char eqn:Ep].
    + injection Hsign as <- <-.
      destruct (drop_underscores_signed c0 t (or_introl Em)) as [Hsp ->].
      rewrite Hdrop. cbn [option_map].
      rewrite (signed_digits_strip c0 c d Hsp Hall), take_sign_spec, Em.
      apply float_of_digits, Hall.
    + injection Hsign as <- <-.
      destruct (drop_underscores_signed c0 t (or_intror Ep)) as [Hsp ->].
      rewrite Hdrop. cbn [option_map].
      rewrite (signed_digits_strip c0 c d Hsp Hall), take_sign_spec, Em, Ep.
      apply float_of_digits, Hall.
    + injection Hsign as <- <-. rewrite Hdrop.
      rewrite (digits_strip c d Hall), take_sign_spec, Hm, Hp.
      apply float_of_digits, Hall.
Qed.

(** X20.  The type inference and the numeric statistics agree on which text
    cells are numbers: a text cell that is inferred as [int] or [float] is
    always taken into the values of its column, with the float [float]
    reads from it, and a text cell that is inferred as [null] or [string]
    never is.  (What [int] accepts [float] accepts too, so it is the order of
    the two tests that tells whole numbers apart.) *)
Theorem numeric_cells_are_the_int_and_float_votes (col : column_key) (s : string)
    (vals : list PyFloat.float) :
  if ((infer_type s =? "int") || (infer_type s =? "float"))%string
  then exists x,
         PyFloat.of_string s = Some x
         /\ collect_val col vals [(col, VStr s)] = vals ++ [x]
  else collect_val col vals [(col, VStr s)] = vals.
Proof.
  assert (Hcell : cell [(col, VStr s)] col = VStr s).
  { unfold cell. cbn [Dict.get]. now rewrite key_eqb_refl. }
  unfold collect_val. rewrite Hcell. cbn [pyval_eqb orb py_str py_float].
  unfold infer_type.
  destruct (PyStr.strip s =? "")%string; [reflexivity|].
  destruct (PyStr.to_int s) as [z|] eqn:Hint.
  - destruct (int_text_is_float_text s z Hint) as (x & Hx).
    cbn [String.eqb Ascii.eqb Bool.eqb orb]. rewrite Hx. eauto.
  - destruct (PyFloat.of_string s) as [x|]; cbn; eauto.
Qed.
